(** * i3 command layer (src/commands.c): a shallow embedding

    The file follows commands.c from top to bottom: the relative-epsilon
    comparison, the migration harness (capture buffers, frame comparison,
    the nagbar process handle), the criteria functions that build the
    working set [owindows], and the command handlers [cmd_resize],
    [cmd_focus], [cmd_layout], and [cmd_fullscreen] and
    [cmd_move_scratchpad] for the handlers that expand
    [HANDLE_EMPTY_MATCH].

    Conventions.
    - A C pointer is an address in [Z]; [NULL] is 0.  Container structs live
      in a heap [gmap Z Con]; dereferencing an address that is not in the
      heap is undefined behaviour in C and is the outcome [Fault] here.
    - [double] is Rocq's primitive binary64 [float]; a C [float] is a
      [spec_float] produced by rounding to binary32 (precision 24,
      emax 128), the arithmetic being the one of IEEE 754 with
      FLT_EVAL_METHOD 0.
    - A [char*] that may be NULL is an [option string].
    - Functions of other translation units (con.c, tree.c, match.c,
      regex.c, workspace.c) are variables of the section that uses them.
    - The two [while] loops of [cmd_resize] take fuel; [OutOfFuel] is not
      an outcome of the program, and [resize_find_current_ends] shows when
      it does not occur. *)

From Stdlib Require Import ZArith Floats Ascii String List Bool Lia.
From stdpp Require Import gmap strings.
Import ListNotations.

Local Open Scope string_scope.
Local Open Scope list_scope.
Local Open Scope Z_scope.

(** ** Pointers and the outcome of running C code *)

Definition ptr := Z.
Definition NULL : ptr := 0.

Inductive result (A : Type) : Type :=
  | Ok (a : A)
  | Fault        (* NULL or dangling pointer dereferenced *)
  | OutOfFuel.   (* a loop was cut off by the fuel of the model *)
Arguments Ok {A} a.
Arguments Fault {A}.
Arguments OutOfFuel {A}.

#[global] Instance result_ret : MRet result := fun _ a => Ok a.
#[global] Instance result_bind : MBind result := fun _ _ f r =>
  match r with
  | Ok a => f a
  | Fault => Fault
  | OutOfFuel => OutOfFuel
  end.

(** ** Machine integers *)

(** Two's-complement [int] (32 bits). *)
Definition int_wrap (z : Z) : Z := (z + 2 ^ 31) mod 2 ^ 32 - 2 ^ 31.

(** [uint32_t] arithmetic of [Rect] (declared in include/data.h). *)
Definition uint32_wrap (z : Z) : Z := z mod 2 ^ 32.

(** libc: blanks are skipped, then an optional sign, then decimal digits
    up to the first character that is not a digit. *)
Definition is_space (c : ascii) : bool :=
  let n := nat_of_ascii c in
  (n =? 32)%nat || ((9 <=? n)%nat && (n <=? 13)%nat).

Definition digit_of (c : ascii) : option Z :=
  let n := Z.of_nat (nat_of_ascii c) in
  if (48 <=? n) && (n <=? 57) then Some (n - 48) else None.

Fixpoint atoi_blanks (s : string) : string :=
  match s with
  | String c s' => if is_space c then atoi_blanks s' else s
  | EmptyString => s
  end.

(** [long] has 64 bits. *)
Definition LONG_MAX : Z := 2 ^ 63 - 1.
Definition LONG_MIN : Z := - 2 ^ 63.

(** The digits of [strtol]: the value read and the text left over. *)
Fixpoint strtol_digits (acc : Z) (s : string) : Z * string :=
  match s with
  | String c s' =>
      match digit_of c with
      | Some d => strtol_digits (10 * acc + d) s'
      | None => (acc, s)
      end
  | EmptyString => (acc, s)
  end.

(** [strtol(s, &end, 10)]: the value and the text [end] points to.  Blanks
    and one sign are skipped; without a digit after them nothing is
    converted and [end] is [s] itself; a value out of range is clamped. *)
Definition strtol (s : string) : Z * string :=
  let after_blanks := atoi_blanks s in
  let '(negative, digits) :=
    match after_blanks with
    | String "-" r => (true, r)
    | String "+" r => (false, r)
    | _ => (false, after_blanks)
    end in
  match digits with
  | String c _ =>
      match digit_of c with
      | Some _ =>
          let '(v, rest) := strtol_digits 0 digits in
          let v := if negative : bool then - v else v in
          (Z.max LONG_MIN (Z.min LONG_MAX v), rest)
      | None => (0, s)
      end
  | EmptyString => (0, s)
  end.

(** [atoi(s)] of glibc is [(int) strtol(s, NULL, 10)]: the value is
    clamped to the range of [long] first and then cut to 32 bits, so a
    digit string beyond [LONG_MAX] gives -1. *)
Definition atoi (s : string) : Z := int_wrap (fst (strtol s)).

(** ** Floating point *)

(** Conversion of a [double] to [float] (round to nearest even in
    binary32), and the widening of a [float] to [double], which is exact
    and yields the binary64 representation of the same number. *)
Definition float32_round (x : spec_float) : spec_float :=
  match x with
  | S754_finite s m e => binary_round 24 128 s m e
  | _ => x
  end.

Definition to_float (x : float) : spec_float := float32_round (Prim2SF x).

Definition to_double (x : spec_float) : spec_float :=
  match x with
  | S754_finite s m e => binary_round prec emax s m e
  | _ => x
  end.

(** [(double)n] for an [int] n. *)
Definition double_of_int (n : Z) : float :=
  SF2Prim (binary_normalize prec emax n 0 false).

(** 0.05 as a [double] literal: the binary64 number nearest to 1/20. *)
Definition floor_percent : float := 0x1.999999999999ap-5%float.

(** [DBL_EPSILON] of <float.h>: 2^-52. *)
Definition DBL_EPSILON : float := 0x1p-52%float.

(** [definitelyGreaterThan]: the parameters are C [float]s.  [fabs] takes
    and returns [double], so the maximum and its product with [epsilon]
    are computed in binary64; the difference [a - b] is a [float]
    subtraction, widened for the comparison. *)
Definition definitelyGreaterThan (a b epsilon : spec_float) : bool :=
  let fabs_a := SFabs (to_double a) in
  let fabs_b := SFabs (to_double b) in
  SFltb
    (SF64mul (if SFltb fabs_a fabs_b then fabs_b else fabs_a) (to_double epsilon))
    (to_double (SFsub 24 128 a b)).

(** The call of line 619: [definitelyGreaterThan(x, 0.05, DBL_EPSILON)] with
    a [double] x; the three arguments are converted to [float]. *)
Definition above_floor (x : float) : bool :=
  definitelyGreaterThan (to_float x) (to_float floor_percent) (to_float DBL_EPSILON).

(** ** Data model (include/data.h, as far as commands.c uses it) *)

(** [struct regex]: the compiled program is a function of the pattern
    text, which is what commands.c reads. *)
Record regex := { pattern : string }.

(** [Match]: six regex predicates (NULL when absent) and five scalar
    fields. *)
Record Match := {
  match_title : option regex;
  match_application : option regex;
  match_class : option regex;
  match_instance : option regex;
  match_mark : option regex;
  match_role : option regex;
  match_dock : Z;
  match_id : Z;
  match_con_id : ptr;
  match_floating : Z;
  match_insert_where : Z
}.

Record i3Window := {
  win_id : Z;
  win_class : option string;
  win_instance : option string;
  win_role : option string;
  win_name : option string
}.

Inductive con_type_t := CT_WORKSPACE | CT_FLOATING_CON | CT_OTHER (tag : Z).
Inductive layout_t := L_DEFAULT | L_STACKED | L_TABBED | L_OTHER (tag : Z).
Inductive orientation_t := NO_ORIENTATION | HORIZ | VERT.
Inductive fullscreen_mode_t := CF_NONE | CF_OUTPUT | CF_GLOBAL.

#[global] Instance con_type_eq_dec : EqDecision con_type_t.
Proof. solve_decision. Defined.
#[global] Instance layout_eq_dec : EqDecision layout_t.
Proof. solve_decision. Defined.
#[global] Instance orientation_eq_dec : EqDecision orientation_t.
Proof. solve_decision. Defined.
#[global] Instance fullscreen_mode_eq_dec : EqDecision fullscreen_mode_t.
Proof. solve_decision. Defined.

Record Rect := { rect_x : Z; rect_y : Z; rect_width : Z; rect_height : Z }.

(** [Con]: the fields commands.c reads or writes.  [nodes_prev] and
    [nodes_next] are what [TAILQ_PREV(con, nodes_head, nodes)] and
    [TAILQ_NEXT(con, nodes)] evaluate to. *)
Record Con := {
  con_type : con_type_t;
  con_parent : ptr;
  con_layout : layout_t;
  con_orientation : orientation_t;
  con_percent : float;
  con_rect : Rect;
  con_mark : option string;
  con_window : option i3Window;
  con_fullscreen_mode : fullscreen_mode_t;
  nodes_prev : ptr;
  nodes_next : ptr
}.

Definition set_percent (c : Con) (p : float) : Con :=
  {| con_type := con_type c; con_parent := con_parent c;
     con_layout := con_layout c; con_orientation := con_orientation c;
     con_percent := p; con_rect := con_rect c; con_mark := con_mark c;
     con_window := con_window c;
     con_fullscreen_mode := con_fullscreen_mode c;
     nodes_prev := nodes_prev c; nodes_next := nodes_next c |}.

Definition set_rect (c : Con) (r : Rect) : Con :=
  {| con_type := con_type c; con_parent := con_parent c;
     con_layout := con_layout c; con_orientation := con_orientation c;
     con_percent := con_percent c; con_rect := r; con_mark := con_mark c;
     con_window := con_window c;
     con_fullscreen_mode := con_fullscreen_mode c;
     nodes_prev := nodes_prev c; nodes_next := nodes_next c |}.

(** The container tree as commands.c sees it: the structs by address, the
    list [all_cons] and the global [focused]. *)
Record tree := {
  heap : gmap Z Con;
  all_cons : list ptr;
  focused : ptr
}.

Definition set_heap (t : tree) (h : gmap Z Con) : tree :=
  {| heap := h; all_cons := all_cons t; focused := focused t |}.

Definition deref (t : tree) (p : ptr) : result Con :=
  match heap t !! p with
  | Some c => Ok c
  | None => Fault
  end.

(** [stackframe]: [args] holds [args[0 .. n_args-1]]; the frames are
    allocated with scalloc and filled by the save functions, which count
    every parameter, NULL or not. *)
Record stackframe := {
  frame_match : Match;
  args : list (option string)
}.

Definition n_args (f : stackframe) : Z := Z.of_nat (length (args f)).

(** Lines written by LOG, ELOG, fprintf and printf that report what a
    function decided.  DLOG lines are debugging output and are left out,
    and so are the lines that only echo a value or give advice. *)
Inductive log_msg :=
  | FAILED_count (new_count old_count : Z)
  | FAILED_match (frame : Z)
  | FAILED_n_args (new_n_args old_n_args frame : Z)
  | FAILED_arg (j : Z) (new_arg old_arg : option string) (frame : Z)
  | nagbar_already_running
  | nagbar_starting
  | nagbar_fork_failed
  | nagbar_not_exited_normally
  | nagbar_exit_status (exitcode : Z)
  | nagbar_not_found
  | resize_floating
  | resize_tiling
  | resize_wrong_direction (o : orientation_t)
  | resize_no_other_container
  | resize_at_minimum
  | focus_in_fullscreen
  | focus_needs_criteria
  | focus_matches_many (count : Z).

(** The globals of commands.c together with the tree.  [nagbar_procs] is
    not a variable of the program: it lists the i3-nagbar processes that
    were forked and whose end no watcher has reported yet. *)
Record state := {
  st_tree : tree;
  owindows : list ptr;
  migration_test : bool;
  old_stackframes : list stackframe;
  new_stackframes : list stackframe;
  migration_pid : Z;
  child_watchers : list Z;
  nagbar_procs : list Z;
  log : list log_msg
}.

Definition set_tree (s : state) (t : tree) : state :=
  {| st_tree := t; owindows := owindows s; migration_test := migration_test s;
     old_stackframes := old_stackframes s; new_stackframes := new_stackframes s;
     migration_pid := migration_pid s; child_watchers := child_watchers s;
     nagbar_procs := nagbar_procs s; log := log s |}.

Definition set_owindows (s : state) (l : list ptr) : state :=
  {| st_tree := st_tree s; owindows := l; migration_test := migration_test s;
     old_stackframes := old_stackframes s; new_stackframes := new_stackframes s;
     migration_pid := migration_pid s; child_watchers := child_watchers s;
     nagbar_procs := nagbar_procs s; log := log s |}.

Definition set_migration_test (s : state) (b : bool) : state :=
  {| st_tree := st_tree s; owindows := owindows s; migration_test := b;
     old_stackframes := old_stackframes s; new_stackframes := new_stackframes s;
     migration_pid := migration_pid s; child_watchers := child_watchers s;
     nagbar_procs := nagbar_procs s; log := log s |}.

Definition set_old_stackframes (s : state) (l : list stackframe) : state :=
  {| st_tree := st_tree s; owindows := owindows s; migration_test := migration_test s;
     old_stackframes := l; new_stackframes := new_stackframes s;
     migration_pid := migration_pid s; child_watchers := child_watchers s;
     nagbar_procs := nagbar_procs s; log := log s |}.

Definition set_new_stackframes (s : state) (l : list stackframe) : state :=
  {| st_tree := st_tree s; owindows := owindows s; migration_test := migration_test s;
     old_stackframes := old_stackframes s; new_stackframes := l;
     migration_pid := migration_pid s; child_watchers := child_watchers s;
     nagbar_procs := nagbar_procs s; log := log s |}.

Definition set_nagbar (s : state) (pid : Z) (watchers procs : list Z) : state :=
  {| st_tree := st_tree s; owindows := owindows s; migration_test := migration_test s;
     old_stackframes := old_stackframes s; new_stackframes := new_stackframes s;
     migration_pid := pid; child_watchers := watchers;
     nagbar_procs := procs; log := log s |}.

Definition write_log (s : state) (m : log_msg) : state :=
  {| st_tree := st_tree s; owindows := owindows s; migration_test := migration_test s;
     old_stackframes := old_stackframes s; new_stackframes := new_stackframes s;
     migration_pid := migration_pid s; child_watchers := child_watchers s;
     nagbar_procs := nagbar_procs s; log := log s ++ [m] |}.

(** ** Migration harness (lines 72-323) *)

(** The [while (!TAILQ_EMPTY(..))] loops of [cmd_MIGRATION_enable]: each
    round frees the first frame and unlinks it. *)
Fixpoint clear_stack (frames : list stackframe) : list stackframe :=
  match frames with
  | [] => []
  | current :: rest => clear_stack rest
  end.

Definition cmd_MIGRATION_enable (s : state) : state :=
  let s := set_migration_test s true in
  let s := set_old_stackframes s (clear_stack (old_stackframes s)) in
  set_new_stackframes s (clear_stack (new_stackframes s)).

Definition cmd_MIGRATION_disable (s : state) : state :=
  set_migration_test s false.

(** Modelled from the spec: [match_copy] (match.c) is not in commands.c.
    The spec calls the frame's Match a snapshot ("Match copy"): the copy
    has the field values and the pattern texts of the original. *)
Definition match_copy (src : Match) : Match := src.

(** The save functions take the variadic parameters up to the
    [last_parameter] sentinel; [parameters] is that sequence. *)
Definition save_frame (current_match : Match) (parameters : list (option string)) : stackframe :=
  {| frame_match := match_copy current_match; args := parameters |}.

Definition cmd_MIGRATION_save_new_parameters
    (current_match : Match) (parameters : list (option string)) (s : state) : state :=
  set_new_stackframes s (new_stackframes s ++ [save_frame current_match parameters]).

Definition cmd_MIGRATION_save_old_parameters
    (current_match : Match) (parameters : list (option string)) (s : state) : state :=
  set_old_stackframes s (old_stackframes s ++ [save_frame current_match parameters]).

Definition re_differ (new old : option regex) : bool :=
  match new, old with
  | None, Some _ => true
  | Some _, None => true
  | Some n, Some o => negb (String.eqb (pattern n) (pattern o))
  | None, None => false
  end.

Definition str_differ (new old : option string) : bool :=
  match new, old with
  | None, Some _ => true
  | Some _, None => true
  | Some n, Some o => negb (String.eqb n o)
  | None, None => false
  end.

(** glibc's <sys/wait.h>. *)
Definition WIFEXITED (rstatus : Z) : bool := Z.land rstatus 127 =? 0.
Definition WEXITSTATUS (rstatus : Z) : Z := Z.shiftr (Z.land rstatus 65280) 8.

(** [nagbar_exited] runs in the parent when libev reports the end of the
    child the watcher was started for. *)
Definition nagbar_exited (watcher_pid rstatus : Z) (s : state) : state :=
  let s := set_nagbar s (migration_pid s)
             (filter (fun p => negb (p =? watcher_pid)) (child_watchers s))
             (nagbar_procs s) in
  if negb (WIFEXITED rstatus) then write_log s nagbar_not_exited_normally
  else
    let exitcode := WEXITSTATUS rstatus in
    let s := write_log s (nagbar_exit_status exitcode) in
    let s := if exitcode =? 2 then write_log s nagbar_not_found else s in
    set_nagbar s (-1) (child_watchers s) (nagbar_procs s).

(** [cmd_MIGRATION_start_nagbar] in the parent process.  [fork_ret] is what
    fork() returns there: [None] for -1, [Some pid] for the child's pid.
    (The branch [migration_pid == 0] runs in the child, which execs
    i3-nagbar and is not this process.) *)
Definition cmd_MIGRATION_start_nagbar (fork_ret : option positive) (s : state) : state :=
  if negb (migration_pid s =? -1) then write_log s nagbar_already_running
  else
    let s := write_log s nagbar_starting in
    match fork_ret with
    | None => write_log (set_nagbar s (-1) (child_watchers s) (nagbar_procs s))
                nagbar_fork_failed
    | Some pid =>
        set_nagbar s (Z.pos pid) (child_watchers s ++ [Z.pos pid])
          (nagbar_procs s ++ [Z.pos pid])
    end.

Definition match_differ (new old : Match) : bool :=
  negb (match_dock new =? match_dock old)
  || negb (match_id new =? match_id old)
  || negb (match_con_id new =? match_con_id old)
  || negb (match_floating new =? match_floating old)
  || negb (match_insert_where new =? match_insert_where old)
  || re_differ (match_title new) (match_title old)
  || re_differ (match_application new) (match_application old)
  || re_differ (match_class new) (match_class old)
  || re_differ (match_instance new) (match_instance old)
  || re_differ (match_mark new) (match_mark old)
  || re_differ (match_role new) (match_role old).

(** The inner loop of [cmd_MIGRATION_validate] (lines 302-309), entered
    when both frames have the same [n_args]: the first index j whose
    arguments differ, with the two arguments. *)
Fixpoint compare_args (j : Z) (new_args old_args : list (option string))
    : option (Z * option string * option string) :=
  match new_args, old_args with
  | a :: new_args', b :: old_args' =>
      if str_differ a b then Some (j, a, b)
      else compare_args (j + 1) new_args' old_args'
  | _, _ => None
  end.

(** The outer loop (lines 280-312), over both lists frame by frame; the
    result is the FAILED line of the first frame that differs. *)
Fixpoint compare_frames (i : Z) (new old : list stackframe) : option log_msg :=
  match new, old with
  | new_frame :: new', old_frame :: old' =>
      if match_differ (frame_match new_frame) (frame_match old_frame)
      then Some (FAILED_match i)
      else if negb (n_args new_frame =? n_args old_frame)
      then Some (FAILED_n_args (n_args new_frame) (n_args old_frame) i)
      else
        match compare_args 0 (args new_frame) (args old_frame) with
        | Some (j, a, b) => Some (FAILED_arg j a b i)
        | None => compare_frames (i + 1) new' old'
        end
  | _, _ => None
  end.

Definition validate_frames (new old : list stackframe) : option log_msg :=
  let new_count := Z.of_nat (length new) in
  let old_count := Z.of_nat (length old) in
  if negb (new_count =? old_count) then Some (FAILED_count new_count old_count)
  else compare_frames 0 new old.

(** [cmd_MIGRATION_validate]: every FAILED exit writes its line, calls
    [cmd_MIGRATION_start_nagbar] and returns. *)
Definition cmd_MIGRATION_validate (fork_ret : option positive) (s : state) : state :=
  match validate_frames (new_stackframes s) (old_stackframes s) with
  | Some failed => cmd_MIGRATION_start_nagbar fork_ret (write_log s failed)
  | None => s
  end.

(** [MIGRATION_init]: in a self test the call is recorded and the handler
    returns NULL at once ([true]); otherwise the call is recorded on the
    old side and the handler goes on ([false]). *)
Definition MIGRATION_init
    (current_match : Match) (parameters : list (option string)) (s : state)
    : state * bool :=
  if migration_test s
  then (cmd_MIGRATION_save_new_parameters current_match parameters s, true)
  else (cmd_MIGRATION_save_old_parameters current_match parameters s, false).

(** *** The harness as a transition system *)

Inductive harness_event :=
  | ev_enable
  | ev_disable
  | ev_save_new (m : Match) (parameters : list (option string))
  | ev_save_old (m : Match) (parameters : list (option string))
  | ev_validate (fork_ret : option positive)
  | ev_start_nagbar (fork_ret : option positive)
  | ev_child_exit (pid rstatus : Z).

(** One step.  [ev_child_exit pid rstatus] is the event loop reporting that
    child [pid] ended with wait status [rstatus]; it runs the callback of
    the watcher installed for that pid, if there is one, and the process
    is gone. *)
Definition harness_step (s : state) (e : harness_event) : state :=
  match e with
  | ev_enable => cmd_MIGRATION_enable s
  | ev_disable => cmd_MIGRATION_disable s
  | ev_save_new m parameters => cmd_MIGRATION_save_new_parameters m parameters s
  | ev_save_old m parameters => cmd_MIGRATION_save_old_parameters m parameters s
  | ev_validate fork_ret => cmd_MIGRATION_validate fork_ret s
  | ev_start_nagbar fork_ret => cmd_MIGRATION_start_nagbar fork_ret s
  | ev_child_exit pid rstatus =>
      if existsb (Z.eqb pid) (child_watchers s)
      then nagbar_exited pid rstatus
             (set_nagbar s (migration_pid s) (child_watchers s)
                (filter (fun p => negb (p =? pid)) (nagbar_procs s)))
      else s
  end.

Definition harness_run (s : state) (es : list harness_event) : state :=
  fold_left harness_step es s.

(** The state at program start: the static initialisers of lines 72-84 and
    171, no watcher, no child. *)
Definition initial_state (t : tree) : state :=
  {| st_tree := t; owindows := []; migration_test := false;
     old_stackframes := []; new_stackframes := [];
     migration_pid := -1; child_watchers := []; nagbar_procs := [];
     log := [] |}.

(** ** Replies *)

Definition dquote : string := String "034"%char EmptyString.

(** [{"success": true}], the misspelt [{"sucess": false}] that the
    failure exits return, and the reply of [cmd_focus] without criteria. *)
Definition reply_success : string :=
  ("{" ++ dquote ++ "success" ++ dquote ++ ": true}")%string.
Definition reply_sucess_false : string :=
  ("{" ++ dquote ++ "sucess" ++ dquote ++ ": false}")%string.
Definition reply_focus_needs_criteria : string :=
  ("{" ++ dquote ++ "success" ++ dquote ++ ":false, " ++ dquote ++ "error" ++ dquote
   ++ ":" ++ dquote ++ "You have to specify which window/container should be focused"
   ++ dquote ++ "}")%string.

(** Calls into regex.c and match.c made while the working set is
    filtered, in the order in which they are made. *)
Inductive criteria_call :=
  | call_regex_matches (re : regex) (input : string)
  | call_match_matches_window (m : Match) (w : i3Window).

Section Commands.

(** match.c *)
Variable match_is_empty : Match -> bool.
Variable match_init : Match.
Variable match_matches_window : Match -> i3Window -> bool.
(** regex.c *)
Variable regex_matches : regex -> string -> bool.
(** con.c, tree.c, workspace.c, floating.c, scratchpad.c *)
Variable con_inside_floating : tree -> ptr -> ptr.
Variable con_num_children : tree -> ptr -> Z.
Variable con_get_workspace : tree -> ptr -> ptr.
Variable con_focus : ptr -> tree -> tree.
Variable workspace_show : ptr -> tree -> tree.
Variable con_set_layout : ptr -> layout_t -> tree -> tree.
Variable con_toggle_fullscreen : ptr -> fullscreen_mode_t -> tree -> tree.
Variable scratchpad_move : ptr -> tree -> tree.
Variable tree_render : tree -> tree.

(** *** The working set (lines 16-30, 330-397) *)

Definition HANDLE_EMPTY_MATCH (current_match : Match) (s : state) : state :=
  if match_is_empty current_match
  then set_owindows s [focused (st_tree s)]
  else s.

(** [cmd_criteria_init] resets the Match and copies [all_cons]. *)
Definition cmd_criteria_init (s : state) : option string * Match * state :=
  (None, match_init, set_owindows s (all_cons (st_tree s))).

(** The body of the loop of [cmd_criteria_match_windows] for one entry
    (lines 369-388): whether the entry is kept, and the calls made. *)
Definition match_window_branch
    (current_match : Match) (c : Con) (calls : list criteria_call)
    : bool * list criteria_call :=
  match con_window c with
  | None => (false, calls)
  | Some w =>
      (match_matches_window current_match w,
       calls ++ [call_match_matches_window current_match w])
  end.

Definition match_one (current_match : Match) (t : tree) (con : ptr)
    : result (bool * list criteria_call) :=
  if negb (match_con_id current_match =? NULL) then
    Ok (match_con_id current_match =? con, [])
  else
    c ← deref t con;
    match match_mark current_match, con_mark c with
    | Some re, Some mark =>
        if regex_matches re mark
        then Ok (true, [call_regex_matches re mark])
        else Ok (match_window_branch current_match c [call_regex_matches re mark])
    | _, _ => Ok (match_window_branch current_match c [])
    end.

Fixpoint match_loop (current_match : Match) (t : tree) (old : list ptr)
    : result (list ptr * list criteria_call) :=
  match old with
  | [] => Ok ([], [])
  | current :: next =>
      '(keep, calls) ← match_one current_match t current;
      '(kept, calls') ← match_loop current_match t next;
      Ok (if keep : bool then current :: kept else kept, calls ++ calls')
  end.

Definition cmd_criteria_match_windows (current_match : Match) (s : state)
    : result (option string * state * list criteria_call) :=
  let s :=
    if migration_test s
    then cmd_MIGRATION_save_new_parameters current_match
           [Some "cmd_criteria_match_windows"] s
    else cmd_MIGRATION_save_old_parameters current_match
           [Some "cmd_criteria_match_windows"] s in
  '(kept, calls) ← match_loop current_match (st_tree s) (owindows s);
  Ok (None, set_owindows s kept, calls).

(** *** cmd_resize (lines 537-634) *)

Definition is_stacked_or_tabbed (l : layout_t) : bool :=
  bool_decide (l = L_STACKED) || bool_decide (l = L_TABBED).

(** Lines 567-569. *)
Fixpoint skip_stacked_tabbed (fuel : nat) (t : tree) (current : ptr) : result ptr :=
  match fuel with
  | O => OutOfFuel
  | S fuel' =>
      c ← deref t current;
      p ← deref t (con_parent c);
      if is_stacked_or_tabbed (con_layout p)
      then skip_stacked_tabbed fuel' t (con_parent c)
      else Ok current
  end.

(** Lines 575-578. *)
Fixpoint ascend_to_orientation
    (fuel : nat) (t : tree) (search_orientation : orientation_t) (current : ptr)
    : result ptr :=
  match fuel with
  | O => OutOfFuel
  | S fuel' =>
      c ← deref t current;
      if bool_decide (con_type c = CT_WORKSPACE)
         || bool_decide (con_type c = CT_FLOATING_CON)
      then Ok current
      else
        p ← deref t (con_parent c);
        if bool_decide (con_orientation p = search_orientation)
        then Ok current
        else ascend_to_orientation fuel' t search_orientation (con_parent c)
  end.

Definition search_orientation_of (direction : string) : orientation_t :=
  if String.eqb direction "left" || String.eqb direction "right"
  then HORIZ else VERT.

(** The container whose percentage is changed: lines 566-578. *)
Definition resize_find_current (fuel : nat) (t : tree) (direction : string)
    : result ptr :=
  current ← skip_stacked_tabbed fuel t (focused t);
  ascend_to_orientation fuel t (search_orientation_of direction) current.

(** Line 589-592. *)
Definition wrong_direction (orientation : orientation_t) (direction : string) : bool :=
  (bool_decide (orientation = HORIZ)
   && (String.eqb direction "up" || String.eqb direction "down"))
  || (bool_decide (orientation = VERT)
      && (String.eqb direction "left" || String.eqb direction "right")).

Definition store_percent (t : tree) (con : ptr) (p : float) : result tree :=
  c ← deref t con;
  Ok (set_heap t (<[con := set_percent c p]> (heap t))).

(** Lines 607-627: default percentages, candidates, floor test, update.
    The boolean tells whether the update was made. *)
Definition resize_percent
    (t : tree) (current other : ptr) (percentage : float) (ppt : Z)
    : result (tree * bool) :=
  c ← deref t current;
  t ← (if PrimFloat.eqb (con_percent c) 0%float
       then store_percent t current percentage else Ok t);
  o ← deref t other;
  t ← (if PrimFloat.eqb (con_percent o) 0%float
       then store_percent t other percentage else Ok t);
  c ← deref t current;
  o ← deref t other;
  let delta := PrimFloat.div (double_of_int ppt) 100%float in
  let new_current_percent := PrimFloat.add (con_percent c) delta in
  let new_other_percent := PrimFloat.sub (con_percent o) delta in
  if above_floor new_current_percent && above_floor new_other_percent then
    t ← store_percent t current (PrimFloat.add (con_percent c) delta);
    o ← deref t other;
    t ← store_percent t other (PrimFloat.sub (con_percent o) delta);
    Ok (t, true)
  else Ok (t, false).

(** Lines 552-562. *)
Definition resize_floating_rect (direction : string) (px : Z) (r : Rect) : Rect :=
  if String.eqb direction "up" then
    {| rect_x := rect_x r; rect_y := uint32_wrap (rect_y r - px);
       rect_width := rect_width r; rect_height := uint32_wrap (rect_height r + px) |}
  else if String.eqb direction "down" then
    {| rect_x := rect_x r; rect_y := rect_y r;
       rect_width := rect_width r; rect_height := uint32_wrap (rect_height r + px) |}
  else if String.eqb direction "left" then
    {| rect_x := uint32_wrap (rect_x r - px); rect_y := rect_y r;
       rect_width := uint32_wrap (rect_width r + px); rect_height := rect_height r |}
  else
    {| rect_x := rect_x r; rect_y := rect_y r;
       rect_width := uint32_wrap (rect_width r + px); rect_height := rect_height r |}.

Definition rendered (s : state) : result (option string * state) :=
  Ok (Some reply_success, set_tree s (tree_render (st_tree s))).

Definition cmd_resize
    (fuel : nat) (current_match : Match)
    (way direction resize_px resize_ppt : string) (s : state)
    : result (option string * state) :=
  let '(s, captured) :=
    MIGRATION_init current_match
      [Some "cmd_resize"; Some way; Some direction; Some resize_px; Some resize_ppt] s in
  if captured then Ok (None, s) else
  let shrink := String.eqb way "shrink" in
  let px := if shrink then int_wrap (atoi resize_px * -1) else atoi resize_px in
  let ppt := if shrink then int_wrap (atoi resize_ppt * -1) else atoi resize_ppt in
  let t := st_tree s in
  let floating_con := con_inside_floating t (focused t) in
  if negb (floating_con =? NULL) then
    let s := write_log s resize_floating in
    fc ← deref t floating_con;
    let fc := set_rect fc (resize_floating_rect direction px (con_rect fc)) in
    rendered (set_tree s (set_heap t (<[floating_con := fc]> (heap t))))
  else
    let s := write_log s resize_tiling in
    current ← resize_find_current fuel t direction;
    c ← deref t current;
    let children := con_num_children t (con_parent c) in
    let percentage := PrimFloat.div 1%float (double_of_int children) in
    p ← deref t (con_parent c);
    let orientation := con_orientation p in
    if wrong_direction orientation direction then
      Ok (Some reply_sucess_false, write_log s (resize_wrong_direction orientation))
    else
      let other :=
        if String.eqb direction "up" || String.eqb direction "left"
        then nodes_prev c else nodes_next c in
      if other =? NULL then
        Ok (Some reply_sucess_false, write_log s resize_no_other_container)
      else
        '(t, resized) ← resize_percent t current other percentage ppt;
        let s := if resized : bool then s else write_log s resize_at_minimum in
        rendered (set_tree s t).

(** *** cmd_focus (lines 1062-1123) *)

(** The test of lines 1065-1067. *)
Definition focus_in_fullscreen_mode (t : tree) : result bool :=
  if focused t =? NULL then Ok false
  else
    c ← deref t (focused t);
    Ok (negb (bool_decide (con_type c = CT_WORKSPACE))
        && negb (bool_decide (con_fullscreen_mode c = CF_NONE))).

(** The loop of lines 1085-1113. *)
Fixpoint focus_loop (working_set : list ptr) (t : tree) (count : Z) : tree * Z :=
  match working_set with
  | [] => (t, count)
  | current :: next =>
      let ws := con_get_workspace t current in
      if ws =? NULL then focus_loop next t count
      else
        let currently_focused := focused t in
        let t := con_focus current t in
        let t := con_focus currently_focused t in
        let t := workspace_show ws t in
        let t := con_focus current t in
        focus_loop next t (count + 1)
  end.

Definition cmd_focus (current_match : Match) (s : state)
    : result (option string * state) :=
  let '(s, captured) := MIGRATION_init current_match [Some "cmd_focus"] s in
  if captured then Ok (None, s) else
  blocked ← focus_in_fullscreen_mode (st_tree s);
  if blocked : bool then
    Ok (Some reply_sucess_false, write_log s focus_in_fullscreen)
  else if match_is_empty current_match then
    Ok (Some reply_focus_needs_criteria, write_log s focus_needs_criteria)
  else
    let '(t, count) := focus_loop (owindows s) (st_tree s) 0 in
    let s := if 1 <? count then write_log s (focus_matches_many count) else s in
    rendered (set_tree s t).

(** *** cmd_layout (lines 1178-1202) *)

Definition layout_of (layout_str : string) : layout_t :=
  if String.eqb layout_str "default" then L_DEFAULT
  else if String.eqb layout_str "stacked" then L_STACKED
  else L_TABBED.

(** A [TAILQ_FOREACH] over the working set whose body is one call. *)
Definition foreach_owindow (body : ptr -> tree -> tree) (working_set : list ptr) (t : tree)
    : tree :=
  fold_left (fun t current => body current t) working_set t.

Definition cmd_layout (current_match : Match) (layout_str : string) (s : state)
    : result (option string * state) :=
  let layout_str := if String.eqb layout_str "stacking" then "stacked" else layout_str in
  let '(s, captured) := MIGRATION_init current_match [Some "cmd_layout"; Some layout_str] s in
  if captured then Ok (None, s) else
  let layout := layout_of layout_str in
  let t := st_tree s in
  if match_is_empty current_match then
    f ← deref t (focused t);
    rendered (set_tree s (con_set_layout (con_parent f) layout t))
  else
    rendered (set_tree s
      (foreach_owindow (fun con => con_set_layout con layout) (owindows s) t)).

(** *** Handlers that expand HANDLE_EMPTY_MATCH *)

(** [cmd_fullscreen] (lines 1125-1143). *)
Definition cmd_fullscreen (current_match : Match) (fullscreen_mode : option string) (s : state)
    : option string * state :=
  let fullscreen_mode := default "output" fullscreen_mode in
  let '(s, captured) :=
    MIGRATION_init current_match [Some "cmd_fullscreen"; Some fullscreen_mode] s in
  if captured then (None, s) else
  let s := HANDLE_EMPTY_MATCH current_match s in
  let mode := if String.eqb fullscreen_mode "global" then CF_GLOBAL else CF_OUTPUT in
  let t := foreach_owindow (fun con => con_toggle_fullscreen con mode)
             (owindows s) (st_tree s) in
  (Some reply_success, set_tree s (tree_render t)).

(** [cmd_move_scratchpad] (lines 1283-1299). *)
Definition cmd_move_scratchpad (current_match : Match) (s : state)
    : option string * state :=
  let '(s, captured) := MIGRATION_init current_match [Some "cmd_move_scratchpad"] s in
  if captured then (None, s) else
  let s := HANDLE_EMPTY_MATCH current_match s in
  let t := foreach_owindow scratchpad_move (owindows s) (st_tree s) in
  (Some reply_success, set_tree s (tree_render t)).

End Commands.

(** ** What the spec says of frame comparison *)

(** Two regex predicates are equal iff both are absent, or both are present
    with the same pattern text. *)
Definition regex_agree (new old : option regex) : Prop :=
  match new, old with
  | None, None => True
  | Some n, Some o => pattern n = pattern o
  | _, _ => False
  end.

Definition match_agree (new old : Match) : Prop :=
  match_dock new = match_dock old
  /\ match_id new = match_id old
  /\ match_con_id new = match_con_id old
  /\ match_floating new = match_floating old
  /\ match_insert_where new = match_insert_where old
  /\ regex_agree (match_title new) (match_title old)
  /\ regex_agree (match_application new) (match_application old)
  /\ regex_agree (match_class new) (match_class old)
  /\ regex_agree (match_instance new) (match_instance old)
  /\ regex_agree (match_mark new) (match_mark old)
  /\ regex_agree (match_role new) (match_role old).

(** Argument lists: the same length, and the same string (or NULL on both
    sides) at every index. *)
Definition args_agree (new old : list (option string)) : Prop :=
  length new = length old
  /\ forall (j : nat) (a b : option string),
       new !! j = Some a -> old !! j = Some b -> a = b.

Definition frame_agree (new old : stackframe) : Prop :=
  match_agree (frame_match new) (frame_match old)
  /\ args_agree (args new) (args old).

(** The frames at index [i] of both sequences agree. *)
Definition frames_agree_at (new old : list stackframe) (i : nat) : Prop :=
  forall f g, new !! i = Some f -> old !! i = Some g -> frame_agree f g.

Definition frames_agree (new old : list stackframe) : Prop :=
  length new = length old /\ forall i, frames_agree_at new old i.

(** The frame index a FAILED line names. *)
Definition reported_frame (m : log_msg) : option Z :=
  match m with
  | FAILED_match i => Some i
  | FAILED_n_args _ _ i => Some i
  | FAILED_arg _ _ _ i => Some i
  | _ => None
  end.

(** ** What the nagbar handle guarantees *)

(** The handle is active when [migration_pid] is not -1. *)
Definition handle_active (s : state) : bool := negb (migration_pid s =? -1).

(** Every process still running is the one the handle names, it is watched,
    and there is at most one. *)
Definition nagbar_inv (s : state) : Prop :=
  child_watchers s = nagbar_procs s
  /\ (nagbar_procs s = []
      \/ (0 < migration_pid s /\ nagbar_procs s = [migration_pid s])).

Definition percent_at (t : tree) (con : ptr) : option float :=
  con_percent <$> heap t !! con.

(** ** Stand-ins for the other translation units, to run the model *)

(** Modelled from the spec: [match_is_empty] and [match_init] are in match.c.
    The empty match is the Match with all predicates absent: no regex, no
    window id, no container id, dock and floating unset. *)
Definition sample_match_init : Match :=
  {| match_title := None; match_application := None; match_class := None;
     match_instance := None; match_mark := None; match_role := None;
     match_dock := -1; match_id := 0; match_con_id := NULL;
     match_floating := 0; match_insert_where := 0 |}.

Definition sample_match_is_empty (m : Match) : bool :=
  bool_decide (match_title m = None) && bool_decide (match_mark m = None)
  && bool_decide (match_application m = None) && bool_decide (match_class m = None)
  && bool_decide (match_instance m = None) && bool_decide (match_role m = None)
  && (match_id m =? 0) && (match_con_id m =? NULL)
  && (match_dock m =? -1) && (match_floating m =? 0).

(** A pattern without metacharacters matches the text that contains it;
    the stand-in accepts the text that equals it. *)
Definition sample_regex_matches (re : regex) (input : string) : bool :=
  String.eqb (pattern re) input.

Definition sample_predicate (re : option regex) (field : option string) : bool :=
  match re, field with
  | None, _ => true
  | Some r, Some f => sample_regex_matches r f
  | Some _, None => false
  end.

(** Modelled from the spec: [match_matches_window] is in match.c.  Every
    present window predicate (class, instance, role, title, window id) has
    to match; absent ones are satisfied. *)
Definition sample_match_matches_window (m : Match) (w : i3Window) : bool :=
  sample_predicate (match_class m) (win_class w)
  && sample_predicate (match_instance m) (win_instance w)
  && sample_predicate (match_role m) (win_role w)
  && sample_predicate (match_title m) (win_name w)
  && ((match_id m =? 0) || (match_id m =? win_id w)).

Definition sample_con_focus (con : ptr) (t : tree) : tree :=
  {| heap := heap t; all_cons := all_cons t; focused := con |}.

Definition sample_con_set_layout (con : ptr) (l : layout_t) (t : tree) : tree :=
  set_heap t
    (alter (fun c =>
       {| con_type := con_type c; con_parent := con_parent c;
          con_layout := l; con_orientation := con_orientation c;
          con_percent := con_percent c; con_rect := con_rect c;
          con_mark := con_mark c; con_window := con_window c;
          con_fullscreen_mode := con_fullscreen_mode c;
          nodes_prev := nodes_prev c; nodes_next := nodes_next c |}) con (heap t)).

Definition sample_con_num_children (t : tree) (con : ptr) : Z :=
  Z.of_nat (length (filter (fun kc => con_parent (snd kc) =? con) (map_to_list (heap t)))).

(** A small tree: output content 1, workspace 2 (horizontal), and in it the
    containers 3 and 4 side by side; 3 is focused. *)
Definition sample_con (type : con_type_t) (parent : ptr) (o : orientation_t)
    (percent : float) (mark : option string) (window : option i3Window)
    (prev next : ptr) : Con :=
  {| con_type := type; con_parent := parent; con_layout := L_DEFAULT;
     con_orientation := o; con_percent := percent;
     con_rect := {| rect_x := 0; rect_y := 0; rect_width := 800; rect_height := 600 |};
     con_mark := mark; con_window := window; con_fullscreen_mode := CF_NONE;
     nodes_prev := prev; nodes_next := next |}.

Definition sample_window (id : Z) (class : string) : i3Window :=
  {| win_id := id; win_class := Some class; win_instance := None;
     win_role := None; win_name := None |}.

Definition sample_heap (percent3 percent4 : float) : gmap Z Con :=
  <[1 := sample_con (CT_OTHER 1) NULL HORIZ 1 None None NULL NULL]>
  (<[2 := sample_con CT_WORKSPACE 1 HORIZ 1 None None NULL NULL]>
  (<[3 := sample_con (CT_OTHER 2) 2 NO_ORIENTATION percent3 (Some "bar")
            (Some (sample_window 7 "term")) NULL 4]>
  (<[4 := sample_con (CT_OTHER 2) 2 NO_ORIENTATION percent4 None
            (Some (sample_window 8 "browser")) 3 NULL]> ∅))).

Definition sample_tree (percent3 percent4 : float) : tree :=
  {| heap := sample_heap percent3 percent4; all_cons := [1; 2; 3; 4]; focused := 3 |}.

Definition sample_state (percent3 percent4 : float) : state :=
  initial_state (sample_tree percent3 percent4).

(** Whether [match_matches_window] is among the calls. *)
Definition window_predicates_evaluated (calls : list criteria_call) : bool :=
  existsb (fun c => match c with call_match_matches_window _ _ => true | _ => false end)
    calls.

(** A Match with a mark predicate and a class predicate. *)
Definition sample_match_mark_class (mark class : string) : Match :=
  {| match_title := None; match_application := None;
     match_class := Some {| pattern := class |};
     match_instance := None; match_mark := Some {| pattern := mark |};
     match_role := None;
     match_dock := -1; match_id := 0; match_con_id := NULL;
     match_floating := 0; match_insert_where := 0 |}.

Definition sample_match_con_id (con : ptr) : Match :=
  {| match_title := None; match_application := None;
     match_class := Some {| pattern := "browser" |};
     match_instance := None; match_mark := Some {| pattern := "bar" |};
     match_role := None;
     match_dock := -1; match_id := 0; match_con_id := con;
     match_floating := 0; match_insert_where := 0 |}.

(** The small tree with container 3 in fullscreen mode. *)
Definition sample_fullscreen_tree : tree :=
  set_heap (sample_tree 1 1)
    (alter (fun c =>
       {| con_type := con_type c; con_parent := con_parent c;
          con_layout := con_layout c; con_orientation := con_orientation c;
          con_percent := con_percent c; con_rect := con_rect c;
          con_mark := con_mark c; con_window := con_window c;
          con_fullscreen_mode := CF_OUTPUT;
          nodes_prev := nodes_prev c; nodes_next := nodes_next c |}) 3
       (sample_heap 1 1)).

Definition layout_at (t : tree) (con : ptr) : option layout_t :=
  con_layout <$> heap t !! con.

(** The direction asks for the other axis than the split has. *)
Definition incompatible (o : orientation_t) (direction : string) : Prop :=
  (o = HORIZ /\ (direction = "up" \/ direction = "down"))
  \/ (o = VERT /\ (direction = "left" \/ direction = "right")).

(** ** Notions used to state the resize properties *)

(** What a conditional or unconditional store does to the heap. *)
Definition stored (t t' : tree) (con : ptr) (c : Con) (x : float) : Prop :=
  heap t' !! con = Some (set_percent c x)
  /\ (forall q, q <> con -> heap t' !! q = heap t !! q)
  /\ all_cons t' = all_cons t /\ focused t' = focused t.

(** Line 609-612: a percentage that is 0.0 is replaced by the default. *)
Definition default_percent (percentage x : float) : float :=
  if PrimFloat.eqb x 0 then percentage else x.

(** Line 613: [(double)ppt / 100.0]. *)
Definition delta_fraction (ppt : Z) : float := PrimFloat.div (double_of_int ppt) 100.

(** Lines 543-547: the percent points after [shrink] has negated them. *)
Definition signed_ppt (way resize_ppt : string) : Z :=
  if String.eqb way "shrink" then int_wrap (atoi resize_ppt * -1) else atoi resize_ppt.

(** Lines 598-602: the sibling the percentage is traded with. *)
Definition neighbor_of (direction : string) (c : Con) : ptr :=
  if String.eqb direction "up" || String.eqb direction "left"
  then nodes_prev c else nodes_next c.

(** The sign a rounded result was given; NaN has none. *)
Definition has_sign (s : bool) (x : spec_float) : Prop :=
  match x with
  | S754_zero s' | S754_infinity s' | S754_finite s' _ _ => s' = s
  | S754_nan => True
  end.

Definition strictly_pos (x : spec_float) : Prop :=
  match x with
  | S754_finite false _ _ | S754_infinity false => True
  | _ => False
  end.

(** 0.05 and DBL_EPSILON as [float] arguments, and 0.05 as a [double]. *)
Definition floor32 : spec_float := S754_finite false 13421773 (-28).
Definition epsilon32 : spec_float := S754_finite false 8388608 (-75).
Definition floor64 : spec_float := S754_finite false 7205759403792794 (-57).

(** [ancestry t con n]: following [parent] from [con] leaves the heap after
    exactly [n] containers.  Every container of a finite tree without a
    cycle has such an [n]. *)
Inductive ancestry (t : tree) : ptr -> nat -> Prop :=
  | ancestry_out (con : ptr) :
      heap t !! con = None -> ancestry t con 0
  | ancestry_in (con : ptr) (c : Con) (n : nat) :
      heap t !! con = Some c -> ancestry t (con_parent c) n ->
      ancestry t con (S n).

(** Two frames as the two parsers record them for the same call. *)
Definition sample_frame (arguments : list (option string)) : stackframe :=
  save_frame sample_match_init arguments.

(** A Match with a class predicate only. *)
Definition sample_match_class (class : string) : Match :=
  {| match_title := None; match_application := None;
     match_class := Some {| pattern := class |};
     match_instance := None; match_mark := None; match_role := None;
     match_dock := -1; match_id := 0; match_con_id := NULL;
     match_floating := 0; match_insert_where := 0 |}.

(** A workspace with 25 children, the containers 3 to 27 side by side,
    none of which has a percentage yet; 3 is focused. *)
Definition wide_children : list Z := map Z.of_nat (seq 3 25).

Definition wide_heap : gmap Z Con :=
  foldr (fun k h =>
           <[k := sample_con (CT_OTHER 2) 2 NO_ORIENTATION 0 None None
                    (if k =? 3 then NULL else k - 1)
                    (if k =? 27 then NULL else k + 1)]> h)
    (<[1 := sample_con (CT_OTHER 1) NULL HORIZ 1 None None NULL NULL]>
     (<[2 := sample_con CT_WORKSPACE 1 HORIZ 1 None None NULL NULL]> ∅))
    wide_children.

Definition wide_tree : tree :=
  {| heap := wide_heap; all_cons := 1 :: 2 :: wide_children; focused := 3 |}.

(** * The rest of commands.c *)

(** ** libc functions the other handlers use *)

(** [tolower] in the C locale. *)
Definition tolower (c : ascii) : ascii :=
  let n := nat_of_ascii c in
  if (65 <=? n)%nat && (n <=? 90)%nat then ascii_of_nat (n + 32) else c.

(** [strncasecmp(a, b, n) == 0]. *)
Fixpoint strncasecmp_eq (n : nat) (a b : string) : bool :=
  match n with
  | O => true
  | S n' =>
      match a, b with
      | EmptyString, EmptyString => true
      | String x a', String y b' =>
          Ascii.eqb (tolower x) (tolower y) && strncasecmp_eq n' a' b'
      | _, _ => false
      end
  end.

(** [%ld] of printf. *)
Definition digit_char (d : Z) : ascii := ascii_of_nat (Z.to_nat (48 + d)).

Fixpoint print_digits (fuel : nat) (n : Z) (acc : string) : string :=
  match fuel with
  | O => acc
  | S fuel' =>
      let acc := String (digit_char (n mod 10)) acc in
      if n <? 10 then acc else print_digits fuel' (n / 10) acc
  end.

Definition print_long (n : Z) : string :=
  if n <? 0 then String "-" (print_digits 20 (- n) "") else print_digits 20 n "".

(** ** Fields written by the other handlers *)

Definition set_mark (c : Con) (mark : option string) : Con :=
  {| con_type := con_type c; con_parent := con_parent c;
     con_layout := con_layout c; con_orientation := con_orientation c;
     con_percent := con_percent c; con_rect := con_rect c; con_mark := mark;
     con_window := con_window c;
     con_fullscreen_mode := con_fullscreen_mode c;
     nodes_prev := nodes_prev c; nodes_next := nodes_next c |}.

Definition set_match_regex (field : string) (re : option regex) (m : Match) : Match :=
  {| match_title := if String.eqb field "title" then re else match_title m;
     match_application := match_application m;
     match_class := if String.eqb field "class" then re else match_class m;
     match_instance := if String.eqb field "instance" then re else match_instance m;
     match_mark := if String.eqb field "con_mark" then re else match_mark m;
     match_role := if String.eqb field "window_role" then re else match_role m;
     match_dock := match_dock m; match_id := match_id m;
     match_con_id := match_con_id m; match_floating := match_floating m;
     match_insert_where := match_insert_where m |}.

Definition set_match_con_id (con : ptr) (m : Match) : Match :=
  {| match_title := match_title m; match_application := match_application m;
     match_class := match_class m; match_instance := match_instance m;
     match_mark := match_mark m; match_role := match_role m;
     match_dock := match_dock m; match_id := match_id m;
     match_con_id := con; match_floating := match_floating m;
     match_insert_where := match_insert_where m |}.

Definition set_match_id (id : Z) (m : Match) : Match :=
  {| match_title := match_title m; match_application := match_application m;
     match_class := match_class m; match_instance := match_instance m;
     match_mark := match_mark m; match_role := match_role m;
     match_dock := match_dock m; match_id := id;
     match_con_id := match_con_id m; match_floating := match_floating m;
     match_insert_where := match_insert_where m |}.

(** The test of lines 427-430 and 442-445 on what [strtol] returned. *)
Definition parse_id (cvalue : string) : option Z :=
  let '(parsed, rest) := strtol cvalue in
  if (parsed =? LONG_MIN) || (parsed =? LONG_MAX) || (parsed <? 0)
     || negb (String.eqb rest "")
  then None else Some parsed.

Inductive kill_window_t := KILL_WINDOW | KILL_CLIENT.

(** The reply of [cmd_open]: [{"success":true, "id":%ld}]. *)
Definition reply_open (con : ptr) : string :=
  ("{" ++ dquote ++ "success" ++ dquote ++ ":true, " ++ dquote ++ "id" ++ dquote
   ++ ":" ++ print_long con ++ "}")%string.

Section MoreCommands.

(** match.c, regex.c *)
Variable match_is_empty : Match -> bool.
Variable regex_new : string -> option regex.
(** tree.c, con.c, workspace.c; [workspace_get] and [tree_open_con] may
    create a container and return it. *)
Variable tree_render : tree -> tree.
Variable tree_close_con : kill_window_t -> tree -> tree.
Variable tree_close : ptr -> kill_window_t -> bool -> bool -> tree -> tree.
Variable tree_next : ascii -> orientation_t -> tree -> tree.
Variable tree_open_con : tree -> ptr * tree.
Variable level_up : tree -> tree.
Variable level_down : tree -> tree.
Variable con_focus : ptr -> tree -> tree.
Variable con_get_workspace : tree -> ptr -> ptr.
Variable con_descend_focused : tree -> ptr -> ptr.
Variable con_move_to_workspace : ptr -> ptr -> bool -> bool -> tree -> tree.
Variable con_set_border_style : ptr -> Z -> tree -> tree.
Variable workspace_get : string -> tree -> ptr * tree.
Variable workspace_back_and_forth : tree -> tree.
Variable workspace_show_by_name : string -> tree -> tree.
(** Fields of [Con] that the record [Con] does not carry: [name],
    [border_style] and the list [focus_head]. *)
Variable con_name : tree -> ptr -> string.
Variable con_border_style : tree -> ptr -> Z.
Variable focus_head : tree -> ptr -> list ptr.
(** [config.workspace_auto_back_and_forth], and the values of
    [BS_NORMAL], [BS_NONE] and [BS_1PIXEL] (include/data.h). *)
Variable workspace_auto_back_and_forth : bool.
Variable BS_NORMAL : Z.
Variable BS_NONE : Z.
Variable BS_1PIXEL : Z.

(** *** cmd_criteria_add (lines 399-468) *)

(** The Match is changed in place; the function returns it here.  The
    call is recorded like in [cmd_criteria_match_windows], with the
    function name alone. *)
Definition cmd_criteria_add (current_match : Match) (ctype cvalue : string) (s : state)
    : option string * Match * state :=
  let s :=
    if migration_test s
    then cmd_MIGRATION_save_new_parameters current_match [Some "cmd_criteria_add"] s
    else cmd_MIGRATION_save_old_parameters current_match [Some "cmd_criteria_add"] s in
  let m :=
    if String.eqb ctype "class" then
      set_match_regex "class" (regex_new cvalue) current_match
    else if String.eqb ctype "instance" then
      set_match_regex "instance" (regex_new cvalue) current_match
    else if String.eqb ctype "window_role" then
      set_match_regex "window_role" (regex_new cvalue) current_match
    else if String.eqb ctype "con_id" then
      match parse_id cvalue with
      | Some parsed => set_match_con_id parsed current_match
      | None => current_match
      end
    else if String.eqb ctype "id" then
      match parse_id cvalue with
      | Some parsed => set_match_id (uint32_wrap parsed) current_match
      | None => current_match
      end
    else if String.eqb ctype "con_mark" then
      set_match_regex "con_mark" (regex_new cvalue) current_match
    else if String.eqb ctype "title" then
      set_match_regex "title" (regex_new cvalue) current_match
    else current_match in
  (None, m, s).

(** *** cmd_mark (lines 753-777) *)

Definition store_mark (t : tree) (con : ptr) (mark : option string) : result tree :=
  c ← deref t con;
  Ok (set_heap t (<[con := set_mark c mark]> (heap t))).

(** Lines 758-761: [FREE] sets the pointer to NULL. *)
Fixpoint clear_mark_loop (mark : string) (cons : list ptr) (t : tree) : result tree :=
  match cons with
  | [] => Ok t
  | con :: next =>
      c ← deref t con;
      t ← match con_mark c with
          | Some m => if String.eqb m mark then store_mark t con None else Ok t
          | None => Ok t
          end;
      clear_mark_loop mark next t
  end.

(** Lines 768-771. *)
Fixpoint set_mark_loop (mark : string) (working_set : list ptr) (t : tree) : result tree :=
  match working_set with
  | [] => Ok t
  | current :: next =>
      t ← store_mark t current (Some mark);
      set_mark_loop mark next t
  end.

Definition cmd_mark (current_match : Match) (mark : string) (s : state)
    : result (option string * state) :=
  let '(s, captured) := MIGRATION_init current_match [Some "cmd_mark"; Some mark] s in
  if captured then Ok (None, s) else
  t ← clear_mark_loop mark (all_cons (st_tree s)) (st_tree s);
  let s := HANDLE_EMPTY_MATCH match_is_empty current_match (set_tree s t) in
  t ← set_mark_loop mark (owindows s) (st_tree s);
  rendered tree_render (set_tree s t).

(** *** cmd_kill (lines 930-962) *)

Definition kill_mode_of (kill_mode_str : string) : option kill_window_t :=
  if String.eqb kill_mode_str "window" then Some KILL_WINDOW
  else if String.eqb kill_mode_str "client" then Some KILL_CLIENT
  else None.

Definition cmd_kill (current_match : Match) (kill_mode_str : option string) (s : state)
    : option string * state :=
  let kill_mode_str := default "window" kill_mode_str in
  let '(s, captured) :=
    MIGRATION_init current_match [Some "cmd_kill"; Some kill_mode_str] s in
  if captured then (None, s) else
  match kill_mode_of kill_mode_str with
  | None => (Some reply_sucess_false, s)
  | Some kill_mode =>
      let t :=
        if match_is_empty current_match
        then tree_close_con kill_mode (st_tree s)
        else foreach_owindow (fun con => tree_close con kill_mode false false)
               (owindows s) (st_tree s) in
      (Some reply_success, set_tree s (tree_render t))
  end.

(** *** cmd_border (lines 636-668) *)

(** The loop; [false] when it left through the BUG exit. *)
Fixpoint border_loop (border_style_str : string) (working_set : list ptr) (t : tree)
    : tree * bool :=
  match working_set with
  | [] => (t, true)
  | current :: next =>
      let border_style := con_border_style t current in
      let chosen :=
        if String.eqb border_style_str "toggle"
        then Some (Z.rem (int_wrap (border_style + 1)) 3)
        else if String.eqb border_style_str "normal" then Some BS_NORMAL
        else if String.eqb border_style_str "none" then Some BS_NONE
        else if String.eqb border_style_str "1pixel" then Some BS_1PIXEL
        else None in
      match chosen with
      | Some border_style =>
          border_loop border_style_str next (con_set_border_style current border_style t)
      | None => (t, false)
      end
  end.

Definition cmd_border (current_match : Match) (border_style_str : string) (s : state)
    : option string * state :=
  let '(s, captured) :=
    MIGRATION_init current_match [Some "cmd_border"; Some border_style_str] s in
  if captured then (None, s) else
  let s := HANDLE_EMPTY_MATCH match_is_empty current_match s in
  let '(t, done) := border_loop border_style_str (owindows s) (st_tree s) in
  if done : bool then (Some reply_success, set_tree s (tree_render t))
  else (Some reply_sucess_false, set_tree s t).

(** *** cmd_move_con_to_workspace_name (lines 505-535) *)

Definition cmd_move_con_to_workspace_name (current_match : Match) (name : string) (s : state)
    : result (option string * state) :=
  let '(s, captured) :=
    MIGRATION_init current_match [Some "cmd_move_con_to_workspace_name"; Some name] s in
  if captured then Ok (None, s) else
  if strncasecmp_eq 5 name "__i3_" then Ok (Some reply_sucess_false, s) else
  nothing_to_move ←
    (if match_is_empty current_match
     then f ← deref (st_tree s) (focused (st_tree s));
          Ok (bool_decide (con_type f = CT_WORKSPACE))
     else Ok false);
  if nothing_to_move : bool then Ok (Some reply_sucess_false, s) else
  let '(ws, t) := workspace_get name (st_tree s) in
  let s := HANDLE_EMPTY_MATCH match_is_empty current_match (set_tree s t) in
  let t := foreach_owindow (fun con => con_move_to_workspace con ws true false)
             (owindows s) (st_tree s) in
  rendered tree_render (set_tree s t).

(** *** cmd_workspace_name (lines 724-751) *)

Definition cmd_workspace_name (current_match : Match) (name : string) (s : state)
    : result (option string * state) :=
  let '(s, captured) :=
    MIGRATION_init current_match [Some "cmd_workspace_name"; Some name] s in
  if captured then Ok (None, s) else
  if strncasecmp_eq 5 name "__i3_" then Ok (Some reply_sucess_false, s) else
  let t := st_tree s in
  let ws := con_get_workspace t (focused t) in
  _ ← deref t ws;
  if String.eqb (con_name t ws) name then
    let t := if workspace_auto_back_and_forth
             then tree_render (workspace_back_and_forth t) else t in
    Ok (Some reply_sucess_false, set_tree s t)
  else rendered tree_render (set_tree s (workspace_show_by_name name t)).

(** *** cmd_focus_direction, cmd_focus_level, cmd_focus_window_mode
    (lines 975-1060) *)

Definition cmd_focus_direction (current_match : Match) (direction : string) (s : state)
    : result (option string * state) :=
  let '(s, captured) :=
    MIGRATION_init current_match [Some "cmd_focus_direction"; Some direction] s in
  if captured then Ok (None, s) else
  blocked ← focus_in_fullscreen_mode (st_tree s);
  if blocked : bool then Ok (Some reply_sucess_false, s) else
  let t := st_tree s in
  if String.eqb direction "left" then rendered tree_render (set_tree s (tree_next "p" HORIZ t))
  else if String.eqb direction "right" then
    rendered tree_render (set_tree s (tree_next "n" HORIZ t))
  else if String.eqb direction "up" then
    rendered tree_render (set_tree s (tree_next "p" VERT t))
  else if String.eqb direction "down" then
    rendered tree_render (set_tree s (tree_next "n" VERT t))
  else Ok (Some reply_sucess_false, s).

Definition cmd_focus_level (current_match : Match) (level : string) (s : state)
    : result (option string * state) :=
  let '(s, captured) :=
    MIGRATION_init current_match [Some "cmd_focus_level"; Some level] s in
  if captured then Ok (None, s) else
  blocked ← focus_in_fullscreen_mode (st_tree s);
  if blocked : bool then Ok (Some reply_sucess_false, s) else
  let t := st_tree s in
  rendered tree_render
    (set_tree s (if String.eqb level "parent" then level_up t else level_down t)).

(** The loop of lines 1025-1032: the first entry of the focus list that is
    not skipped is focused, and the loop ends. *)
Fixpoint focus_window_mode_loop (window_mode : string) (focus_list : list ptr) (t : tree)
    : result tree :=
  match focus_list with
  | [] => Ok t
  | current :: next =>
      c ← deref t current;
      let floating_con := bool_decide (con_type c = CT_FLOATING_CON) in
      if (String.eqb window_mode "floating" && negb floating_con)
         || (String.eqb window_mode "tiling" && floating_con)
      then focus_window_mode_loop window_mode next t
      else Ok (con_focus (con_descend_focused t current) t)
  end.

Definition cmd_focus_window_mode (current_match : Match) (window_mode : string) (s : state)
    : result (option string * state) :=
  let '(s, captured) :=
    MIGRATION_init current_match [Some "cmd_focus_window_mode"; Some window_mode] s in
  if captured then Ok (None, s) else
  blocked ← focus_in_fullscreen_mode (st_tree s);
  if blocked : bool then Ok (Some reply_sucess_false, s) else
  let t := st_tree s in
  let ws := con_get_workspace t (focused t) in
  t ← (if ws =? NULL then Ok t
       else
         window_mode ←
           (if String.eqb window_mode "mode_toggle" then
              match focus_head t ws with
              | [] => Ok "floating"
              | current :: _ =>
                  c ← deref t current;
                  Ok (if bool_decide (con_type c = CT_FLOATING_CON)
                      then "tiling" else "floating")
              end
            else Ok window_mode);
         focus_window_mode_loop window_mode (focus_head t ws) t);
  rendered tree_render (set_tree s t).

(** *** cmd_open (lines 1234-1245) *)

Definition cmd_open (current_match : Match) (s : state) : option string * state :=
  let '(s, captured) := MIGRATION_init current_match [Some "cmd_open"] s in
  if captured then (None, s) else
  let '(con, t) := tree_open_con (st_tree s) in
  let t := con_focus con t in
  (Some (reply_open con), set_tree s (tree_render t)).

(** *** cmd_move_con_to_workspace (lines 470-503) *)

(** workspace.c *)
Variable workspace_next : tree -> ptr.
Variable workspace_prev : tree -> ptr.
Variable workspace_next_on_output : tree -> ptr.
Variable workspace_prev_on_output : tree -> ptr.

Definition cmd_move_con_to_workspace (current_match : Match) (which : string) (s : state)
    : option string * state :=
  let '(s, captured) :=
    MIGRATION_init current_match [Some "cmd_move_con_to_workspace"; Some which] s in
  if captured then (None, s) else
  let s := HANDLE_EMPTY_MATCH match_is_empty current_match s in
  let t := st_tree s in
  let ws :=
    if String.eqb which "next" then Some (workspace_next t)
    else if String.eqb which "prev" then Some (workspace_prev t)
    else if String.eqb which "next_on_output" then Some (workspace_next_on_output t)
    else if String.eqb which "prev_on_output" then Some (workspace_prev_on_output t)
    else None in
  match ws with
  | None => (Some reply_sucess_false, s)
  | Some ws =>
      let t := foreach_owindow (fun con => con_move_to_workspace con ws true false)
                 (owindows s) t in
      (Some reply_success, set_tree s (tree_render t))
  end.

(** *** cmd_floating (lines 840-867) *)

(** floating.c *)
Variable toggle_floating_mode : ptr -> bool -> tree -> tree.
Variable floating_enable : ptr -> bool -> tree -> tree.
Variable floating_disable : ptr -> bool -> tree -> tree.

(** The loop body, lines 850-860. *)
Definition floating_body (floating_mode : string) (con : ptr) (t : tree) : tree :=
  if String.eqb floating_mode "toggle" then toggle_floating_mode con false t
  else if String.eqb floating_mode "enable" then floating_enable con false t
  else floating_disable con false t.

Definition cmd_floating (current_match : Match) (floating_mode : string) (s : state)
    : option string * state :=
  let '(s, captured) :=
    MIGRATION_init current_match [Some "cmd_floating"; Some floating_mode] s in
  if captured then (None, s) else
  let s := HANDLE_EMPTY_MATCH match_is_empty current_match s in
  let t := foreach_owindow (floating_body floating_mode) (owindows s) (st_tree s) in
  (Some reply_success, set_tree s (tree_render t)).

(** *** cmd_scratchpad_show (lines 1301-1319) *)

(** scratchpad.c *)
Variable scratchpad_show : ptr -> tree -> tree.

Definition cmd_scratchpad_show (current_match : Match) (s : state)
    : option string * state :=
  let '(s, captured) := MIGRATION_init current_match [Some "cmd_scratchpad_show"] s in
  if captured then (None, s) else
  let t :=
    if match_is_empty current_match
    then scratchpad_show NULL (st_tree s)
    else foreach_owindow scratchpad_show (owindows s) (st_tree s) in
  (Some reply_success, set_tree s (tree_render t)).

End MoreCommands.

(** *** cmd_move_direction (lines 1145-1176) *)

(** The direction tokens handed to [tree_move]. *)
Inductive direction_token := TOK_LEFT | TOK_RIGHT | TOK_UP | TOK_DOWN.

(** Lines 1155-1163: [newrect] from the rectangle of the floating
    container; the fields are [uint32_t], [px] is an [int]. *)
Definition move_rect (direction : string) (px : Z) (r : Rect) : Rect :=
  if String.eqb direction "left" then
    {| rect_x := uint32_wrap (rect_x r - px); rect_y := rect_y r;
       rect_width := rect_width r; rect_height := rect_height r |}
  else if String.eqb direction "right" then
    {| rect_x := uint32_wrap (rect_x r + px); rect_y := rect_y r;
       rect_width := rect_width r; rect_height := rect_height r |}
  else if String.eqb direction "up" then
    {| rect_x := rect_x r; rect_y := uint32_wrap (rect_y r - px);
       rect_width := rect_width r; rect_height := rect_height r |}
  else if String.eqb direction "down" then
    {| rect_x := rect_x r; rect_y := uint32_wrap (rect_y r + px);
       rect_width := rect_width r; rect_height := rect_height r |}
  else r.

Section MoveDirection.

(** con.c, floating.c, move.c, tree.c *)
Variable con_is_floating : tree -> ptr -> bool.
Variable floating_reposition : ptr -> Rect -> tree -> tree.
Variable tree_move : direction_token -> tree -> tree.
Variable tree_render : tree -> tree.

Definition cmd_move_direction (current_match : Match) (direction move_px : string)
    (s : state) : result (option string * state) :=
  let '(s, captured) :=
    MIGRATION_init current_match
      [Some "cmd_move_direction"; Some direction; Some move_px] s in
  if captured then Ok (None, s) else
  let px := atoi move_px in
  let t := st_tree s in
  if con_is_floating t (focused t) then
    f ← deref t (focused t);
    p ← deref t (con_parent f);
    let newrect := move_rect direction px (con_rect p) in
    Ok (Some reply_success, set_tree s (floating_reposition (con_parent f) newrect t))
  else
    let token :=
      if String.eqb direction "right" then TOK_RIGHT
      else if String.eqb direction "left" then TOK_LEFT
      else if String.eqb direction "up" then TOK_UP
      else TOK_DOWN in
    Ok (Some reply_success, set_tree s (tree_render (tree_move token t))).

End MoveDirection.

(** ** Notions used to state the further properties *)

(** Lines 542-547: the pixels after [shrink] has negated them. *)
Definition signed_px (way resize_px : string) : Z :=
  if String.eqb way "shrink" then int_wrap (atoi resize_px * -1) else atoi resize_px.

(** All four fields fit [uint32_t]. *)
Definition rect_in_range (r : Rect) : Prop :=
  0 <= rect_x r < 2 ^ 32 /\ 0 <= rect_y r < 2 ^ 32
  /\ 0 <= rect_width r < 2 ^ 32 /\ 0 <= rect_height r < 2 ^ 32.

(** A command line as a parser hands it over: the calls of handlers, each
    with the Match and the parameters [MIGRATION_init] records. *)
Definition recorded_call : Type := Match * list (option string).

(** One parser pass: every handler of the line runs [MIGRATION_init]. *)
Definition parser_pass (calls : list recorded_call) (s : state) : state :=
  fold_left (fun s c => fst (MIGRATION_init (fst c) (snd c) s)) calls s.

(** A self test of one command line, as the comment of lines 64-70
    describes it: enable, the pass of the new parser, which only records,
    disable, the pass of the old parser. *)
Definition self_test (calls_new calls_old : list recorded_call) (s : state) : state :=
  parser_pass calls_old
    (cmd_MIGRATION_disable (parser_pass calls_new (cmd_MIGRATION_enable s))).

(** The handle is stuck: active, with no process and no watcher left that
    could reset it. *)
Definition handle_stuck (s : state) : Prop :=
  migration_pid s <> -1 /\ child_watchers s = [] /\ nagbar_procs s = [].

(** Whether a container is selected, said in one formula: with a
    container id, identity alone; otherwise a matching mark, or a window
    that [match_matches_window] accepts. *)
Definition selects
    (match_matches_window : Match -> i3Window -> bool)
    (regex_matches : regex -> string -> bool)
    (m : Match) (t : tree) (con : ptr) : bool :=
  if negb (match_con_id m =? NULL) then match_con_id m =? con
  else
    match heap t !! con with
    | None => false
    | Some c =>
        match match_mark m, con_mark c with
        | Some re, Some mark => regex_matches re mark
        | _, _ => false
        end
        || match con_window c with
           | Some w => match_matches_window m w
           | None => false
           end
    end.

(** Every entry of the list is the address of a container. *)
Definition all_allocated (t : tree) (cons : list ptr) : Prop :=
  forall con, In con cons -> is_Some (heap t !! con).

(** The mark a container carries after [cmd_mark mark] has run over the
    containers [cons] with the working set [ws]. *)
Definition mark_after (mark : string) (cons ws : list ptr) (q : ptr) (c : Con)
    : option string :=
  if bool_decide (q ∈ ws) then Some mark
  else if bool_decide (q ∈ cons) && bool_decide (con_mark c = Some mark) then None
  else con_mark c.

Definition marked_with (mark : string) (t : tree) (q : ptr) : Prop :=
  exists c, heap t !! q = Some c /\ con_mark c = Some mark.

(** A string in lower case, and the names that [cmd_workspace_name] and
    [cmd_move_con_to_workspace_name] keep for i3 itself: those that begin
    with [__i3_] written in any letter case. *)
Fixpoint lower (s : string) : string :=
  match s with
  | EmptyString => EmptyString
  | String c r => String (tolower c) (lower r)
  end.

Definition internal_name (name : string) : Prop :=
  exists prefix rest, name = (prefix ++ rest)%string /\ lower prefix = "__i3_".

(** Whether a container of the focus list is a floating one. *)
Definition is_floating (t : tree) (con : ptr) : bool :=
  match heap t !! con with
  | Some c => bool_decide (con_type c = CT_FLOATING_CON)
  | None => false
  end.

(** The containers that a window mode asks for. *)
Definition wanted (window_mode : string) (t : tree) (con : ptr) : bool :=
  if String.eqb window_mode "floating" then is_floating t con
  else if String.eqb window_mode "tiling" then negb (is_floating t con)
  else true.

(** * Properties *)

(** ** Migration harness *)

Lemma clear_stack_nil (frames : list stackframe) : clear_stack frames = [].
Proof. induction frames as [|f frames IH]; simpl; auto. Qed.

(** C7. [cmd_MIGRATION_enable] is idempotent: from any state, it leaves both
    frame buffers empty and the self test switched on, and a second call
    right after the first changes nothing. *)
Theorem enable_idempotent (s : state) :
  old_stackframes (cmd_MIGRATION_enable s) = []
  /\ new_stackframes (cmd_MIGRATION_enable s) = []
  /\ migration_test (cmd_MIGRATION_enable s) = true
  /\ cmd_MIGRATION_enable (cmd_MIGRATION_enable s) = cmd_MIGRATION_enable s.
Proof.
  unfold cmd_MIGRATION_enable; simpl.
  rewrite !clear_stack_nil. auto.
Qed.

Lemma re_differ_agree (new old : option regex) :
  re_differ new old = false <-> regex_agree new old.
Proof.
  destruct new as [n|], old as [o|]; simpl; try (split; [discriminate | tauto]);
    try tauto.
  rewrite negb_false_iff, String.eqb_eq. tauto.
Qed.

Lemma str_differ_eq (new old : option string) :
  str_differ new old = false <-> new = old.
Proof.
  destruct new as [n|], old as [o|]; simpl; try (split; [discriminate | discriminate]);
    try tauto.
  rewrite negb_false_iff, String.eqb_eq. split; congruence.
Qed.

Lemma match_differ_agree (new old : Match) :
  match_differ new old = false <-> match_agree new old.
Proof.
  unfold match_differ, match_agree.
  rewrite !orb_false_iff, !negb_false_iff, !Z.eqb_eq, !re_differ_agree.
  tauto.
Qed.

(** The inner loop finds nothing exactly when the lists agree index by
    index; what it finds is the first index that differs. *)
Lemma compare_args_none (j : Z) (new old : list (option string)) :
  length new = length old ->
  compare_args j new old = None <->
  (forall (k : nat) a b, new !! k = Some a -> old !! k = Some b -> a = b).
Proof.
  revert j old. induction new as [|a new IH]; intros j [|b old] Hlen;
    simpl in *; try discriminate.
  - split; [intros _ k x y Hx; destruct k; discriminate | reflexivity].
  - destruct (str_differ a b) eqn:Hd.
    + split; [discriminate|]. intros H.
      assert (a = b) as Hab by (apply (H 0%nat); reflexivity).
      apply str_differ_eq in Hab. congruence.
    + apply str_differ_eq in Hd. subst b.
      rewrite IH by lia. split.
      * intros H [|k] x y Hx Hy; simpl in *; [congruence | eauto].
      * intros H k x y Hx Hy. apply (H (S k)); assumption.
Qed.

(** One round of the outer loop passes exactly when the two frames agree. *)
Lemma frame_round_agree (f g : stackframe) :
  (match_differ (frame_match f) (frame_match g) = false
   /\ negb (n_args f =? n_args g) = false
   /\ compare_args 0 (args f) (args g) = None)
  <-> frame_agree f g.
Proof.
  unfold frame_agree, args_agree, n_args.
  rewrite match_differ_agree, negb_false_iff, Z.eqb_eq.
  split.
  - intros (Hm & Hn & Ha). apply Nat2Z.inj in Hn.
    split; [assumption|]. split; [assumption|].
    apply (compare_args_none 0); assumption.
  - intros (Hm & Hn & Ha). split; [assumption|]. split; [congruence|].
    apply compare_args_none; assumption.
Qed.

Lemma compare_frames_spec (new old : list stackframe) (i : Z) :
  length new = length old ->
  match compare_frames i new old with
  | None => forall k, frames_agree_at new old k
  | Some msg =>
      exists k : nat,
        reported_frame msg = Some (i + Z.of_nat k)
        /\ ~ frames_agree_at new old k
        /\ forall k', (k' < k)%nat -> frames_agree_at new old k'
  end.
Proof.
  unfold frames_agree_at.
  revert old i. induction new as [|f new IH]; intros [|g old] i Hlen;
    simpl in *; try discriminate Hlen.
  - intros k x y Hx. destruct k; discriminate.
  - pose proof (frame_round_agree f g) as Hround.
    assert (forall msg, reported_frame msg = Some i -> ~ frame_agree f g ->
              exists k : nat, reported_frame msg = Some (i + Z.of_nat k)
                /\ ~ (forall x y, (f :: new) !! k = Some x -> (g :: old) !! k = Some y ->
                        frame_agree x y)
                /\ forall k', (k' < k)%nat -> forall x y,
                     (f :: new) !! k' = Some x -> (g :: old) !! k' = Some y ->
                     frame_agree x y)
      as Hhere.
    { intros msg Hmsg Hno. exists 0%nat. rewrite Z.add_0_r.
      split; [assumption|]. split; [|lia].
      intros H. apply Hno. apply H; reflexivity. }
    destruct (match_differ (frame_match f) (frame_match g)) eqn:Hm.
    { apply Hhere; [reflexivity|]. intros H. apply Hround in H.
      destruct H as (H & _). discriminate. }
    destruct (negb (n_args f =? n_args g)) eqn:Hn.
    { apply Hhere; [reflexivity|]. intros H. apply Hround in H.
      destruct H as (_ & H & _). discriminate. }
    destruct (compare_args 0 (args f) (args g)) as [[[j a] b]|] eqn:Ha.
    { apply Hhere; [reflexivity|]. intros H. apply Hround in H.
      destruct H as (_ & _ & H). discriminate. }
    assert (frame_agree f g) as Hfg by (apply Hround; auto).
    specialize (IH old (i + 1) ltac:(lia)).
    destruct (compare_frames (i + 1) new old) as [msg|].
    + destruct IH as (k & Hk & Hno & Hbefore).
      exists (S k). split; [rewrite Hk; f_equal; lia|].
      split.
      * intros H. apply Hno. intros x y Hx Hy. apply (H x y); assumption.
      * intros [|k'] Hlt x y Hx Hy; simpl in *.
        -- congruence.
        -- apply (Hbefore k' ltac:(lia)); assumption.
    + intros [|k] x y Hx Hy; simpl in *; [congruence | eapply IH; eassumption].
Qed.

Lemma start_nagbar_log (fork_ret : option positive) (s : state) :
  exists m rest, log (cmd_MIGRATION_start_nagbar fork_ret s) = log s ++ m :: rest.
Proof.
  unfold cmd_MIGRATION_start_nagbar.
  destruct (negb (migration_pid s =? -1)); simpl.
  - eexists _, []. reflexivity.
  - destruct fork_ret; simpl.
    + eexists _, []. reflexivity.
    + eexists _, [_]. rewrite <- app_assoc. reflexivity.
Qed.

Lemma validate_failed_changes (fork_ret : option positive) (s : state) (msg : log_msg) :
  cmd_MIGRATION_start_nagbar fork_ret (write_log s msg) <> s.
Proof.
  intros H. apply (f_equal (fun x => length (log x))) in H.
  destruct (start_nagbar_log fork_ret (write_log s msg)) as (m & rest & Hlog).
  rewrite Hlog in H. simpl in H. rewrite !length_app in H. simpl in H. lia.
Qed.

(** C6. [cmd_MIGRATION_validate] leaves the state as it is (no FAILED line,
    no nagbar) if and only if the two frame sequences have the same length
    and the frames agree position by position: on the five scalar Match
    fields, on each regex (both absent, or both present with the same
    pattern text) and on the argument lists (same length, same string or
    NULL on both sides at every index).  When the lengths differ it reports
    the two counts.  When the lengths are equal and some frame differs, it
    reports the index of the first frame that differs and stops. *)
Theorem validate_reports_first_difference (fork_ret : option positive) (s : state) :
  (cmd_MIGRATION_validate fork_ret s = s
   <-> frames_agree (new_stackframes s) (old_stackframes s))
  /\ (length (new_stackframes s) <> length (old_stackframes s) ->
      cmd_MIGRATION_validate fork_ret s =
      cmd_MIGRATION_start_nagbar fork_ret
        (write_log s (FAILED_count (Z.of_nat (length (new_stackframes s)))
                                   (Z.of_nat (length (old_stackframes s))))))
  /\ (length (new_stackframes s) = length (old_stackframes s) ->
      ~ frames_agree (new_stackframes s) (old_stackframes s) ->
      exists (i : nat) (msg : log_msg),
        ~ frames_agree_at (new_stackframes s) (old_stackframes s) i
        /\ (forall k, (k < i)%nat ->
              frames_agree_at (new_stackframes s) (old_stackframes s) k)
        /\ reported_frame msg = Some (Z.of_nat i)
        /\ cmd_MIGRATION_validate fork_ret s =
           cmd_MIGRATION_start_nagbar fork_ret (write_log s msg)).
Proof.
  unfold cmd_MIGRATION_validate, validate_frames, frames_agree.
  set (new := new_stackframes s). set (old := old_stackframes s).
  destruct (Z.eqb_spec (Z.of_nat (length new)) (Z.of_nat (length old))) as [Hlen|Hlen];
    simpl.
  - apply Nat2Z.inj in Hlen.
    pose proof (compare_frames_spec new old 0 Hlen) as Hspec.
    destruct (compare_frames 0 new old) as [msg|].
    + destruct Hspec as (k & Hk & Hno & Hbefore).
      split; [|split].
      * split.
        -- intros H. exfalso. exact (validate_failed_changes _ _ _ H).
        -- intros (_ & H). exfalso. apply Hno, H.
      * intros H. contradiction.
      * intros _ _. exists k, msg. auto.
    + split; [|split].
      * split; auto.
      * intros H. contradiction.
      * intros _ H. exfalso. apply H. auto.
  - assert (length new <> length old) as Hne by (intros H; apply Hlen; congruence).
    split; [|split].
    + split.
      * intros H. exfalso. exact (validate_failed_changes _ _ _ H).
      * intros (H & _). contradiction.
    + reflexivity.
    + intros H. contradiction.
Qed.

(** *** The nagbar handle *)

Lemma start_nagbar_active (fork_ret : option positive) (s : state) :
  handle_active s = true ->
  cmd_MIGRATION_start_nagbar fork_ret s = write_log s nagbar_already_running.
Proof.
  unfold handle_active, cmd_MIGRATION_start_nagbar. intros ->. reflexivity.
Qed.

Lemma nagbar_inv_start (fork_ret : option positive) (s : state) :
  nagbar_inv s -> nagbar_inv (cmd_MIGRATION_start_nagbar fork_ret s).
Proof.
  unfold nagbar_inv, cmd_MIGRATION_start_nagbar.
  intros (Hw & Hp).
  destruct (Z.eqb_spec (migration_pid s) (-1)) as [Hpid|Hpid]; simpl; [|auto].
  destruct Hp as [Hp|(Hpos & _)]; [|lia].
  destruct fork_ret as [pid|]; simpl.
  - rewrite Hw, Hp. split; [reflexivity|]. right. split; [lia | reflexivity].
  - auto.
Qed.

Lemma nagbar_inv_validate (fork_ret : option positive) (s : state) :
  nagbar_inv s -> nagbar_inv (cmd_MIGRATION_validate fork_ret s).
Proof.
  intros H. unfold cmd_MIGRATION_validate.
  destruct (validate_frames _ _); [|assumption].
  apply nagbar_inv_start. exact H.
Qed.

Lemma nagbar_inv_child_exit (pid rstatus : Z) (s : state) :
  nagbar_inv s -> nagbar_inv (harness_step s (ev_child_exit pid rstatus)).
Proof.
  unfold nagbar_inv. intros (Hw & Hp). simpl.
  destruct (existsb (Z.eqb pid) (child_watchers s)) eqn:Hex; [|auto].
  assert (filter (fun p => negb (p =? pid)) (nagbar_procs s) = []) as Hgone.
  { destruct Hp as [Hp|(_ & Hp)]; rewrite Hw in Hex; rewrite Hp in *.
    - reflexivity.
    - simpl in Hex. rewrite orb_false_r in Hex. apply Z.eqb_eq in Hex. subst pid.
      cbn. rewrite Z.eqb_refl. reflexivity. }
  unfold nagbar_exited. simpl. rewrite Hw, Hgone.
  destruct (negb (WIFEXITED rstatus)); simpl; [auto|].
  destruct (WEXITSTATUS rstatus =? 2); simpl; auto.
Qed.

Lemma nagbar_inv_step (s : state) (e : harness_event) :
  nagbar_inv s -> nagbar_inv (harness_step s e).
Proof.
  intros H. destruct e; simpl.
  - exact H.
  - exact H.
  - exact H.
  - exact H.
  - apply nagbar_inv_validate, H.
  - apply nagbar_inv_start, H.
  - apply nagbar_inv_child_exit, H.
Qed.

Lemma nagbar_inv_run (es : list harness_event) (s : state) :
  nagbar_inv s -> nagbar_inv (harness_run s es).
Proof.
  unfold harness_run. revert s.
  induction es as [|e es IH]; intros s H; simpl; [exact H|].
  apply IH, nagbar_inv_step, H.
Qed.

Lemma nagbar_inv_initial (t : tree) : nagbar_inv (initial_state t).
Proof. split; [reflexivity | left; reflexivity]. Qed.

(** The only step that turns an active handle inactive is the report that
    the watched child exited normally. *)
Lemma handle_reset_only_by_exit (s : state) (e : harness_event) :
  nagbar_inv s ->
  handle_active s = true ->
  handle_active (harness_step s e) = false ->
  exists rstatus,
    e = ev_child_exit (migration_pid s) rstatus /\ WIFEXITED rstatus = true.
Proof.
  intros (Hw & Hp) Hact Hoff.
  pose proof Hact as Hact'. unfold handle_active in Hact', Hoff.
  destruct e as [| | | |fork_ret|fork_ret|pid rstatus]; simpl in Hoff;
    try congruence.
  - unfold cmd_MIGRATION_validate in Hoff.
    destruct (validate_frames _ _); [|congruence].
    rewrite start_nagbar_active in Hoff by exact Hact. simpl in Hoff. congruence.
  - rewrite start_nagbar_active in Hoff by exact Hact. simpl in Hoff. congruence.
  - destruct (existsb (Z.eqb pid) (child_watchers s)) eqn:Hex; [|congruence].
    rewrite Hw in Hex.
    destruct Hp as [Hp|(_ & Hp)]; rewrite Hp in Hex; simpl in Hex; [discriminate|].
    rewrite orb_false_r in Hex. apply Z.eqb_eq in Hex. subst pid.
    exists rstatus. split; [reflexivity|].
    unfold nagbar_exited in Hoff. simpl in Hoff.
    destruct (WIFEXITED rstatus); [reflexivity|].
    simpl in Hoff. congruence.
Qed.

(** C8. In every state the harness reaches from program start, at most one
    i3-nagbar process is outstanding.  While the handle is active a FAIL
    (a direct call of [cmd_MIGRATION_start_nagbar], or one made by
    [cmd_MIGRATION_validate]) forks nothing: it writes "already running"
    and returns, whatever fork() would have returned.  The handle becomes
    inactive only by the step that reports the exit of the watched
    process. *)
Theorem nagbar_at_most_one (t : tree) (es : list harness_event) :
  (length (nagbar_procs (harness_run (initial_state t) es)) <= 1)%nat
  /\ (forall fork_ret,
        handle_active (harness_run (initial_state t) es) = true ->
        cmd_MIGRATION_start_nagbar fork_ret (harness_run (initial_state t) es)
        = write_log (harness_run (initial_state t) es) nagbar_already_running
        /\ nagbar_procs
             (cmd_MIGRATION_validate fork_ret (harness_run (initial_state t) es))
           = nagbar_procs (harness_run (initial_state t) es))
  /\ (forall e,
        handle_active (harness_run (initial_state t) es) = true ->
        handle_active (harness_step (harness_run (initial_state t) es) e) = false ->
        exists rstatus,
          e = ev_child_exit (migration_pid (harness_run (initial_state t) es)) rstatus
          /\ WIFEXITED rstatus = true).
Proof.
  pose proof (nagbar_inv_run es _ (nagbar_inv_initial t)) as Hinv.
  set (s := harness_run (initial_state t) es) in *.
  split; [|split].
  - destruct Hinv as (_ & [Hp|(_ & Hp)]); rewrite Hp; simpl; lia.
  - intros fork_ret Hact. split; [apply start_nagbar_active, Hact|].
    unfold cmd_MIGRATION_validate.
    destruct (validate_frames _ _); [|reflexivity].
    rewrite start_nagbar_active by exact Hact. reflexivity.
  - intros e. apply handle_reset_only_by_exit, Hinv.
Qed.

(** ** The working set *)

Lemma match_one_con_id
    (match_matches_window : Match -> i3Window -> bool)
    (regex_matches : regex -> string -> bool)
    (current_match : Match) (t : tree) (con : ptr) :
  match_con_id current_match <> NULL ->
  match_one match_matches_window regex_matches current_match t con
  = Ok (match_con_id current_match =? con, []).
Proof.
  intros H. unfold match_one.
  destruct (Z.eqb_spec (match_con_id current_match) NULL); [contradiction|].
  reflexivity.
Qed.

Lemma match_loop_con_id
    (match_matches_window : Match -> i3Window -> bool)
    (regex_matches : regex -> string -> bool)
    (current_match : Match) (t : tree) (old : list ptr) :
  match_con_id current_match <> NULL ->
  match_loop match_matches_window regex_matches current_match t old
  = Ok (List.filter (fun con => match_con_id current_match =? con) old, []).
Proof.
  intros H. induction old as [|con old IH]; simpl; [reflexivity|].
  rewrite match_one_con_id by exact H. simpl. rewrite IH. simpl.
  destruct (match_con_id current_match =? con); reflexivity.
Qed.

(** C4. When the Match has a container id, an entry stays in the working
    set exactly when its container is that one; [regex_matches] and
    [match_matches_window] are not called for any entry, and no container
    is even read. *)
Theorem con_id_exclusive
    (match_matches_window : Match -> i3Window -> bool)
    (regex_matches : regex -> string -> bool)
    (current_match : Match) (s : state) :
  match_con_id current_match <> NULL ->
  exists s',
    cmd_criteria_match_windows match_matches_window regex_matches current_match s
    = Ok (None, s', [])
    /\ owindows s'
       = List.filter (fun con => match_con_id current_match =? con) (owindows s)
    /\ st_tree s' = st_tree s
    /\ forall con, con ∈ owindows s'
         <-> con ∈ owindows s /\ con = match_con_id current_match.
Proof.
  intros H. unfold cmd_criteria_match_windows.
  set (s0 := if migration_test s then _ else _).
  assert (owindows s0 = owindows s /\ st_tree s0 = st_tree s) as (Hw & Ht).
  { unfold s0. destruct (migration_test s); split; reflexivity. }
  rewrite match_loop_con_id by exact H. simpl.
  eexists. split; [reflexivity|]. simpl. rewrite Hw, Ht.
  split; [reflexivity|]. split; [reflexivity|].
  intros con. rewrite !list_elem_of_In, filter_In, Z.eqb_eq.
  split; intros (? & ?); split; congruence.
Qed.

(** On the small tree: a Match for container 4 that also carries a mark and a
    class predicate keeps container 4 and calls nothing. *)
Lemma con_id_exclusive_witness :
  exists s',
    cmd_criteria_match_windows sample_match_matches_window sample_regex_matches
      (sample_match_con_id 4) (set_owindows (sample_state 1 1) [1; 2; 3; 4])
    = Ok (None, s', [])
    /\ owindows s' = [4].
Proof.
  destruct (con_id_exclusive sample_match_matches_window sample_regex_matches
              (sample_match_con_id 4) (set_owindows (sample_state 1 1) [1; 2; 3; 4])
              ltac:(discriminate)) as (s' & Hrun & Hw & _).
  exists s'. split; [exact Hrun | exact Hw].
Defined.

(** C2 as stated fails: container 3 carries the mark "bar" and the Match has
    a mark predicate, "foo", which does not match it.  The loop then goes
    on to the window branch and calls [match_matches_window] for that
    container. *)
Lemma mark_exclusivity_counterexample :
  con_mark <$> heap (sample_tree 1 1) !! 3 = Some (Some "bar")
  /\ match_mark (sample_match_mark_class "foo" "browser") = Some {| pattern := "foo" |}
  /\ match_one sample_match_matches_window sample_regex_matches
       (sample_match_mark_class "foo" "browser") (sample_tree 1 1) 3
     = Ok (false,
           [call_regex_matches {| pattern := "foo" |} "bar";
            call_match_matches_window (sample_match_mark_class "foo" "browser")
              (sample_window 7 "term")])
  /\ window_predicates_evaluated
       [call_regex_matches {| pattern := "foo" |} "bar";
        call_match_matches_window (sample_match_mark_class "foo" "browser")
          (sample_window 7 "term")] = true.
Proof. vm_compute. auto. Qed.

(** C2, amended.  Without a container id, for an entry that carries a mark
    and a Match with a mark predicate, the mark regex is evaluated first.
    If it matches, the entry is kept and the window predicates are not
    evaluated.  If it does not match, the entry goes through the window
    branch: it is dropped when the container has no window, and otherwise
    kept exactly when [match_matches_window] accepts the window. *)
Theorem mark_branch
    (match_matches_window : Match -> i3Window -> bool)
    (regex_matches : regex -> string -> bool)
    (current_match : Match) (t : tree) (con : ptr) (c : Con)
    (re : regex) (mark : string) :
  match_con_id current_match = NULL ->
  match_mark current_match = Some re ->
  heap t !! con = Some c ->
  con_mark c = Some mark ->
  match_one match_matches_window regex_matches current_match t con
  = Ok (if regex_matches re mark then (true, [call_regex_matches re mark])
        else
          match con_window c with
          | None => (false, [call_regex_matches re mark])
          | Some w =>
              (match_matches_window current_match w,
               [call_regex_matches re mark;
                call_match_matches_window current_match w])
          end)
  /\ (regex_matches re mark = true ->
      exists calls,
        match_one match_matches_window regex_matches current_match t con
        = Ok (true, calls)
        /\ window_predicates_evaluated calls = false).
Proof.
  intros Hid Hmark Hcon Hcmark.
  assert (match_one match_matches_window regex_matches current_match t con
          = Ok (if regex_matches re mark then (true, [call_regex_matches re mark])
                else
                  match con_window c with
                  | None => (false, [call_regex_matches re mark])
                  | Some w =>
                      (match_matches_window current_match w,
                       [call_regex_matches re mark;
                        call_match_matches_window current_match w])
                  end)) as Hrun.
  { unfold match_one, deref. rewrite Hid, Hcon. simpl. rewrite Hmark, Hcmark.
    destruct (regex_matches re mark); [reflexivity|].
    unfold match_window_branch. destruct (con_window c); reflexivity. }
  split; [exact Hrun|].
  intros Hm. rewrite Hrun, Hm. eexists. split; reflexivity.
Qed.

(** On the small tree: the mark of container 3 matches, its class would not;
    the container is kept and only the mark regex is evaluated. *)
Lemma mark_branch_witness :
  match_one sample_match_matches_window sample_regex_matches
    (sample_match_mark_class "bar" "browser") (sample_tree 1 1) 3
  = Ok (true, [call_regex_matches {| pattern := "bar" |} "bar"]).
Proof.
  exact (proj1 (mark_branch sample_match_matches_window sample_regex_matches
                  (sample_match_mark_class "bar" "browser") (sample_tree 1 1) 3
                  (sample_con (CT_OTHER 2) 2 NO_ORIENTATION 1 (Some "bar")
                     (Some (sample_window 7 "term")) NULL 4)
                  {| pattern := "bar" |} "bar" eq_refl eq_refl eq_refl eq_refl)).
Defined.

(** ** cmd_focus and cmd_layout *)

(** C9 as stated fails: when the focused container is in fullscreen mode,
    [cmd_focus] with the empty match returns the reply of the fullscreen
    test, which does not say that a container has to be specified. *)
Lemma focus_empty_match_counterexample :
  sample_match_is_empty sample_match_init = true
  /\ cmd_focus sample_match_is_empty (fun _ _ => NULL) sample_con_focus
       (fun _ t => t) (fun t => t) sample_match_init
       (initial_state sample_fullscreen_tree)
     = Ok (Some reply_sucess_false,
           write_log
             (cmd_MIGRATION_save_old_parameters sample_match_init [Some "cmd_focus"]
                (initial_state sample_fullscreen_tree))
             focus_in_fullscreen)
  /\ reply_sucess_false <> reply_focus_needs_criteria.
Proof. split; [|split]; [reflexivity | reflexivity | discriminate]. Qed.

(** C9, amended.  With the empty match [cmd_focus] never touches the tree
    (no focus change, no workspace switch, no re-layout) and never falls
    back to the focused container.  When the call is executed (no self
    test is capturing) and the fullscreen test of lines 1065-1067 does not
    fire, the reply is the failure that says a window/container has to be
    specified; when that test fires, the reply is [{"sucess": false}]. *)
Theorem focus_empty_match
    (match_is_empty : Match -> bool)
    (con_get_workspace : tree -> ptr -> ptr)
    (con_focus workspace_show : ptr -> tree -> tree) (tree_render : tree -> tree)
    (current_match : Match) (s : state) :
  match_is_empty current_match = true ->
  (forall reply s',
     cmd_focus match_is_empty con_get_workspace con_focus workspace_show tree_render
       current_match s = Ok (reply, s') ->
     st_tree s' = st_tree s /\ owindows s' = owindows s)
  /\ (migration_test s = false ->
      forall blocked,
        focus_in_fullscreen_mode (st_tree s) = Ok blocked ->
        cmd_focus match_is_empty con_get_workspace con_focus workspace_show tree_render
          current_match s
        = Ok (Some (if blocked : bool then reply_sucess_false
                    else reply_focus_needs_criteria),
              write_log
                (cmd_MIGRATION_save_old_parameters current_match [Some "cmd_focus"] s)
                (if blocked then focus_in_fullscreen else focus_needs_criteria))).
Proof.
  intros Hempty. split.
  - intros reply s'. unfold cmd_focus, MIGRATION_init.
    destruct (migration_test s); simpl.
    + intros [= <- <-]. split; reflexivity.
    + destruct (focus_in_fullscreen_mode (st_tree s)) as [blocked| |];
        simpl; try discriminate.
      rewrite Hempty. destruct blocked; intros [= <- <-]; split; reflexivity.
  - intros Hmig blocked Hguard. unfold cmd_focus, MIGRATION_init.
    rewrite Hmig. simpl. rewrite Hguard. simpl. rewrite Hempty.
    destruct blocked; reflexivity.
Qed.

(** On the small tree, nothing in fullscreen mode: the reply asks for
    criteria. *)
Lemma focus_empty_match_witness :
  cmd_focus sample_match_is_empty (fun _ _ => NULL) sample_con_focus
    (fun _ t => t) (fun t => t) sample_match_init
    (set_owindows (sample_state 1 1) [1; 2; 3; 4])
  = Ok (Some reply_focus_needs_criteria,
        write_log
          (cmd_MIGRATION_save_old_parameters sample_match_init [Some "cmd_focus"]
             (set_owindows (sample_state 1 1) [1; 2; 3; 4]))
          focus_needs_criteria).
Proof.
  exact (proj2 (focus_empty_match sample_match_is_empty (fun _ _ => NULL)
                  sample_con_focus (fun _ t => t) (fun t => t) sample_match_init
                  (set_owindows (sample_state 1 1) [1; 2; 3; 4]) eq_refl)
           eq_refl false eq_refl).
Defined.

(** C10. When [cmd_layout] is executed, the emptiness of the Match alone
    picks the branch.  With the empty match the layout is set on the parent
    of the focused container, whatever the working set holds.  Otherwise it
    is set on each container of the working set, in order, and on nothing
    else; with an empty working set no layout is set at all. *)
Theorem layout_branches
    (match_is_empty : Match -> bool)
    (con_set_layout : ptr -> layout_t -> tree -> tree) (tree_render : tree -> tree)
    (current_match : Match) (layout_str : string) (s : state) :
  migration_test s = false ->
  (match_is_empty current_match = true ->
   forall f, heap (st_tree s) !! focused (st_tree s) = Some f ->
   exists s',
     cmd_layout match_is_empty con_set_layout tree_render current_match layout_str s
     = Ok (Some reply_success, s')
     /\ st_tree s'
        = tree_render
            (con_set_layout (con_parent f)
               (layout_of (if String.eqb layout_str "stacking" then "stacked"
                           else layout_str))
               (st_tree s)))
  /\ (match_is_empty current_match = false ->
      exists s',
        cmd_layout match_is_empty con_set_layout tree_render current_match layout_str s
        = Ok (Some reply_success, s')
        /\ st_tree s'
           = tree_render
               (fold_left
                  (fun t con =>
                     con_set_layout con
                       (layout_of (if String.eqb layout_str "stacking" then "stacked"
                                   else layout_str)) t)
                  (owindows s) (st_tree s))
        /\ (owindows s = [] -> st_tree s' = tree_render (st_tree s))).
Proof.
  intros Hmig. split.
  - intros Hempty f Hf. unfold cmd_layout, MIGRATION_init.
    rewrite Hmig. simpl. rewrite Hempty. unfold deref. simpl. rewrite Hf. simpl.
    eexists. split; reflexivity.
  - intros Hempty. unfold cmd_layout, MIGRATION_init.
    rewrite Hmig. simpl. rewrite Hempty. simpl.
    eexists. split; [reflexivity|]. simpl. split; [reflexivity|].
    intros ->. reflexivity.
Qed.

(** On the small tree: "stacking" with the empty match stacks the workspace
    2, the parent of the focused container 3, and leaves 3 as it was. *)
Lemma layout_branches_witness :
  exists s',
    cmd_layout sample_match_is_empty sample_con_set_layout (fun t => t)
      sample_match_init "stacking" (set_owindows (sample_state 1 1) [1; 2; 3; 4])
    = Ok (Some reply_success, s')
    /\ layout_at (st_tree s') 2 = Some L_STACKED
    /\ layout_at (st_tree s') 3 = Some L_DEFAULT.
Proof.
  destruct (proj1 (layout_branches sample_match_is_empty sample_con_set_layout
                     (fun t => t) sample_match_init "stacking"
                     (set_owindows (sample_state 1 1) [1; 2; 3; 4]) eq_refl)
              eq_refl _ eq_refl) as (s' & Hrun & Htree).
  exists s'. split; [exact Hrun|]. rewrite Htree. split; reflexivity.
Defined.

(** ** cmd_resize *)

Lemma wrong_direction_incompatible (o : orientation_t) (direction : string) :
  wrong_direction o direction = true <-> incompatible o direction.
Proof.
  unfold wrong_direction, incompatible.
  rewrite orb_true_iff, !andb_true_iff, !orb_true_iff, !bool_decide_eq_true,
    !String.eqb_eq.
  tauto.
Qed.

(** C5. In a tiling resize, when the split of the parent found by the
    ascent runs the other way than the direction asks, [cmd_resize] returns
    the failure reply, writes the line that names the wrong direction, and
    leaves the whole tree as it was: no percentage, no rectangle and no
    other field of any container changes, and no re-layout is requested. *)
Theorem resize_wrong_direction_rejected
    (con_inside_floating : tree -> ptr -> ptr)
    (con_num_children : tree -> ptr -> Z) (tree_render : tree -> tree)
    (fuel : nat) (current_match : Match)
    (way direction resize_px resize_ppt : string) (s : state)
    (current : ptr) (c p : Con) :
  migration_test s = false ->
  con_inside_floating (st_tree s) (focused (st_tree s)) = NULL ->
  resize_find_current fuel (st_tree s) direction = Ok current ->
  heap (st_tree s) !! current = Some c ->
  heap (st_tree s) !! con_parent c = Some p ->
  incompatible (con_orientation p) direction ->
  exists s',
    cmd_resize con_inside_floating con_num_children tree_render fuel current_match
      way direction resize_px resize_ppt s
    = Ok (Some reply_sucess_false, s')
    /\ st_tree s' = st_tree s
    /\ log s' = log s ++ [resize_tiling; resize_wrong_direction (con_orientation p)].
Proof.
  intros Hmig Hfloat Hfind Hc Hp Hwrong.
  apply wrong_direction_incompatible in Hwrong.
  unfold cmd_resize, MIGRATION_init. rewrite Hmig. simpl.
  rewrite Hfloat. simpl. rewrite Hfind. simpl.
  unfold deref. simpl. rewrite Hc. simpl. rewrite Hp. simpl.
  rewrite Hwrong.
  eexists. split; [reflexivity|]. simpl.
  split; [reflexivity|]. rewrite <- app_assoc. reflexivity.
Qed.

(** On the small tree: growing upwards in the horizontal workspace is
    refused and the tree is the same afterwards. *)
Lemma resize_wrong_direction_rejected_witness :
  exists s',
    cmd_resize (fun _ _ => NULL) sample_con_num_children (fun t => t) 5
      sample_match_init "grow" "up" "10" "10" (sample_state 1 1)
    = Ok (Some reply_sucess_false, s')
    /\ st_tree s' = sample_tree 1 1
    /\ log s' = [resize_tiling; resize_wrong_direction HORIZ].
Proof.
  exact (resize_wrong_direction_rejected (fun _ _ => NULL) sample_con_num_children
           (fun t => t) 5 sample_match_init "grow" "up" "10" "10" (sample_state 1 1)
           2 (sample_con CT_WORKSPACE 1 HORIZ 1 None None NULL NULL)
           (sample_con (CT_OTHER 1) NULL HORIZ 1 None None NULL NULL)
           eq_refl eq_refl eq_refl eq_refl eq_refl
           (or_introl (conj eq_refl (or_introl eq_refl)))).
Defined.

(** *** The ascent of cmd_resize ends *)

(** The fuel only cuts runs short: when the parent chain of a container
    has length [n], [S n] rounds are enough for either loop, which then
    ends with a container or with the fault of the C program. *)
Lemma skip_stacked_tabbed_ends (t : tree) (con : ptr) (n : nat) :
  ancestry t con n ->
  forall fuel, (n < fuel)%nat ->
    skip_stacked_tabbed fuel t con = Fault
    \/ exists r m, skip_stacked_tabbed fuel t con = Ok r
                   /\ ancestry t r m /\ (m <= n)%nat.
Proof.
  induction 1 as [con Hout|con c n Hc Hanc IH]; intros [|fuel] Hfuel; try lia; simpl.
  - left. unfold deref. rewrite Hout. reflexivity.
  - unfold deref. rewrite Hc. simpl.
    destruct (heap t !! con_parent c) as [p|] eqn:Hp; simpl; [|left; reflexivity].
    destruct (is_stacked_or_tabbed (con_layout p)).
    + destruct (IH fuel ltac:(lia)) as [Hf|(r & m & Hr & Hm & Hle)].
      * left. exact Hf.
      * right. exists r, m. split; [exact Hr|]. split; [exact Hm | lia].
    + right. exists con, (S n). split; [reflexivity|].
      split; [econstructor; eassumption | lia].
Qed.

Lemma ascend_to_orientation_ends (t : tree) (o : orientation_t) (con : ptr) (n : nat) :
  ancestry t con n ->
  forall fuel, (n < fuel)%nat ->
    ascend_to_orientation fuel t o con <> OutOfFuel.
Proof.
  induction 1 as [con Hout|con c n Hc Hanc IH]; intros [|fuel] Hfuel; try lia; simpl.
  - unfold deref. rewrite Hout. discriminate.
  - unfold deref. rewrite Hc. simpl.
    destruct (bool_decide (con_type c = CT_WORKSPACE)
              || bool_decide (con_type c = CT_FLOATING_CON)); [discriminate|].
    destruct (heap t !! con_parent c) as [p|] eqn:Hp; simpl; [|discriminate].
    destruct (bool_decide (con_orientation p = o)); [discriminate|].
    apply IH. lia.
Qed.

Lemma resize_find_current_ends (t : tree) (direction : string) (n : nat) :
  ancestry t (focused t) n ->
  forall fuel, (n < fuel)%nat ->
    resize_find_current fuel t direction <> OutOfFuel.
Proof.
  intros Hanc fuel Hfuel. unfold resize_find_current.
  destruct (skip_stacked_tabbed_ends t _ n Hanc fuel Hfuel)
    as [Hf|(r & m & Hr & Hm & Hle)].
  - rewrite Hf. discriminate.
  - rewrite Hr. simpl. apply (ascend_to_orientation_ends t _ r m Hm). lia.
Qed.

(** *** The percentage transfer *)

Lemma set_percent_same (c : Con) : set_percent c (con_percent c) = c.
Proof. destruct c; reflexivity. Qed.

Lemma set_percent_twice (c : Con) (x y : float) :
  set_percent (set_percent c x) y = set_percent c y.
Proof. reflexivity. Qed.

Lemma store_percent_stored (t : tree) (con : ptr) (c : Con) (x : float) :
  heap t !! con = Some c ->
  exists t', store_percent t con x = Ok t' /\ stored t t' con c x.
Proof.
  intros H. unfold store_percent, deref. rewrite H. simpl.
  eexists. split; [reflexivity|]. unfold stored. simpl.
  rewrite lookup_insert_eq. split; [reflexivity|].
  split; [|auto]. intros q Hq. rewrite lookup_insert_ne by congruence. reflexivity.
Qed.

Lemma default_percent_stored (t : tree) (con : ptr) (c : Con) (percentage : float) :
  heap t !! con = Some c ->
  exists t',
    (if PrimFloat.eqb (con_percent c) 0 then store_percent t con percentage else Ok t)
    = Ok t'
    /\ stored t t' con c
         (if PrimFloat.eqb (con_percent c) 0 then percentage else con_percent c).
Proof.
  intros H. destruct (PrimFloat.eqb (con_percent c) 0).
  - apply store_percent_stored, H.
  - exists t. split; [reflexivity|]. unfold stored.
    rewrite set_percent_same. auto.
Qed.

(** [resize_percent] on two different containers: the percentages it
    leaves, and nothing else changes. *)
Lemma resize_percent_run
    (t : tree) (current other : ptr) (c o : Con) (percentage : float) (ppt : Z) :
  heap t !! current = Some c ->
  heap t !! other = Some o ->
  current <> other ->
  exists t',
    resize_percent t current other percentage ppt
    = Ok (t',
          above_floor (PrimFloat.add (default_percent percentage (con_percent c))
                         (delta_fraction ppt))
          && above_floor (PrimFloat.sub (default_percent percentage (con_percent o))
                            (delta_fraction ppt)))
    /\ heap t' !! current
       = Some (set_percent c
                 (if above_floor (PrimFloat.add (default_percent percentage (con_percent c))
                                    (delta_fraction ppt))
                     && above_floor (PrimFloat.sub (default_percent percentage (con_percent o))
                                       (delta_fraction ppt))
                  then PrimFloat.add (default_percent percentage (con_percent c))
                         (delta_fraction ppt)
                  else default_percent percentage (con_percent c)))
    /\ heap t' !! other
       = Some (set_percent o
                 (if above_floor (PrimFloat.add (default_percent percentage (con_percent c))
                                    (delta_fraction ppt))
                     && above_floor (PrimFloat.sub (default_percent percentage (con_percent o))
                                       (delta_fraction ppt))
                  then PrimFloat.sub (default_percent percentage (con_percent o))
                         (delta_fraction ppt)
                  else default_percent percentage (con_percent o)))
    /\ (forall q, q <> current -> q <> other -> heap t' !! q = heap t !! q)
    /\ all_cons t' = all_cons t /\ focused t' = focused t.
Proof.
  intros Hc Ho Hne. unfold default_percent, delta_fraction.
  set (c0 := if PrimFloat.eqb (con_percent c) 0 then percentage else con_percent c).
  set (o0 := if PrimFloat.eqb (con_percent o) 0 then percentage else con_percent o).
  set (delta := PrimFloat.div (double_of_int ppt) 100).
  set (resized :=
         above_floor (PrimFloat.add c0 delta) && above_floor (PrimFloat.sub o0 delta)).
  unfold resize_percent.
  assert (deref t current = Ok c) as -> by (unfold deref; rewrite Hc; reflexivity).
  simpl.
  destruct (default_percent_stored t current c percentage Hc)
    as (t1 & -> & Hc1 & Hf1 & Ha1 & Hfo1).
  simpl. fold c0 in Hc1.
  assert (heap t1 !! other = Some o) as Ho1 by (rewrite Hf1; congruence).
  assert (deref t1 other = Ok o) as -> by (unfold deref; rewrite Ho1; reflexivity).
  simpl.
  destruct (default_percent_stored t1 other o percentage Ho1)
    as (t2 & -> & Ho2 & Hf2 & Ha2 & Hfo2).
  simpl. fold o0 in Ho2.
  assert (heap t2 !! current = Some (set_percent c c0)) as Hc2
    by (rewrite Hf2; congruence).
  assert (deref t2 current = Ok (set_percent c c0)) as ->
    by (unfold deref; rewrite Hc2; reflexivity).
  assert (deref t2 other = Ok (set_percent o o0)) as ->
    by (unfold deref; rewrite Ho2; reflexivity).
  simpl. fold delta. fold resized.
  destruct resized.
  - destruct (store_percent_stored t2 current _ (PrimFloat.add c0 delta) Hc2)
      as (t3 & -> & Hc3 & Hf3 & Ha3 & Hfo3).
    simpl.
    assert (heap t3 !! other = Some (set_percent o o0)) as Ho3
      by (rewrite Hf3; congruence).
    assert (deref t3 other = Ok (set_percent o o0)) as ->
      by (unfold deref; rewrite Ho3; reflexivity).
    simpl.
    destruct (store_percent_stored t3 other _ (PrimFloat.sub o0 delta) Ho3)
      as (t4 & -> & Ho4 & Hf4 & Ha4 & Hfo4).
    simpl. exists t4. split; [reflexivity|].
    split; [rewrite Hf4 by congruence; exact Hc3|].
    split; [exact Ho4|].
    split; [|split; congruence].
    intros q Hq1 Hq2. rewrite Hf4, Hf3, Hf2, Hf1 by congruence. reflexivity.
  - exists t2. split; [reflexivity|].
    split; [exact Hc2|]. split; [exact Ho2|].
    split; [|split; congruence].
    intros q Hq1 Hq2. rewrite Hf2, Hf1 by congruence. reflexivity.
Qed.

(** *** Binary32 rounding and the 5% floor *)

Lemma shr_1_m (r : shr_record) :
  0 <= shr_m r -> shr_m (shr_1 r) = shr_m r / 2.
Proof.
  destruct r as [m r s]. simpl. intros H.
  destruct m as [|p|p]; [reflexivity| |lia].
  destruct p as [p|p|]; simpl.
  - rewrite Pos2Z.inj_xI. apply Z.div_unique with 1; lia.
  - rewrite Pos2Z.inj_xO. apply Z.div_unique with 0; lia.
  - reflexivity.
Qed.

Lemma pow2_pos (n : Z) : 0 <= n -> 0 < 2 ^ n.
Proof. intros H. apply Z.pow_pos_nonneg; lia. Qed.

Lemma iter_pos_shr_1_m (p : positive) (r : shr_record) :
  0 <= shr_m r -> shr_m (SpecFloat.iter_pos shr_1 p r) = shr_m r / 2 ^ Z.pos p.
Proof.
  revert r. induction p as [p IH|p IH|]; intros r H; simpl.
  - assert (0 <= shr_m (shr_1 r)) as H1
      by (rewrite shr_1_m by exact H; apply Z.div_pos; lia).
    assert (0 <= shr_m (SpecFloat.iter_pos shr_1 p (shr_1 r))) as H2
      by (rewrite IH by exact H1; apply Z.div_pos; [lia | apply pow2_pos; lia]).
    rewrite IH, IH, shr_1_m by assumption.
    pose proof (pow2_pos (Z.pos p) ltac:(lia)).
    rewrite !Z.div_div by lia. f_equal.
    replace (Z.pos p~1) with (1 + Z.pos p + Z.pos p) by lia.
    rewrite !Z.pow_add_r by lia. change (2 ^ 1) with 2. lia.
  - assert (0 <= shr_m (SpecFloat.iter_pos shr_1 p r)) as H2
      by (rewrite IH by exact H; apply Z.div_pos; [lia | apply pow2_pos; lia]).
    rewrite IH, IH by assumption.
    pose proof (pow2_pos (Z.pos p) ltac:(lia)).
    rewrite !Z.div_div by lia. f_equal.
    replace (Z.pos p~0) with (Z.pos p + Z.pos p) by lia.
    rewrite !Z.pow_add_r by lia. lia.
  - rewrite shr_1_m by exact H. reflexivity.
Qed.

(** [shr] from an exact record: the mantissa is divided by 2^n, the exponent raised by n. *)
Lemma shr_exact (m e n : Z) :
  0 <= m ->
  shr_m (fst (shr (shr_record_of_loc m loc_Exact) e n)) = m / 2 ^ Z.max 0 n
  /\ snd (shr (shr_record_of_loc m loc_Exact) e n) = e + Z.max 0 n.
Proof.
  intros H. unfold shr. destruct n as [|p|p]; simpl.
  - rewrite Z.div_1_r. split; [reflexivity | lia].
  - rewrite iter_pos_shr_1_m by exact H. split; reflexivity.
  - rewrite Z.div_1_r. split; [reflexivity | lia].
Qed.

Lemma round_nearest_even_bounds (m : Z) (l : location) :
  m <= round_nearest_even m l <= m + 1.
Proof.
  unfold round_nearest_even. destruct l as [|[| |]]; try lia.
  destruct (Z.even m); lia.
Qed.

Lemma pos_iter_xO (d m : positive) : Z.pos (Pos.iter xO m d) = Z.pos m * 2 ^ Z.pos d.
Proof.
  induction d as [|d IH] using Pos.peano_ind.
  - simpl. lia.
  - rewrite Pos.iter_succ, Pos2Z.inj_xO, IH, Pos2Z.inj_succ, Z.pow_succ_r by lia. lia.
Qed.

Lemma shl_align_val (m : positive) (e e' : Z) :
  e' <= e -> Z.pos (fst (shl_align m e e')) = Z.pos m * 2 ^ (e - e').
Proof.
  intros H. unfold shl_align.
  destruct (e' - e) as [|d|d] eqn:Hd; simpl.
  - replace (e - e') with 0 by lia. lia.
  - lia.
  - rewrite pos_iter_xO. f_equal. f_equal. lia.
Qed.

Lemma shl_align_id (m : positive) (e e' : Z) :
  e <= e' -> shl_align m e e' = (m, e).
Proof.
  intros H. unfold shl_align. destruct (e' - e) eqn:Hd; try reflexivity. lia.
Qed.

Lemma binary_round_aux_sign (p em : Z) (s : bool) (m e : Z) (l : location) :
  has_sign s (binary_round_aux p em s m e l).
Proof.
  unfold binary_round_aux.
  destruct (shr_fexp p em m e l) as [mrs' e'].
  destruct (shr_fexp p em _ e' loc_Exact) as [mrs'' e''].
  destruct (shr_m mrs''); simpl; try reflexivity.
  destruct (e'' <=? em - p); reflexivity.
Qed.

Lemma binary_round_sign (p em : Z) (s : bool) (m : positive) (e : Z) :
  has_sign s (binary_round p em s m e).
Proof.
  unfold binary_round. destruct (shl_align _ _ _). apply binary_round_aux_sign.
Qed.

Lemma strictly_pos_sign (s : bool) (x : spec_float) :
  has_sign s x -> strictly_pos x -> s = false.
Proof. destruct x as [[]|[]| |[] m e]; simpl; intros; congruence || tauto. Qed.

Lemma SFltb_strictly_pos (r d : spec_float) :
  has_sign false r -> SFltb r d = true -> strictly_pos d.
Proof.
  unfold SFltb.
  destruct r as [sr|sr| |sr mr er], d as [[]|[]| |[] md ed]; simpl;
    intros Hs; subst; try discriminate; try exact I; try (intros _; exact I).
Qed.

Lemma to_double_strictly_pos (d : spec_float) :
  strictly_pos (to_double d) -> strictly_pos d.
Proof.
  destruct d as [s|s| |s m e]; simpl; try tauto.
  intros H. pose proof (strictly_pos_sign _ _ (binary_round_sign prec emax s m e) H).
  subst s. exact I.
Qed.

Lemma SFabs_sign (x : spec_float) : has_sign false (SFabs x).
Proof. destruct x; reflexivity. Qed.

Lemma SF64mul_sign (x : spec_float) (m : positive) (e : Z) :
  has_sign false x -> has_sign false (SF64mul x (S754_finite false m e)).
Proof.
  destruct x as [s|s| |s mx ex]; simpl; intros H; subst; try reflexivity.
  apply binary_round_aux_sign.
Qed.

Lemma dgt_sub_pos (a : spec_float) :
  definitelyGreaterThan a floor32 epsilon32 = true ->
  strictly_pos (SFsub 24 128 a floor32).
Proof.
  unfold definitelyGreaterThan. cbv zeta. intros H.
  apply to_double_strictly_pos.
  eapply SFltb_strictly_pos; [|exact H].
  change (to_double epsilon32) with (S754_finite false 4503599627370496 (-104)).
  apply SF64mul_sign.
  destruct (SFltb (SFabs (to_double a)) (SFabs (to_double floor32)));
    apply SFabs_sign.
Qed.

Lemma sub_pos_inv (a : spec_float) (mb : positive) (eb : Z) :
  strictly_pos (SFsub 24 128 a (S754_finite false mb eb)) ->
  a = S754_infinity false
  \/ exists ma ea,
       a = S754_finite false ma ea
       /\ Z.pos (fst (shl_align mb eb (Z.min ea eb)))
          < Z.pos (fst (shl_align ma ea (Z.min ea eb))).
Proof.
  destruct a as [s|s| |s ma ea]; simpl; try tauto.
  - destruct s; simpl; tauto.
  - intros H. right. exists ma, ea.
    destruct (cond_Zopp s (Z.pos (fst (shl_align ma ea (Z.min ea eb))))
              - Z.pos (fst (shl_align mb eb (Z.min ea eb)))) as [|z|z] eqn:Hz;
      simpl in H.
    + contradiction.
    + destruct s; simpl in Hz; [lia|]. split; [reflexivity | lia].
    + pose proof (strictly_pos_sign _ _ (binary_round_sign 24 128 true z (Z.min ea eb)) H).
      discriminate.
Qed.

Lemma digits2_pos_size (p : positive) : digits2_pos p = Pos.size p.
Proof. induction p as [p IH|p IH|]; simpl; congruence. Qed.

Lemma digits2_pos_gt (p : positive) : Z.pos p < 2 ^ Z.pos (digits2_pos p).
Proof.
  rewrite digits2_pos_size. pose proof (Pos.size_gt p) as H.
  apply Pos2Z.pos_lt_pos in H. rewrite Pos2Z.inj_pow in H. exact H.
Qed.

(** Rounding a positive number m * 2^e to binary32 when e is below the
    exponent e1 the format gives it: the result is m'' * 2^(e1 + n2) with
    m'' * 2^n2 at most one more than m shifted down to e1. *)
Lemma binary_round_down (m : positive) (e : Z) :
  e < fexp 24 128 (Z.pos (digits2_pos m) + e) ->
  exists n2 m'',
    0 <= n2 /\ 0 <= m''
    /\ m'' * 2 ^ n2 <= Z.pos m / 2 ^ (fexp 24 128 (Z.pos (digits2_pos m) + e) - e) + 1
    /\ binary_round 24 128 false m e
       = match m'' with
         | Z0 => S754_zero false
         | Z.pos m' =>
             if fexp 24 128 (Z.pos (digits2_pos m) + e) + n2 <=? 104
             then S754_finite false m' (fexp 24 128 (Z.pos (digits2_pos m) + e) + n2)
             else S754_infinity false
         | Z.neg _ => S754_nan
         end.
Proof.
  set (e1 := fexp 24 128 (Z.pos (digits2_pos m) + e)). intros He.
  unfold binary_round. fold e1. rewrite shl_align_id by lia.
  unfold binary_round_aux, shr_fexp.
  change (Zdigits2 (Z.pos m)) with (Z.pos (digits2_pos m)). fold e1.
  destruct (shr_exact (Z.pos m) e (e1 - e) ltac:(lia)) as (Hm1 & He1).
  destruct (shr (shr_record_of_loc (Z.pos m) loc_Exact) e (e1 - e)) as [mrs' e'].
  simpl in Hm1, He1. rewrite Z.max_r in Hm1, He1 by lia.
  assert (e' = e1) as -> by lia.
  set (q := Z.pos m / 2 ^ (e1 - e)) in *.
  assert (0 <= q) as Hq by (apply Z.div_pos; [lia | apply pow2_pos; lia]).
  pose proof (round_nearest_even_bounds (shr_m mrs') (loc_of_shr_record mrs')) as Hr.
  set (m2 := round_nearest_even (shr_m mrs') (loc_of_shr_record mrs')) in *.
  rewrite Hm1 in Hr.
  set (n2 := Z.max 0 (fexp 24 128 (Zdigits2 m2 + e1) - e1)).
  destruct (shr_exact m2 e1 (fexp 24 128 (Zdigits2 m2 + e1) - e1) ltac:(lia))
    as (Hm2 & He2).
  destruct (shr (shr_record_of_loc m2 loc_Exact) e1
              (fexp 24 128 (Zdigits2 m2 + e1) - e1)) as [mrs'' e''].
  simpl in Hm2, He2. fold n2 in Hm2, He2.
  pose proof (pow2_pos n2 ltac:(lia)) as Hpow.
  exists n2, (shr_m mrs''). rewrite Hm2, He2.
  split; [lia|]. split; [apply Z.div_pos; lia|].
  split; [|reflexivity].
  pose proof (Z.mul_div_le m2 (2 ^ n2) Hpow). lia.
Qed.

(** A valid binary64 mantissa has at most 53 digits and an exponent of at
    least -1074; a normal one has exactly 53. *)
Lemma valid_binary64_digits (m : positive) (e : Z) :
  valid_binary (S754_finite false m e) = true ->
  Z.pos (digits2_pos m) <= 53 /\ -1074 <= e
  /\ (e = -1074 \/ Z.pos (digits2_pos m) = 53).
Proof.
  simpl. unfold bounded, canonical_mantissa, fexp, FloatOps.emin, SpecFloat.emin, prec, emax.
  rewrite andb_true_iff, Z.eqb_eq. lia.
Qed.


(** 13421773 * 2^(-28 - e1) < ma * 2^n2 follows from the aligned comparison
    of the subtraction, for any e1 below both exponents. *)
Lemma aligned_lt_scaled (ma mb : positive) (ea eb e1 : Z) :
  e1 <= ea -> e1 <= eb ->
  Z.pos (fst (shl_align mb eb (Z.min ea eb)))
  < Z.pos (fst (shl_align ma ea (Z.min ea eb))) ->
  Z.pos mb * 2 ^ (eb - e1) < Z.pos ma * 2 ^ (ea - e1).
Proof.
  intros Ha Hb H.
  rewrite !shl_align_val in H by lia.
  set (ez := Z.min ea eb) in *.
  assert (e1 <= ez) as Hez by (unfold ez; lia).
  replace (eb - e1) with ((eb - ez) + (ez - e1)) by lia.
  replace (ea - e1) with ((ea - ez) + (ez - e1)) by lia.
  assert (0 <= eb - ez /\ 0 <= ea - ez) as (H1 & H2) by (unfold ez; lia).
  rewrite !Z.pow_add_r by lia.
  pose proof (pow2_pos (ez - e1) ltac:(lia)) as Hp.
  rewrite !Z.mul_assoc.
  apply Z.mul_lt_mono_pos_r; assumption.
Qed.

Lemma floor_bound (x : spec_float) :
  valid_binary x = true ->
  definitelyGreaterThan (float32_round x) floor32 epsilon32 = true ->
  SFltb floor64 x = true.
Proof.
  intros Hvalid Hdgt.
  apply dgt_sub_pos in Hdgt. apply sub_pos_inv in Hdgt.
  destruct x as [s|s| |s m e]; unfold float32_round in Hdgt.
  - destruct Hdgt as [H|(? & ? & H & _)]; discriminate.
  - destruct Hdgt as [H|(? & ? & H & _)]; [|discriminate].
    injection H as ->. reflexivity.
  - destruct Hdgt as [H|(? & ? & H & _)]; discriminate.
  - assert (s = false) as ->.
    { pose proof (binary_round_sign 24 128 s m e) as Hs.
      destruct Hdgt as [H|(? & ? & H & _)]; rewrite H in Hs; simpl in Hs; congruence. }
    destruct (valid_binary64_digits m e Hvalid) as (Hd & He & Hnormal).
    pose proof (digits2_pos_gt m) as Hm.
    clear Hvalid.
    (* it is enough to refute x <= 0.05 *)
    assert (~ (e < -57 \/ (e = -57 /\ Z.pos m <= 7205759403792794))) as Hgoal.
    2:{ unfold SFltb, floor64, SFcompare.
        destruct (Z.compare_spec (-57) e) as [Heq|Hlt|Hgt]; [|reflexivity|].
        - change (Pos.compare_cont Eq 7205759403792794 m)
            with (Pos.compare 7205759403792794 m).
          destruct (Pos.compare_spec 7205759403792794 m) as [Hcmp|Hcmp|Hcmp];
            [|reflexivity|]; exfalso; apply Hgoal; right; split; try (symmetry; exact Heq).
          + subst m. reflexivity.
          + apply Pos2Z.pos_lt_pos in Hcmp. apply Z.lt_le_incl. exact Hcmp.
        - exfalso. apply Hgoal. left. exact Hgt. }
    intros Hle.
    set (d := Z.pos (digits2_pos m)) in *.
    set (e1 := fexp 24 128 (d + e)).
    assert (e1 = Z.max (d + e - 24) (-149)) as He1 by reflexivity.
    assert (e < e1 /\ e1 <= -28 /\ d <= e1 - e + 24) as (Hlow & Hhigh & Hshift) by lia.
    destruct (binary_round_down m e) as (n2 & m'' & Hn2 & Hm'' & Hb & Hr);
      [exact Hlow|].
    fold d in Hb, Hr. fold e1 in Hb, Hr.
    (* the shifted mantissa is below 2^24 *)
    assert (Z.pos m / 2 ^ (e1 - e) + 1 <= 2 ^ 24) as Hq.
    { assert (Z.pos m / 2 ^ (e1 - e) < 2 ^ 24); [|lia].
      apply Z.div_lt_upper_bound; [apply pow2_pos; lia|].
      rewrite <- Z.pow_add_r by lia.
      apply Z.lt_le_trans with (1 := Hm).
      apply Z.pow_le_mono_r; lia. }
    destruct m'' as [|ma|ma]; [| |lia].
    { rewrite Hr in Hdgt. destruct Hdgt as [H|(? & ? & H & _)]; discriminate. }
    assert (n2 <= 24) as Hn24.
    { destruct (Z.le_gt_cases n2 24) as [H|H]; [exact H|exfalso].
      assert (2 ^ 25 <= 2 ^ n2) by (apply Z.pow_le_mono_r; lia).
      assert (2 ^ n2 <= Z.pos ma * 2 ^ n2) by nia.
      change (2 ^ 24) with 16777216 in *. change (2 ^ 25) with 33554432 in *. lia. }
    assert ((e1 + n2 <=? 104) = true) as Hfin by (apply Z.leb_le; lia).
    rewrite Hfin in Hr. rewrite Hr in Hdgt.
    destruct Hdgt as [H|(ma' & ea & H & Hlt)]; [discriminate|].
    injection H as <- <-.
    apply (aligned_lt_scaled _ _ _ _ e1) in Hlt; [|lia|lia].
    replace (e1 + n2 - e1) with n2 in Hlt by lia.
    change (Z.pos 13421773) with 13421773 in Hlt.
    destruct Hle as [Hle|(-> & Hle)].
    + (* a lower binade: the result is at most 2^-5 *)
      assert (e1 <= -29) as He29 by lia.
      assert (2 ^ 1 <= 2 ^ (-28 - e1)) as Hp by (apply Z.pow_le_mono_r; lia).
      change (2 ^ 1) with 2 in Hp. change (2 ^ 24) with 16777216 in Hq.
      nia.
    + (* the binade of 0.05: the mantissa rounds to at most 13421773 *)
      assert (d = 53) as Hd53 by lia.
      assert (e1 = -28) as He28 by lia.
      rewrite He28 in *.
      change (-28 - -57) with 29 in Hb. change (-28 - -28) with 0 in Hlt.
      assert (Z.pos m / 2 ^ 29 <= 13421772) as Hq29.
      { change 13421772 with (7205759403792794 / 2 ^ 29).
        apply Z.div_le_mono; [reflexivity | exact Hle]. }
      change (2 ^ 0) with 1 in Hlt. lia.
Qed.

Lemma floor_constants :
  to_float floor_percent = floor32
  /\ to_float DBL_EPSILON = epsilon32
  /\ Prim2SF floor_percent = floor64.
Proof. vm_compute. auto. Qed.

(** An applied resize leaves a percentage strictly above 0.05. *)
Lemma above_floor_lt (x : float) :
  above_floor x = true -> PrimFloat.ltb floor_percent x = true.
Proof.
  unfold above_floor. destruct floor_constants as (-> & -> & Hfloor).
  rewrite ltb_spec, Hfloor. unfold to_float.
  apply floor_bound, Prim2SF_valid.
Qed.

(** *** C1 *)

(** C1 as stated fails on two counts.  First run: two siblings whose
    percentages are unset (0.0) and a growth of 46 points; the update is
    skipped, yet both percentages change, from 0.0 to the default 0.5.
    Second run: a workspace with 25 children, none with a percentage yet,
    and a growth of one point; the update is skipped and both containers
    are left at 1/25, below 0.05 - epsilon. *)
Lemma resize_floor_counterexample :
  percent_at (sample_tree 0 0) 3 = Some 0%float
  /\ percent_at (sample_tree 0 0) 4 = Some 0%float
  /\ (exists s',
        cmd_resize (fun _ _ => NULL) sample_con_num_children (fun t => t) 5
          sample_match_init "grow" "right" "10" "46" (sample_state 0 0)
        = Ok (Some reply_success, s')
        /\ log s' = [resize_tiling; resize_at_minimum]
        /\ percent_at (st_tree s') 3 = Some 0.5%float
        /\ percent_at (st_tree s') 4 = Some 0.5%float)
  /\ sample_con_num_children wide_tree 2 = 25
  /\ percent_at wide_tree 3 = Some 0%float
  /\ percent_at wide_tree 4 = Some 0%float
  /\ (exists s',
        cmd_resize (fun _ _ => NULL) sample_con_num_children (fun t => t) 5
          sample_match_init "grow" "right" "10" "1" (initial_state wide_tree)
        = Ok (Some reply_success, s')
        /\ log s' = [resize_tiling; resize_at_minimum]
        /\ percent_at (st_tree s') 3 = Some (1 / 25)%float
        /\ percent_at (st_tree s') 4 = Some (1 / 25)%float
        /\ PrimFloat.ltb (1 / 25) (floor_percent - DBL_EPSILON) = true).
Proof.
  split; [reflexivity|]. split; [reflexivity|]. split.
  { eexists. split; [vm_compute; reflexivity|]. vm_compute. auto. }
  split; [vm_compute; reflexivity|].
  split; [vm_compute; reflexivity|]. split; [vm_compute; reflexivity|].
  eexists. split; [vm_compute; reflexivity|]. vm_compute. auto.
Qed.

(** C1, amended.  In a tiling resize that reaches the transfer (the split
    runs the right way and there is a sibling in the direction asked), let
    c0 and o0 be the two percentages after the defaults of lines 609-612
    have been filled in: a percentage of 0.0 is replaced by 1/children,
    and stays replaced.  Then exactly one of two things has happened: the
    update was skipped and the containers hold c0 and o0, or they hold
    c0 + ppt/100 and o0 - ppt/100.  The update is made exactly when both
    candidates pass [definitelyGreaterThan] against 0.05 with DBL_EPSILON,
    and then both new percentages are strictly greater than 0.05.  No
    other container changes. *)
Theorem resize_floor
    (con_inside_floating : tree -> ptr -> ptr)
    (con_num_children : tree -> ptr -> Z) (tree_render : tree -> tree)
    (fuel : nat) (current_match : Match)
    (way direction resize_px resize_ppt : string) (s : state)
    (current other : ptr) (c p o : Con) :
  migration_test s = false ->
  con_inside_floating (st_tree s) (focused (st_tree s)) = NULL ->
  resize_find_current fuel (st_tree s) direction = Ok current ->
  heap (st_tree s) !! current = Some c ->
  heap (st_tree s) !! con_parent c = Some p ->
  wrong_direction (con_orientation p) direction = false ->
  neighbor_of direction c = other ->
  other <> NULL ->
  heap (st_tree s) !! other = Some o ->
  current <> other ->
  let percentage :=
    PrimFloat.div 1 (double_of_int (con_num_children (st_tree s) (con_parent c))) in
  let c0 := default_percent percentage (con_percent c) in
  let o0 := default_percent percentage (con_percent o) in
  let delta := delta_fraction (signed_ppt way resize_ppt) in
  let resized :=
    above_floor (PrimFloat.add c0 delta) && above_floor (PrimFloat.sub o0 delta) in
  exists s' t',
    cmd_resize con_inside_floating con_num_children tree_render fuel current_match
      way direction resize_px resize_ppt s
    = Ok (Some reply_success, s')
    /\ st_tree s' = tree_render t'
    /\ log s' = log s ++ resize_tiling :: (if resized then [] else [resize_at_minimum])
    /\ percent_at t' current = Some (if resized then PrimFloat.add c0 delta else c0)
    /\ percent_at t' other = Some (if resized then PrimFloat.sub o0 delta else o0)
    /\ (resized = true ->
        PrimFloat.ltb floor_percent (PrimFloat.add c0 delta) = true
        /\ PrimFloat.ltb floor_percent (PrimFloat.sub o0 delta) = true)
    /\ (forall q, q <> current -> q <> other ->
          heap t' !! q = heap (st_tree s) !! q).
Proof.
  intros Hmig Hfloat Hfind Hc Hp Hdir Hother Hnull Ho Hne
    percentage c0 o0 delta resized.
  destruct (resize_percent_run (st_tree s) current other c o percentage
              (signed_ppt way resize_ppt) Hc Ho Hne)
    as (t' & Hrun & Hc' & Ho' & Hframe & _).
  fold c0 o0 delta in Hrun, Hc', Ho'. fold resized in Hrun, Hc', Ho'.
  unfold cmd_resize, MIGRATION_init. rewrite Hmig. simpl.
  rewrite Hfloat. simpl. rewrite Hfind. simpl.
  unfold deref. simpl. rewrite Hc. simpl. rewrite Hp. simpl.
  rewrite Hdir. fold (neighbor_of direction c). rewrite Hother.
  destruct (Z.eqb_spec other NULL) as [|_]; [contradiction|].
  fold percentage. fold (signed_ppt way resize_ppt).
  rewrite Hrun. simpl.
  eexists _, t'. split; [reflexivity|].
  split; [destruct resized; reflexivity|].
  split.
  { destruct resized; simpl; [reflexivity|].
    rewrite <- app_assoc. reflexivity. }
  unfold percent_at. rewrite Hc', Ho'. simpl.
  split; [reflexivity|]. split; [reflexivity|].
  split; [|exact Hframe].
  unfold resized. intros H. apply andb_true_iff in H as (H1 & H2).
  split; apply above_floor_lt; assumption.
Qed.

(** Scenario 3 of the specification: 10 points from 0.5 and 0.5. *)
Lemma resize_floor_witness :
  exists s' t',
    cmd_resize (fun _ _ => NULL) sample_con_num_children (fun t => t) 5
      sample_match_init "grow" "right" "10" "10" (sample_state 0.5 0.5)
    = Ok (Some reply_success, s')
    /\ st_tree s' = t'
    /\ log s' = [resize_tiling]
    /\ percent_at t' 3 = Some (0.5 + 10 / 100)%float
    /\ percent_at t' 4 = Some (0.5 - 10 / 100)%float.
Proof.
  destruct (resize_floor (fun _ _ => NULL) sample_con_num_children (fun t => t) 5
              sample_match_init "grow" "right" "10" "10" (sample_state 0.5 0.5)
              3 4
              (sample_con (CT_OTHER 2) 2 NO_ORIENTATION 0.5 (Some "bar")
                 (Some (sample_window 7 "term")) NULL 4)
              (sample_con CT_WORKSPACE 1 HORIZ 1 None None NULL NULL)
              (sample_con (CT_OTHER 2) 2 NO_ORIENTATION 0.5 None
                 (Some (sample_window 8 "browser")) 3 NULL)
              eq_refl eq_refl eq_refl eq_refl eq_refl eq_refl eq_refl
              ltac:(discriminate) eq_refl ltac:(discriminate))
    as (s' & t' & Hrun & Htree & Hlog & Hc & Ho & _).
  exists s', t'. split; [exact Hrun|]. split; [exact Htree|].
  split; [exact Hlog|]. split; [exact Hc | exact Ho].
Defined.

(** ** The scenarios of the specification, run on the model *)

(** Scenario 2: a class predicate selects the one container whose window
    has that class; containers without a window are dropped. *)
Example scenario_class_match :
  exists s' calls,
    cmd_criteria_match_windows sample_match_matches_window sample_regex_matches
      (sample_match_class "term")
      (snd (cmd_criteria_init sample_match_init (sample_state 1 1)))
    = Ok (None, s', calls)
    /\ owindows s' = [3].
Proof. eexists _, _. split; [vm_compute; reflexivity|]. reflexivity. Qed.

(** Scenario 4: 46 points from 0.5 would leave the neighbour at 0.04; the
    resize is skipped, the reply is still the success reply. *)
Example scenario_resize_skipped :
  exists s',
    cmd_resize (fun _ _ => NULL) sample_con_num_children (fun t => t) 5
      sample_match_init "grow" "right" "10" "46" (sample_state 0.5 0.5)
    = Ok (Some reply_success, s')
    /\ log s' = [resize_tiling; resize_at_minimum]
    /\ percent_at (st_tree s') 3 = Some 0.5%float
    /\ percent_at (st_tree s') 4 = Some 0.5%float.
Proof. eexists. split; [vm_compute; reflexivity|]. vm_compute. auto. Qed.

(** Scenario 5: three frames on each side, the frames at index 1 differ in
    one argument; the line names frame 1, one nagbar is forked, and a
    second validation while it runs forks none. *)
Example scenario_validate_mismatch :
  let s :=
    set_new_stackframes
      (set_old_stackframes (sample_state 1 1)
         [sample_frame [Some "cmd_focus"];
          sample_frame [Some "cmd_layout"; Some "stacked"];
          sample_frame [Some "cmd_nop"; None]])
      [sample_frame [Some "cmd_focus"];
       sample_frame [Some "cmd_layout"; Some "tabbed"];
       sample_frame [Some "cmd_nop"; None]] in
  log (cmd_MIGRATION_validate (Some 4711%positive) s)
  = [FAILED_arg 1 (Some "tabbed") (Some "stacked") 1; nagbar_starting]
  /\ nagbar_procs (cmd_MIGRATION_validate (Some 4711%positive) s) = [4711]
  /\ nagbar_procs
       (cmd_MIGRATION_validate (Some 4712%positive)
          (cmd_MIGRATION_validate (Some 4711%positive) s)) = [4711].
Proof. vm_compute. auto. Qed.

(** The floor test runs in single precision: the [float] nearest to 0.05
    is greater than the [double] 0.05 by far more than DBL_EPSILON, and is
    still not accepted. *)
Example floor_test_is_single_precision :
  PrimFloat.ltb floor_percent 0x1.99999ap-5 = true
  /\ above_floor 0x1.99999ap-5 = false.
Proof. vm_compute. auto. Qed.

(** [atoi] is [strtol] cut to an [int]: digits beyond the range of [long]
    are clamped first, so they give -1 (and 0 for a negative number);
    digits beyond the range of [int] wrap around. *)
Example atoi_is_strtol_cut :
  atoi "99999999999999999999" = -1
  /\ atoi "-99999999999999999999" = 0
  /\ atoi "2147483648" = -2147483648
  /\ atoi "  -42abc" = -42
  /\ atoi "" = 0.
Proof. vm_compute. auto. Qed.

(** A tiling resize whose percentage has more digits than a [long] holds
    is a resize by -1 point: from 0.5 and 0.5 the siblings go to 0.49 and
    0.51.  The same digits as pixels take one pixel off a floating
    container. *)
Example scenario_resize_beyond_long :
  (exists s',
     cmd_resize (fun _ _ => NULL) sample_con_num_children (fun t => t) 5
       sample_match_init "grow" "right" "10" "99999999999999999999"
       (sample_state 0.5 0.5)
     = Ok (Some reply_success, s')
     /\ log s' = [resize_tiling]
     /\ percent_at (st_tree s') 3 = Some (0.5 + -1 / 100)%float
     /\ percent_at (st_tree s') 4 = Some (0.5 - -1 / 100)%float)
  /\ resize_floating_rect "right" (signed_px "grow" "99999999999999999999")
       {| rect_x := 5; rect_y := 5; rect_width := 10; rect_height := 10 |}
     = {| rect_x := 5; rect_y := 5; rect_width := 9; rect_height := 10 |}
  /\ move_rect "right" (atoi "99999999999999999999")
       {| rect_x := 5; rect_y := 5; rect_width := 10; rect_height := 10 |}
     = {| rect_x := 4; rect_y := 5; rect_width := 10; rect_height := 10 |}.
Proof.
  split; [|split; vm_compute; reflexivity].
  eexists. split; [vm_compute; reflexivity|]. vm_compute. auto.
Qed.

(** * Further properties of commands.c *)

(** ** cmd_resize *)

(** X1. In a tiling resize, when the split runs the right way but there is
    no sibling in the direction asked, [cmd_resize] returns the failure
    reply and leaves the whole tree as it was; nothing is re-rendered. *)
Theorem resize_no_neighbor
    (con_inside_floating : tree -> ptr -> ptr)
    (con_num_children : tree -> ptr -> Z) (tree_render : tree -> tree)
    (fuel : nat) (current_match : Match)
    (way direction resize_px resize_ppt : string) (s : state)
    (current : ptr) (c p : Con) :
  migration_test s = false ->
  con_inside_floating (st_tree s) (focused (st_tree s)) = NULL ->
  resize_find_current fuel (st_tree s) direction = Ok current ->
  heap (st_tree s) !! current = Some c ->
  heap (st_tree s) !! con_parent c = Some p ->
  wrong_direction (con_orientation p) direction = false ->
  neighbor_of direction c = NULL ->
  exists s',
    cmd_resize con_inside_floating con_num_children tree_render fuel current_match
      way direction resize_px resize_ppt s
    = Ok (Some reply_sucess_false, s')
    /\ st_tree s' = st_tree s
    /\ log s' = log s ++ [resize_tiling; resize_no_other_container].
Proof.
  intros Hmig Hfloat Hfind Hc Hp Hdir Hother.
  unfold cmd_resize, MIGRATION_init. rewrite Hmig. simpl.
  rewrite Hfloat. simpl. rewrite Hfind. simpl.
  unfold deref. simpl. rewrite Hc. simpl. rewrite Hp. simpl.
  rewrite Hdir. fold (neighbor_of direction c). rewrite Hother. simpl.
  eexists. split; [reflexivity|]. simpl.
  split; [reflexivity|]. rewrite <- app_assoc. reflexivity.
Qed.

(** On the small tree: container 3 is the first child, nothing is left of
    it. *)
Lemma resize_no_neighbor_witness :
  exists s',
    cmd_resize (fun _ _ => NULL) sample_con_num_children (fun t => t) 5
      sample_match_init "grow" "left" "10" "10" (sample_state 0.5 0.5)
    = Ok (Some reply_sucess_false, s')
    /\ st_tree s' = sample_tree 0.5 0.5
    /\ log s' = [resize_tiling; resize_no_other_container].
Proof.
  exact (resize_no_neighbor (fun _ _ => NULL) sample_con_num_children
           (fun t => t) 5 sample_match_init "grow" "left" "10" "10"
           (sample_state 0.5 0.5) 3
           (sample_con (CT_OTHER 2) 2 NO_ORIENTATION 0.5 (Some "bar")
              (Some (sample_window 7 "term")) NULL 4)
           (sample_con CT_WORKSPACE 1 HORIZ 1 None None NULL NULL)
           eq_refl eq_refl eq_refl eq_refl eq_refl eq_refl eq_refl).
Defined.

(** X2. When the focused container is inside a floating container, only
    the rectangle of that floating container changes: every percentage and
    every other container stay as they were, no floor is checked, and the
    reply is the success reply whatever the direction and the amount. *)
Theorem resize_floating_only_rect
    (con_inside_floating : tree -> ptr -> ptr)
    (con_num_children : tree -> ptr -> Z) (tree_render : tree -> tree)
    (fuel : nat) (current_match : Match)
    (way direction resize_px resize_ppt : string) (s : state)
    (floating_con : ptr) (fc : Con) :
  migration_test s = false ->
  con_inside_floating (st_tree s) (focused (st_tree s)) = floating_con ->
  floating_con <> NULL ->
  heap (st_tree s) !! floating_con = Some fc ->
  exists s' t',
    cmd_resize con_inside_floating con_num_children tree_render fuel current_match
      way direction resize_px resize_ppt s
    = Ok (Some reply_success, s')
    /\ st_tree s' = tree_render t'
    /\ heap t' !! floating_con
       = Some (set_rect fc
                 (resize_floating_rect direction (signed_px way resize_px) (con_rect fc)))
    /\ (forall q, q <> floating_con -> heap t' !! q = heap (st_tree s) !! q)
    /\ (forall q, percent_at t' q = percent_at (st_tree s) q)
    /\ focused t' = focused (st_tree s).
Proof.
  intros Hmig Hfloat Hnull Hfc.
  unfold cmd_resize, MIGRATION_init. rewrite Hmig. simpl.
  rewrite Hfloat. destruct (Z.eqb_spec floating_con NULL) as [|_]; [contradiction|].
  simpl. unfold deref. simpl. rewrite Hfc. simpl.
  eexists _, _. split; [reflexivity|]. simpl. split; [reflexivity|]. simpl.
  fold (signed_px way resize_px).
  split; [apply lookup_insert_eq|].
  split; [intros q Hq; apply lookup_insert_ne; congruence|].
  split; [|reflexivity].
  intros q. unfold percent_at. simpl.
  destruct (decide (q = floating_con)) as [->|Hq].
  - rewrite lookup_insert_eq, Hfc. reflexivity.
  - rewrite lookup_insert_ne by congruence. reflexivity.
Qed.

(** With container 3 as the floating container: growing to the left by 10
    pixels moves x by -10 (modulo 2^32) and widens by 10. *)
Lemma resize_floating_only_rect_witness :
  exists s' t',
    cmd_resize (fun _ _ => 3) sample_con_num_children (fun t => t) 5
      sample_match_init "grow" "left" "10" "10" (sample_state 0.5 0.5)
    = Ok (Some reply_success, s')
    /\ st_tree s' = t'
    /\ con_rect <$> heap t' !! 3
       = Some {| rect_x := 2 ^ 32 - 10; rect_y := 0; rect_width := 810; rect_height := 600 |}
    /\ percent_at t' 3 = Some 0.5%float.
Proof.
  destruct (resize_floating_only_rect (fun _ _ => 3) sample_con_num_children
              (fun t => t) 5 sample_match_init "grow" "left" "10" "10"
              (sample_state 0.5 0.5) 3
              (sample_con (CT_OTHER 2) 2 NO_ORIENTATION 0.5 (Some "bar")
                 (Some (sample_window 7 "term")) NULL 4)
              eq_refl eq_refl ltac:(discriminate) eq_refl)
    as (s' & t' & Hrun & Htree & Hrect & _ & Hpercent & _).
  exists s', t'. split; [exact Hrun|]. split; [exact Htree|].
  split; [exact (f_equal (fmap con_rect) Hrect)|]. exact (Hpercent 3).
Defined.

Lemma int_wrap_mod (z : Z) : int_wrap z mod 2 ^ 32 = z mod 2 ^ 32.
Proof.
  unfold int_wrap.
  rewrite Zminus_mod, Zmod_mod, <- Zminus_mod.
  f_equal. lia.
Qed.

Lemma uint32_back (a px : Z) :
  0 <= a < 2 ^ 32 ->
  uint32_wrap (uint32_wrap (a + px) + int_wrap (px * -1)) = a
  /\ uint32_wrap (uint32_wrap (a - px) - int_wrap (px * -1)) = a.
Proof.
  intros Ha. unfold uint32_wrap.
  rewrite Zplus_mod, Zmod_mod, int_wrap_mod, <- Zplus_mod.
  rewrite (Zminus_mod (_ mod _)), Zmod_mod, int_wrap_mod, <- Zminus_mod.
  replace (a + px + px * -1) with a by lia.
  replace (a - px - px * -1) with a by lia.
  rewrite Z.mod_small by lia. auto.
Qed.

(** X3. A floating grow followed by the shrink of the same amount in the
    same direction gives the rectangle back, also when the arithmetic of
    [uint32_t] wrapped in between (a shrink below zero, a move past the
    left or upper edge). *)
Theorem resize_floating_grow_shrink (direction resize_px : string) (r : Rect) :
  rect_in_range r ->
  resize_floating_rect direction (signed_px "shrink" resize_px)
    (resize_floating_rect direction (signed_px "grow" resize_px) r) = r.
Proof.
  intros (Hx & Hy & Hw & Hh). destruct r as [x y w h]; simpl in *.
  unfold signed_px. simpl.
  destruct (uint32_back x (atoi resize_px) Hx) as (_ & Hx').
  destruct (uint32_back y (atoi resize_px) Hy) as (_ & Hy').
  destruct (uint32_back w (atoi resize_px) Hw) as (Hw' & _).
  destruct (uint32_back h (atoi resize_px) Hh) as (Hh' & _).
  unfold resize_floating_rect.
  destruct (String.eqb direction "up"); simpl; [congruence|].
  destruct (String.eqb direction "down"); simpl; [congruence|].
  destruct (String.eqb direction "left"); simpl; congruence.
Qed.

(** A window 10 wide shrunk by 30 and grown again. *)
Lemma resize_floating_grow_shrink_witness :
  resize_floating_rect "right" (signed_px "shrink" "-30")
    (resize_floating_rect "right" (signed_px "grow" "-30")
       {| rect_x := 5; rect_y := 5; rect_width := 10; rect_height := 10 |})
  = {| rect_x := 5; rect_y := 5; rect_width := 10; rect_height := 10 |}.
Proof.
  apply (resize_floating_grow_shrink "right" "-30"
           {| rect_x := 5; rect_y := 5; rect_width := 10; rect_height := 10 |}).
  unfold rect_in_range. simpl. lia.
Defined.

Lemma ascend_to_orientation_result
    (fuel : nat) (t : tree) (o : orientation_t) (con r : ptr) :
  ascend_to_orientation fuel t o con = Ok r ->
  exists c,
    heap t !! r = Some c
    /\ ((con_type c = CT_WORKSPACE \/ con_type c = CT_FLOATING_CON)
        \/ exists p, heap t !! con_parent c = Some p /\ con_orientation p = o).
Proof.
  revert con. induction fuel as [|fuel IH]; intros con; simpl; [discriminate|].
  unfold deref. destruct (heap t !! con) as [c|] eqn:Hc; simpl; [|discriminate].
  destruct (bool_decide (con_type c = CT_WORKSPACE)
            || bool_decide (con_type c = CT_FLOATING_CON)) eqn:Hb.
  - intros [= <-]. exists c. split; [exact Hc|]. left.
    apply orb_true_iff in Hb as [Hb|Hb]; apply bool_decide_eq_true in Hb; auto.
  - destruct (heap t !! con_parent c) as [p|] eqn:Hp; simpl; [|discriminate].
    destruct (bool_decide (con_orientation p = o)) eqn:Ho.
    + intros [= <-]. exists c. split; [exact Hc|]. right.
      exists p. split; [exact Hp|]. apply bool_decide_eq_true in Ho. exact Ho.
    + apply IH.
Qed.

Lemma search_orientation_not_wrong (direction : string) :
  wrong_direction (search_orientation_of direction) direction = false.
Proof.
  unfold wrong_direction, search_orientation_of.
  destruct (String.eqb_spec direction "left") as [->|]; [reflexivity|].
  destruct (String.eqb_spec direction "right") as [->|]; [reflexivity|].
  destruct (String.eqb direction "up"), (String.eqb direction "down"); reflexivity.
Qed.

(** X4. The wrong-direction failure can only come from the top of the
    ascent: when the split of the resolved parent runs the other way than
    the direction asks, the resolved container is a workspace or a floating
    container.  Below that boundary the ascent goes on until it finds a
    split of the axis asked for. *)
Theorem wrong_direction_only_at_boundary
    (fuel : nat) (t : tree) (direction : string) (current : ptr) (c p : Con) :
  resize_find_current fuel t direction = Ok current ->
  heap t !! current = Some c ->
  heap t !! con_parent c = Some p ->
  incompatible (con_orientation p) direction ->
  con_type c = CT_WORKSPACE \/ con_type c = CT_FLOATING_CON.
Proof.
  intros Hfind Hc Hp Hwrong. apply wrong_direction_incompatible in Hwrong.
  unfold resize_find_current in Hfind.
  destruct (skip_stacked_tabbed fuel t (focused t)) as [start| |];
    simpl in Hfind; try discriminate.
  apply ascend_to_orientation_result in Hfind as (c' & Hc' & [Hb|(p' & Hp' & Ho)]).
  - congruence.
  - assert (c' = c) as -> by congruence.
    assert (p' = p) as -> by congruence.
    rewrite Ho, search_orientation_not_wrong in Hwrong. discriminate.
Qed.

(** On the small tree: asked to grow upwards, the ascent from container 3
    ends at the workspace 2. *)
Lemma wrong_direction_only_at_boundary_witness :
  con_type (sample_con CT_WORKSPACE 1 HORIZ 1 None None NULL NULL) = CT_WORKSPACE
  \/ con_type (sample_con CT_WORKSPACE 1 HORIZ 1 None None NULL NULL) = CT_FLOATING_CON.
Proof.
  exact (wrong_direction_only_at_boundary 5 (sample_tree 1 1) "up" 2
           (sample_con CT_WORKSPACE 1 HORIZ 1 None None NULL NULL)
           (sample_con (CT_OTHER 1) NULL HORIZ 1 None None NULL NULL)
           eq_refl eq_refl eq_refl
           (or_introl (conj eq_refl (or_introl eq_refl)))).
Defined.

(** ** Migration harness *)

Lemma regex_agree_refl (r : option regex) : regex_agree r r.
Proof. destruct r; simpl; auto. Qed.

Lemma match_differ_refl (m : Match) : match_differ m m = false.
Proof.
  apply match_differ_agree. unfold match_agree.
  repeat split; apply regex_agree_refl.
Qed.

Lemma compare_frames_refl (frames : list stackframe) (i : Z) :
  compare_frames i frames frames = None.
Proof.
  revert i. induction frames as [|f frames IH]; intros i; simpl; [reflexivity|].
  rewrite match_differ_refl, Z.eqb_refl. simpl.
  assert (compare_args 0 (args f) (args f) = None) as ->.
  { apply compare_args_none; [reflexivity|]. congruence. }
  apply IH.
Qed.

Lemma parser_pass_frames (calls : list recorded_call) (s : state) :
  let frames := map (fun c => save_frame (fst c) (snd c)) calls in
  parser_pass calls s
  = if migration_test s
    then set_new_stackframes s (new_stackframes s ++ frames)
    else set_old_stackframes s (old_stackframes s ++ frames).
Proof.
  simpl. unfold parser_pass. revert s.
  induction calls as [|c calls IH]; intros s; simpl.
  - rewrite !app_nil_r. destruct s, migration_test0; reflexivity.
  - rewrite IH. unfold MIGRATION_init.
    destruct (migration_test s) eqn:Hm; simpl; rewrite Hm; simpl;
      rewrite <- app_assoc; reflexivity.
Qed.

(** X5. A self test in which both parsers make the same calls, with the
    same Match and the same parameters, validates: both buffers hold the
    same frames, in call order, and [cmd_MIGRATION_validate] writes no
    line and starts no nagbar, whatever the buffers held before. *)
Theorem self_test_same_calls_validates
    (calls : list recorded_call) (fork_ret : option positive) (s : state) :
  new_stackframes (self_test calls calls s)
  = map (fun c => save_frame (fst c) (snd c)) calls
  /\ old_stackframes (self_test calls calls s)
     = map (fun c => save_frame (fst c) (snd c)) calls
  /\ cmd_MIGRATION_validate fork_ret (self_test calls calls s)
     = self_test calls calls s.
Proof.
  unfold self_test. rewrite !parser_pass_frames. simpl.
  unfold cmd_MIGRATION_enable. simpl. rewrite !clear_stack_nil. simpl.
  split; [reflexivity|]. split; [reflexivity|].
  unfold cmd_MIGRATION_validate, validate_frames. simpl.
  rewrite Z.eqb_refl. simpl. rewrite compare_frames_refl. reflexivity.
Qed.

(** X6. Only [cmd_MIGRATION_enable] removes frames: after any other step
    of the harness (disable, a save, a validation that passes or fails, a
    nagbar start, the exit of the nagbar) each buffer still begins with
    the frames it held. *)
Theorem frames_kept_until_enable (s : state) (e : harness_event) :
  e <> ev_enable ->
  (exists added, old_stackframes (harness_step s e) = old_stackframes s ++ added)
  /\ (exists added, new_stackframes (harness_step s e) = new_stackframes s ++ added).
Proof.
  intros He.
  assert (forall fork_ret s0,
            old_stackframes (cmd_MIGRATION_start_nagbar fork_ret s0) = old_stackframes s0
            /\ new_stackframes (cmd_MIGRATION_start_nagbar fork_ret s0)
               = new_stackframes s0) as Hstart.
  { intros fork_ret s0. unfold cmd_MIGRATION_start_nagbar.
    destruct (negb (migration_pid s0 =? -1)); [split; reflexivity|].
    destruct fork_ret; split; reflexivity. }
  destruct e as [| |m ps|m ps|fork_ret|fork_ret|pid rstatus]; simpl.
  - contradiction.
  - split; exists []; rewrite app_nil_r; reflexivity.
  - split; [exists []; rewrite app_nil_r; reflexivity | eexists; reflexivity].
  - split; [eexists; reflexivity | exists []; rewrite app_nil_r; reflexivity].
  - unfold cmd_MIGRATION_validate. destruct (validate_frames _ _).
    + destruct (Hstart fork_ret (write_log s l)) as (-> & ->).
      split; exists []; rewrite app_nil_r; reflexivity.
    + split; exists []; rewrite app_nil_r; reflexivity.
  - destruct (Hstart fork_ret s) as (-> & ->).
    split; exists []; rewrite app_nil_r; reflexivity.
  - destruct (existsb (Z.eqb pid) (child_watchers s));
      [|split; exists []; rewrite app_nil_r; reflexivity].
    unfold nagbar_exited. simpl.
    destruct (negb (WIFEXITED rstatus)); simpl;
      [split; exists []; rewrite app_nil_r; reflexivity|].
    destruct (WEXITSTATUS rstatus =? 2); simpl;
      split; exists []; rewrite app_nil_r; reflexivity.
Qed.

(** A failed validation leaves the three frames of each side in place. *)
Lemma frames_kept_until_enable_witness :
  exists added,
    old_stackframes
      (harness_step
         (set_old_stackframes (sample_state 1 1) [sample_frame [Some "cmd_focus"]])
         (ev_validate None))
    = [sample_frame [Some "cmd_focus"]] ++ added.
Proof.
  exact (proj1 (frames_kept_until_enable
                  (set_old_stackframes (sample_state 1 1) [sample_frame [Some "cmd_focus"]])
                  (ev_validate None) ltac:(discriminate))).
Defined.

(** *** The nagbar handle after the nagbar has ended *)

Lemma handle_stuck_step (s : state) (e : harness_event) :
  handle_stuck s -> handle_stuck (harness_step s e).
Proof.
  unfold handle_stuck. intros (Hpid & Hw & Hp).
  assert (handle_active s = true) as Hact.
  { unfold handle_active. destruct (Z.eqb_spec (migration_pid s) (-1)); [contradiction|].
    reflexivity. }
  destruct e as [| | | |fork_ret|fork_ret|pid rstatus]; simpl; auto.
  - unfold cmd_MIGRATION_validate. destruct (validate_frames _ _); [|auto].
    rewrite start_nagbar_active by exact Hact. simpl. auto.
  - rewrite start_nagbar_active by exact Hact. simpl. auto.
  - rewrite Hw. simpl. auto.
Qed.

Lemma handle_stuck_run (es : list harness_event) (s : state) :
  handle_stuck s -> handle_stuck (harness_run s es).
Proof.
  unfold harness_run. revert s.
  induction es as [|e es IH]; intros s H; simpl; [exact H|].
  apply IH, handle_stuck_step, H.
Qed.

(** X7. When the nagbar does not exit normally (it is killed by a signal),
    [nagbar_exited] stops the watcher and returns before it resets
    [migration_pid].  From then on the handle stays active with no process
    behind it: whatever the harness does afterwards, every FAIL is taken
    for a duplicate and no nagbar is started again. *)
Theorem nagbar_killed_blocks_restart
    (t : tree) (before after : list harness_event) (rstatus : Z)
    (fork_ret : option positive) :
  handle_active (harness_run (initial_state t) before) = true ->
  WIFEXITED rstatus = false ->
  handle_active
    (harness_run
       (harness_step (harness_run (initial_state t) before)
          (ev_child_exit (migration_pid (harness_run (initial_state t) before)) rstatus))
       after) = true
  /\ nagbar_procs
       (cmd_MIGRATION_start_nagbar fork_ret
          (harness_run
             (harness_step (harness_run (initial_state t) before)
                (ev_child_exit (migration_pid (harness_run (initial_state t) before))
                   rstatus))
             after)) = [].
Proof.
  intros Hact Hkilled.
  pose proof (nagbar_inv_run before _ (nagbar_inv_initial t)) as (Hw & Hp).
  set (s := harness_run (initial_state t) before) in *. clearbody s.
  assert (handle_stuck (harness_step s (ev_child_exit (migration_pid s) rstatus)))
    as Hstuck.
  { unfold handle_active in Hact.
    destruct (Z.eqb_spec (migration_pid s) (-1)) as [|Hpid]; [discriminate|].
    destruct Hp as [Hp|(_ & Hp)].
    - (* no process: the watcher list is empty as well *)
      simpl. rewrite Hw, Hp. simpl. unfold handle_stuck. rewrite ?Hw, ?Hp. auto.
    - simpl. rewrite Hw, Hp. simpl. rewrite Z.eqb_refl. simpl.
      unfold nagbar_exited. simpl. rewrite Hkilled. simpl.
      unfold handle_stuck. simpl. rewrite ?Hw, ?Hp. cbn. rewrite ?Z.eqb_refl. auto. }
  apply (handle_stuck_run after) in Hstuck.
  destruct Hstuck as (Hpid & _ & Hprocs).
  assert (handle_active
            (harness_run (harness_step s (ev_child_exit (migration_pid s) rstatus)) after)
          = true) as Hact'.
  { unfold handle_active.
    destruct (Z.eqb_spec (migration_pid
      (harness_run (harness_step s (ev_child_exit (migration_pid s) rstatus)) after))
      (-1)); [contradiction | reflexivity]. }
  split; [exact Hact'|].
  rewrite start_nagbar_active by exact Hact'. exact Hprocs.
Qed.

(** A nagbar is started as process 7, killed by signal 9; a later FAIL for
    which fork() would return 8 starts nothing. *)
Lemma nagbar_killed_blocks_restart_witness :
  nagbar_procs
    (cmd_MIGRATION_start_nagbar (Some 8%positive)
       (harness_run
          (harness_step
             (harness_run (initial_state (sample_tree 1 1))
                [ev_start_nagbar (Some 7%positive)])
             (ev_child_exit 7 9))
          [ev_enable; ev_validate None])) = [].
Proof.
  exact (proj2 (nagbar_killed_blocks_restart (sample_tree 1 1)
                  [ev_start_nagbar (Some 7%positive)] [ev_enable; ev_validate None]
                  9 (Some 8%positive) eq_refl eq_refl)).
Defined.

(** X8. When the nagbar exits normally, the handle is released and the
    next FAIL starts one new nagbar, the only one outstanding; a failed
    fork() leaves the handle inactive so that the FAIL after it tries
    again. *)
Theorem nagbar_exit_rearms
    (t : tree) (before : list harness_event) (rstatus : Z) (pid : positive) :
  handle_active (harness_run (initial_state t) before) = true ->
  nagbar_procs (harness_run (initial_state t) before) <> [] ->
  WIFEXITED rstatus = true ->
  handle_active
    (harness_step (harness_run (initial_state t) before)
       (ev_child_exit (migration_pid (harness_run (initial_state t) before)) rstatus))
  = false
  /\ nagbar_procs
       (cmd_MIGRATION_start_nagbar (Some pid)
          (cmd_MIGRATION_start_nagbar None
             (harness_step (harness_run (initial_state t) before)
                (ev_child_exit (migration_pid (harness_run (initial_state t) before))
                   rstatus))))
     = [Z.pos pid].
Proof.
  intros Hact Hrunning Hexit.
  pose proof (nagbar_inv_run before _ (nagbar_inv_initial t)) as (Hw & Hp).
  set (s := harness_run (initial_state t) before) in *. clearbody s.
  destruct Hp as [Hp|(_ & Hp)]; [contradiction|].
  simpl. rewrite Hw, Hp. simpl. rewrite Z.eqb_refl. simpl.
  unfold nagbar_exited. simpl. rewrite Hexit. simpl.
  destruct (WEXITSTATUS rstatus =? 2); simpl;
    (split; [reflexivity|]); cbn; rewrite Z.eqb_refl; reflexivity.
Qed.

(** Process 7 exits with status 0; after a fork() that fails, the next one
    starts process 8. *)
Lemma nagbar_exit_rearms_witness :
  nagbar_procs
    (cmd_MIGRATION_start_nagbar (Some 8%positive)
       (cmd_MIGRATION_start_nagbar None
          (harness_step
             (harness_run (initial_state (sample_tree 1 1))
                [ev_start_nagbar (Some 7%positive)])
             (ev_child_exit 7 0)))) = [8].
Proof.
  exact (proj2 (nagbar_exit_rearms (sample_tree 1 1)
                  [ev_start_nagbar (Some 7%positive)] 0 8%positive
                  eq_refl ltac:(discriminate) eq_refl)).
Defined.

(** ** The working set as a filter *)

Lemma match_one_selects
    (match_matches_window : Match -> i3Window -> bool)
    (regex_matches : regex -> string -> bool)
    (m : Match) (t : tree) (con : ptr) :
  is_Some (heap t !! con) ->
  exists calls,
    match_one match_matches_window regex_matches m t con
    = Ok (selects match_matches_window regex_matches m t con, calls).
Proof.
  intros [c Hc]. unfold match_one, selects.
  destruct (negb (match_con_id m =? NULL)); [eexists; reflexivity|].
  unfold deref. rewrite Hc. simpl. unfold match_window_branch.
  destruct (match_mark m) as [re|], (con_mark c) as [mark|]; simpl;
    try (destruct (con_window c); eexists; reflexivity).
  destruct (regex_matches re mark); simpl; [eexists; reflexivity|].
  destruct (con_window c); eexists; reflexivity.
Qed.

Lemma match_loop_filter
    (match_matches_window : Match -> i3Window -> bool)
    (regex_matches : regex -> string -> bool)
    (m : Match) (t : tree) (old : list ptr) :
  all_allocated t old ->
  exists calls,
    match_loop match_matches_window regex_matches m t old
    = Ok (List.filter (selects match_matches_window regex_matches m t) old, calls).
Proof.
  induction old as [|con old IH]; intros Hall; simpl; [eexists; reflexivity|].
  destruct (match_one_selects match_matches_window regex_matches m t con)
    as (calls & ->); [apply Hall; left; reflexivity|].
  destruct IH as (calls' & ->); [intros q Hq; apply Hall; right; exact Hq|].
  simpl. destruct (selects _ _ m t con); eexists; reflexivity.
Qed.

Lemma criteria_match_windows_filter
    (match_matches_window : Match -> i3Window -> bool)
    (regex_matches : regex -> string -> bool)
    (m : Match) (s : state) :
  all_allocated (st_tree s) (owindows s) ->
  exists s' calls,
    cmd_criteria_match_windows match_matches_window regex_matches m s
    = Ok (None, s', calls)
    /\ owindows s'
       = List.filter (selects match_matches_window regex_matches m (st_tree s))
           (owindows s)
    /\ st_tree s' = st_tree s.
Proof.
  intros Hall. unfold cmd_criteria_match_windows.
  set (s0 := if migration_test s then _ else _).
  assert (owindows s0 = owindows s /\ st_tree s0 = st_tree s) as (Hw & Ht).
  { unfold s0. destruct (migration_test s); split; reflexivity. }
  rewrite Hw, Ht.
  destruct (match_loop_filter match_matches_window regex_matches m (st_tree s)
              (owindows s) Hall) as (calls & ->).
  simpl. eexists _, _. split; [reflexivity|]. simpl. rewrite Ht. auto.
Qed.

(** X9. [cmd_criteria_match_windows] is a filter: when the working set
    holds containers, it returns and leaves exactly the entries that a
    fixed test selects (identity if the Match has a container id;
    otherwise a matching mark, or a window accepted by
    [match_matches_window]), in the order they had.  It adds nothing,
    reorders nothing and does not touch the tree. *)
Theorem criteria_match_windows_is_filter
    (match_matches_window : Match -> i3Window -> bool)
    (regex_matches : regex -> string -> bool)
    (m : Match) (s : state) :
  all_allocated (st_tree s) (owindows s) ->
  exists s' calls,
    cmd_criteria_match_windows match_matches_window regex_matches m s
    = Ok (None, s', calls)
    /\ owindows s'
       = List.filter (selects match_matches_window regex_matches m (st_tree s))
           (owindows s)
    /\ sublist (owindows s') (owindows s)
    /\ st_tree s' = st_tree s.
Proof.
  intros Hall.
  destruct (criteria_match_windows_filter match_matches_window regex_matches m s Hall)
    as (s' & calls & Hrun & Hw & Ht).
  exists s', calls. split; [exact Hrun|]. split; [exact Hw|]. split; [|exact Ht].
  rewrite Hw. clear. induction (owindows s) as [|con l IH]; simpl; [constructor|].
  destruct (selects _ _ m (st_tree s) con); constructor; exact IH.
Qed.

(** On the small tree, after [cmd_criteria_init]: of the four containers
    the class predicate keeps container 4. *)
Lemma criteria_match_windows_is_filter_witness :
  exists s' calls,
    cmd_criteria_match_windows sample_match_matches_window sample_regex_matches
      (sample_match_class "browser")
      (snd (cmd_criteria_init sample_match_init (sample_state 1 1)))
    = Ok (None, s', calls)
    /\ owindows s' = [4].
Proof.
  destruct (criteria_match_windows_is_filter sample_match_matches_window
              sample_regex_matches (sample_match_class "browser")
              (snd (cmd_criteria_init sample_match_init (sample_state 1 1))))
    as (s' & calls & Hrun & Hw & _).
  - intros con Hin. simpl in Hin.
    destruct Hin as [<-|[<-|[<-|[<-|[]]]]]; eexists; reflexivity.
  - exists s', calls. split; [exact Hrun | exact Hw].
Defined.

Lemma filter_twice {A : Type} (f : A -> bool) (l : list A) :
  List.filter f (List.filter f l) = List.filter f l.
Proof.
  induction l as [|a l IH]; simpl; [reflexivity|].
  destruct (f a) eqn:Hf; simpl; rewrite ?Hf, IH; reflexivity.
Qed.

(** X10. Matching a second time with the same Match changes nothing: the
    second call returns and leaves the working set that the first call
    left. *)
Theorem criteria_match_windows_idempotent
    (match_matches_window : Match -> i3Window -> bool)
    (regex_matches : regex -> string -> bool)
    (m : Match) (s : state) :
  all_allocated (st_tree s) (owindows s) ->
  exists s1 calls1 s2 calls2,
    cmd_criteria_match_windows match_matches_window regex_matches m s
    = Ok (None, s1, calls1)
    /\ cmd_criteria_match_windows match_matches_window regex_matches m s1
       = Ok (None, s2, calls2)
    /\ owindows s2 = owindows s1
    /\ st_tree s2 = st_tree s.
Proof.
  intros Hall.
  destruct (criteria_match_windows_filter match_matches_window regex_matches m s Hall)
    as (s1 & calls1 & Hrun1 & Hw1 & Ht1).
  destruct (criteria_match_windows_filter match_matches_window regex_matches m s1)
    as (s2 & calls2 & Hrun2 & Hw2 & Ht2).
  { intros con Hin. rewrite Hw1 in Hin. apply filter_In in Hin as (Hin & _).
    rewrite Ht1. apply Hall, Hin. }
  exists s1, calls1, s2, calls2.
  split; [exact Hrun1|]. split; [exact Hrun2|].
  split; [|congruence].
  rewrite Hw2, Hw1, Ht1. apply filter_twice.
Qed.

Lemma criteria_match_windows_idempotent_witness :
  exists s1 calls1 s2 calls2,
    cmd_criteria_match_windows sample_match_matches_window sample_regex_matches
      (sample_match_class "term")
      (snd (cmd_criteria_init sample_match_init (sample_state 1 1)))
    = Ok (None, s1, calls1)
    /\ cmd_criteria_match_windows sample_match_matches_window sample_regex_matches
         (sample_match_class "term") s1
       = Ok (None, s2, calls2)
    /\ owindows s2 = owindows s1.
Proof.
  destruct (criteria_match_windows_idempotent sample_match_matches_window
              sample_regex_matches (sample_match_class "term")
              (snd (cmd_criteria_init sample_match_init (sample_state 1 1))))
    as (s1 & calls1 & s2 & calls2 & Hrun1 & Hrun2 & Hw & _).
  - intros con Hin. simpl in Hin.
    destruct Hin as [<-|[<-|[<-|[<-|[]]]]]; eexists; reflexivity.
  - exists s1, calls1, s2, calls2. auto.
Defined.

(** ** cmd_mark *)

Lemma set_mark_twice (c : Con) (a b : option string) :
  set_mark (set_mark c a) b = set_mark c b.
Proof. reflexivity. Qed.

Lemma set_mark_id (c : Con) : set_mark c (con_mark c) = c.
Proof. destruct c; reflexivity. Qed.

Lemma store_mark_run (t : tree) (con : ptr) (c : Con) (mark : option string) :
  heap t !! con = Some c ->
  store_mark t con mark = Ok (set_heap t (<[con := set_mark c mark]> (heap t))).
Proof. intros Hc. unfold store_mark, deref. rewrite Hc. reflexivity. Qed.

Lemma all_allocated_insert (t : tree) (cons : list ptr) (con : ptr) (c : Con) :
  all_allocated t cons ->
  all_allocated (set_heap t (<[con := c]> (heap t))) cons.
Proof.
  intros Hall q Hq. simpl. destruct (decide (con = q)) as [->|Hne].
  - rewrite lookup_insert_eq. eexists; reflexivity.
  - rewrite lookup_insert_ne by exact Hne. apply Hall, Hq.
Qed.

Lemma clear_mark_loop_spec (mark : string) (cons : list ptr) :
  forall t,
    all_allocated t cons ->
    exists t',
      clear_mark_loop mark cons t = Ok t'
      /\ all_cons t' = all_cons t /\ focused t' = focused t
      /\ forall q,
           heap t' !! q
           = (fun c => set_mark c
                (if bool_decide (q ∈ cons) && bool_decide (con_mark c = Some mark)
                 then None else con_mark c)) <$> heap t !! q.
Proof.
  induction cons as [|con cons IH]; intros t Hall.
  - exists t. repeat split; try reflexivity. intros q.
    destruct (heap t !! q) as [c|]; simpl; [|reflexivity].
    rewrite set_mark_id. reflexivity.
  - destruct (Hall con (or_introl eq_refl)) as [c Hc]. unfold ptr in Hc.
    assert (exists t1,
      (match con_mark c with
       | Some m => if String.eqb m mark then store_mark t con None else Ok t
       | None => Ok t
       end) = Ok t1
      /\ all_cons t1 = all_cons t /\ focused t1 = focused t
      /\ all_allocated t1 cons
      /\ forall q : Z,
           heap t1 !! q
           = (fun c => set_mark c
                (if bool_decide (q = con) && bool_decide (con_mark c = Some mark)
                 then None else con_mark c)) <$> heap t !! q)
      as (t1 & Hstep & Hall1 & Hf1 & Halloc1 & Hheap1).
    { unfold ptr in *.
      assert (Hrest : all_allocated t cons)
        by (intros q Hq; apply Hall; right; exact Hq).
      destruct (con_mark c) as [m0|] eqn:Hm;
        [destruct (String.eqb m0 mark) eqn:Heq|].
      - apply String.eqb_eq in Heq. subst m0.
        rewrite (store_mark_run t con c None Hc). eexists. split; [reflexivity|].
        split; [reflexivity|]. split; [reflexivity|].
        split; [apply all_allocated_insert, Hrest|].
        intros q. simpl. destruct (decide (con = q)) as [->|Hne].
        + rewrite lookup_insert_eq, Hc. simpl.
          rewrite bool_decide_eq_true_2 by reflexivity.
          rewrite bool_decide_eq_true_2 by exact Hm. reflexivity.
        + rewrite lookup_insert_ne by exact Hne.
          destruct (heap t !! q) as [c'|]; simpl; [|reflexivity].
          rewrite bool_decide_eq_false_2 by congruence.
          simpl. rewrite set_mark_id. reflexivity.
      - exists t. split; [reflexivity|]. split; [reflexivity|].
        split; [reflexivity|]. split; [exact Hrest|].
        intros q. destruct (heap t !! q) as [c'|] eqn:Hq; simpl; [|reflexivity].
        destruct (bool_decide (q = con)) eqn:Hd; simpl;
          [|rewrite set_mark_id; reflexivity].
        apply bool_decide_eq_true_1 in Hd. subst q.
        assert (c' = c) by congruence. subst c'.
        rewrite bool_decide_eq_false_2; [rewrite set_mark_id; reflexivity|].
        rewrite Hm. intros [=Hmm]. subst m0.
        rewrite String.eqb_refl in Heq. discriminate.
      - exists t. split; [reflexivity|]. split; [reflexivity|].
        split; [reflexivity|]. split; [exact Hrest|].
        intros q. destruct (heap t !! q) as [c'|] eqn:Hq; simpl; [|reflexivity].
        destruct (bool_decide (q = con)) eqn:Hd; simpl;
          [|rewrite set_mark_id; reflexivity].
        apply bool_decide_eq_true_1 in Hd. subst q.
        assert (c' = c) by congruence. subst c'.
        rewrite bool_decide_eq_false_2 by congruence.
        rewrite set_mark_id; reflexivity. }
    destruct (IH t1 Halloc1) as (t' & Hrun & Hall' & Hf' & Hheap').
    exists t'. split.
    { simpl. unfold deref, ptr in *. rewrite Hc. simpl. rewrite Hstep. simpl. exact Hrun. }
    split; [congruence|]. split; [congruence|].
    intros q. rewrite Hheap', Hheap1.
    destruct (heap t !! q) as [c'|]; simpl; [|reflexivity].
    f_equal. rewrite set_mark_twice. f_equal.
    destruct (decide (q = con)) as [->|Hne].
    + rewrite (bool_decide_eq_true_2 (con = con)) by reflexivity.
      rewrite (bool_decide_eq_true_2 (con ∈ con :: cons)) by apply list_elem_of_here.
      simpl. destruct (bool_decide (con_mark c' = Some mark)) eqn:Hd; simpl.
      * rewrite andb_false_r. reflexivity.
      * rewrite Hd, andb_false_r. reflexivity.
    + rewrite (bool_decide_eq_false_2 (q = con)) by exact Hne. simpl.
      destruct (decide (q ∈ cons)) as [Hin|Hnin].
      * rewrite (bool_decide_eq_true_2 (q ∈ cons)) by exact Hin.
        rewrite (bool_decide_eq_true_2 (q ∈ con :: cons))
          by (apply list_elem_of_further, Hin).
        reflexivity.
      * rewrite (bool_decide_eq_false_2 (q ∈ cons)) by exact Hnin.
        rewrite (bool_decide_eq_false_2 (q ∈ con :: cons)); [reflexivity|].
        intros Hin. apply elem_of_cons in Hin as [?|?]; contradiction.
Qed.

Lemma set_mark_loop_spec (mark : string) (ws : list ptr) :
  forall t,
    all_allocated t ws ->
    exists t',
      set_mark_loop mark ws t = Ok t'
      /\ all_cons t' = all_cons t /\ focused t' = focused t
      /\ forall q,
           heap t' !! q
           = (fun c => set_mark c
                (if bool_decide (q ∈ ws) then Some mark else con_mark c))
             <$> heap t !! q.
Proof.
  induction ws as [|con ws IH]; intros t Hall; unfold ptr in *.
  - exists t. repeat split; try reflexivity. intros q.
    destruct (heap t !! q) as [c|]; simpl; [|reflexivity].
    rewrite set_mark_id. reflexivity.
  - destruct (Hall con (or_introl eq_refl)) as [c Hc]. unfold ptr in Hc.
    destruct (IH (set_heap t (<[con := set_mark c (Some mark)]> (heap t))))
      as (t' & Hrun & Hall' & Hf' & Hheap').
    { apply all_allocated_insert. intros q Hq. apply Hall. right. exact Hq. }
    exists t'. split.
    { simpl. rewrite (store_mark_run t con c (Some mark) Hc). simpl. exact Hrun. }
    split; [exact Hall'|]. split; [exact Hf'|].
    intros q. rewrite Hheap'. simpl. destruct (decide (con = q)) as [->|Hne].
    + rewrite lookup_insert_eq, Hc. simpl. rewrite set_mark_twice.
      rewrite (bool_decide_eq_true_2 (q ∈ q :: ws)) by apply list_elem_of_here.
      destruct (bool_decide (q ∈ ws)); reflexivity.
    + rewrite lookup_insert_ne by exact Hne.
      destruct (heap t !! q) as [c'|]; simpl; [|reflexivity].
      do 2 f_equal. destruct (decide (q ∈ ws)) as [Hin|Hnin].
      * rewrite (bool_decide_eq_true_2 (q ∈ ws)) by exact Hin.
        rewrite (bool_decide_eq_true_2 (q ∈ con :: ws))
          by (apply list_elem_of_further, Hin).
        reflexivity.
      * rewrite (bool_decide_eq_false_2 (q ∈ ws)) by exact Hnin.
        rewrite (bool_decide_eq_false_2 (q ∈ con :: ws)); [reflexivity|].
        intros Hin. apply elem_of_cons in Hin as [?|?]; [congruence|contradiction].
Qed.

(** X11. [cmd_mark] makes the mark unique.  With the containers of
    [all_cons] and of the working set allocated, the call returns success
    and renders; afterwards every container differs from before in its
    mark alone; and among the containers of [all_cons] the ones that carry
    [mark] are exactly those of the working set (the focused container
    when the Match is empty). *)
Theorem cmd_mark_unique
    (match_is_empty : Match -> bool) (tree_render : tree -> tree)
    (m : Match) (mark : string) (s : state) :
  let t := st_tree s in
  let ws := owindows (HANDLE_EMPTY_MATCH match_is_empty m s) in
  migration_test s = false ->
  all_allocated t (all_cons t) ->
  all_allocated t ws ->
  exists s' t',
    cmd_mark match_is_empty tree_render m mark s = Ok (Some reply_success, s')
    /\ st_tree s' = tree_render t'
    /\ all_cons t' = all_cons t /\ focused t' = focused t
    /\ (forall q : Z,
          heap t' !! q
          = (fun c => set_mark c (mark_after mark (all_cons t) ws q c))
            <$> heap t !! q)
    /\ (forall q : Z, q ∈ all_cons t -> marked_with mark t' q <-> q ∈ ws).
Proof.
  intros t ws Hmig Hcons Hws. subst t.
  destruct (clear_mark_loop_spec mark (all_cons (st_tree s)) (st_tree s) Hcons)
    as (t1 & Hrun1 & Hall1 & Hf1 & Hheap1).
  assert (Hws_eq :
    owindows (HANDLE_EMPTY_MATCH match_is_empty m
      (set_tree (cmd_MIGRATION_save_old_parameters m [Some "cmd_mark"; Some mark] s) t1))
    = ws).
  { unfold ws, HANDLE_EMPTY_MATCH. destruct (match_is_empty m); simpl;
      [rewrite Hf1|]; reflexivity. }
  destruct (set_mark_loop_spec mark ws t1) as (t2 & Hrun2 & Hall2 & Hf2 & Hheap2).
  { intros q Hq. rewrite Hheap1. destruct (Hws q Hq) as [c Hc].
    unfold ptr in *. rewrite Hc. eexists; reflexivity. }
  assert (Hheap : forall q : Z,
    heap t2 !! q
    = (fun c => set_mark c (mark_after mark (all_cons (st_tree s)) ws q c))
      <$> heap (st_tree s) !! q).
  { intros q. rewrite Hheap2, Hheap1.
    destruct (heap (st_tree s) !! q) as [c|]; simpl; [|reflexivity].
    rewrite set_mark_twice. reflexivity. }
  exists (set_tree (HANDLE_EMPTY_MATCH match_is_empty m
            (set_tree (cmd_MIGRATION_save_old_parameters m
               [Some "cmd_mark"; Some mark] s) t1)) (tree_render t2)), t2.
  split.
  { unfold cmd_mark, MIGRATION_init. rewrite Hmig.
    change (st_tree (cmd_MIGRATION_save_old_parameters m
              [Some "cmd_mark"; Some mark] s)) with (st_tree s).
    rewrite Hrun1. simpl mbind. cbv beta iota.
    rewrite Hws_eq.
    assert (Ht1 : st_tree (HANDLE_EMPTY_MATCH match_is_empty m
              (set_tree (cmd_MIGRATION_save_old_parameters m
                 [Some "cmd_mark"; Some mark] s) t1)) = t1).
    { unfold HANDLE_EMPTY_MATCH. destruct (match_is_empty m); reflexivity. }
    rewrite Ht1, Hrun2. unfold rendered. simpl.
    unfold HANDLE_EMPTY_MATCH. destruct (match_is_empty m); reflexivity. }
  split; [reflexivity|]. split; [congruence|]. split; [congruence|].
  split; [exact Hheap|].
  intros q Hq. unfold marked_with. rewrite Hheap. split.
  - intros (c' & Hc' & Hm).
    destruct (heap (st_tree s) !! q) as [c|]; simpl in Hc'; [|discriminate].
    injection Hc' as <-. simpl in Hm. unfold mark_after in Hm.
    destruct (decide (q ∈ ws)) as [Hin|Hnin]; [exact Hin|].
    rewrite (bool_decide_eq_false_2 (q ∈ ws)) in Hm by exact Hnin.
    rewrite (bool_decide_eq_true_2 (q ∈ all_cons (st_tree s))) in Hm by exact Hq.
    simpl in Hm. destruct (bool_decide (con_mark c = Some mark)) eqn:Hd;
      [discriminate|].
    apply bool_decide_eq_false_1 in Hd. contradiction.
  - intros Hin. destruct (Hws q) as [c Hc]; [apply list_elem_of_In, Hin|].
    unfold ptr in *. rewrite Hc. simpl. eexists. split; [reflexivity|]. simpl.
    unfold mark_after. rewrite bool_decide_eq_true_2 by exact Hin. reflexivity.
Qed.

(** On the small tree, whose container 3 carries the mark bar: marking
    container 4 with bar takes the mark from 3. *)
Lemma cmd_mark_unique_witness :
  exists s' t',
    cmd_mark sample_match_is_empty (fun t => t) (sample_match_con_id 4) "bar"
      (set_owindows (sample_state 1 1) [4])
    = Ok (Some reply_success, s')
    /\ st_tree s' = t'
    /\ (con_mark <$> heap t' !! 3) = Some None
    /\ (con_mark <$> heap t' !! 4) = Some (Some "bar").
Proof.
  destruct (cmd_mark_unique sample_match_is_empty (fun t => t)
              (sample_match_con_id 4) "bar" (set_owindows (sample_state 1 1) [4]))
    as (s' & t' & Hrun & Ht & _ & _ & Hheap & _).
  - reflexivity.
  - intros con Hin. simpl in Hin.
    destruct Hin as [<-|[<-|[<-|[<-|[]]]]]; eexists; reflexivity.
  - intros con Hin. simpl in Hin. destruct Hin as [<-|[]]. eexists; reflexivity.
  - exists s', t'. split; [exact Hrun|]. split; [exact Ht|].
    rewrite !Hheap. split; reflexivity.
Defined.

(** ** cmd_kill, cmd_border *)

(** X12. [cmd_kill]: no kill mode means "window"; a kill mode other than
    "window" and "client" gives the failure reply with the tree and the
    working set as they were (nothing is closed, nothing rendered); and
    with an empty Match the working set is not looked at: the tree is the
    rendering of [tree_close_con]; with a Match that is not empty and an
    empty working set nothing is closed, and the call renders and answers
    success. *)
Theorem cmd_kill_modes
    (match_is_empty : Match -> bool) (tree_render : tree -> tree)
    (tree_close_con : kill_window_t -> tree -> tree)
    (tree_close : ptr -> kill_window_t -> bool -> bool -> tree -> tree)
    (m : Match) (mode : string) (s : state) :
  migration_test s = false ->
  cmd_kill match_is_empty tree_render tree_close_con tree_close m None s
  = cmd_kill match_is_empty tree_render tree_close_con tree_close m (Some "window") s
  /\ (mode <> "window" -> mode <> "client" ->
      exists s',
        cmd_kill match_is_empty tree_render tree_close_con tree_close m (Some mode) s
        = (Some reply_sucess_false, s')
        /\ st_tree s' = st_tree s /\ owindows s' = owindows s)
  /\ (forall k, kill_mode_of mode = Some k -> match_is_empty m = true ->
      exists s',
        cmd_kill match_is_empty tree_render tree_close_con tree_close m (Some mode) s
        = (Some reply_success, s')
        /\ st_tree s' = tree_render (tree_close_con k (st_tree s)))
  /\ (forall k, kill_mode_of mode = Some k -> match_is_empty m = false ->
      owindows s = [] ->
      exists s',
        cmd_kill match_is_empty tree_render tree_close_con tree_close m (Some mode) s
        = (Some reply_success, s')
        /\ st_tree s' = tree_render (st_tree s)).
Proof.
  intros Hmig. split; [reflexivity|].
  unfold cmd_kill, MIGRATION_init. rewrite Hmig. simpl default.
  split; [|split].
  - intros Hw Hc. unfold kill_mode_of.
    apply String.eqb_neq in Hw, Hc. rewrite Hw, Hc.
    eexists. split; [reflexivity|]. split; reflexivity.
  - intros k -> Hempty. rewrite Hempty. eexists. split; reflexivity.
  - intros k -> Hempty Hws. rewrite Hempty. eexists. split; [reflexivity|].
    simpl. rewrite Hws. reflexivity.
Qed.

Lemma cmd_kill_modes_witness :
  exists s',
    cmd_kill sample_match_is_empty (fun t => t) (fun _ t => t) (fun _ _ _ _ t => t)
      sample_match_init (Some "all") (sample_state 1 1)
    = (Some reply_sucess_false, s')
    /\ st_tree s' = sample_tree 1 1.
Proof.
  destruct (cmd_kill_modes sample_match_is_empty (fun t => t) (fun _ t => t)
              (fun _ _ _ _ t => t) sample_match_init "all" (sample_state 1 1)
              eq_refl) as (_ & Hbad & _).
  destruct Hbad as (s' & Hrun & Ht & _); [discriminate | discriminate |].
  exists s'. split; [exact Hrun | exact Ht].
Defined.

Lemma border_loop_unknown
    (con_set_border_style : ptr -> Z -> tree -> tree)
    (con_border_style : tree -> ptr -> Z) (BS_NORMAL BS_NONE BS_1PIXEL : Z)
    (style : string) (ws : list ptr) (t : tree) :
  style <> "toggle" -> style <> "normal" -> style <> "none" -> style <> "1pixel" ->
  border_loop con_set_border_style con_border_style BS_NORMAL BS_NONE BS_1PIXEL
    style ws t
  = (t, match ws with [] => true | _ => false end).
Proof.
  intros H1 H2 H3 H4. apply String.eqb_neq in H1, H2, H3, H4.
  destruct ws as [|current next]; simpl; [reflexivity|].
  rewrite H1, H2, H3, H4. reflexivity.
Qed.

(** X13. [cmd_border] with a style other than toggle, normal, none and
    1pixel sets no border.  The failure is reported by the loop body, so
    it shows only when there is a container to work on: with an empty
    working set the call renders and answers success. *)
Theorem cmd_border_unknown_style
    (match_is_empty : Match -> bool) (tree_render : tree -> tree)
    (con_set_border_style : ptr -> Z -> tree -> tree)
    (con_border_style : tree -> ptr -> Z) (BS_NORMAL BS_NONE BS_1PIXEL : Z)
    (m : Match) (style : string) (s : state) :
  migration_test s = false ->
  style <> "toggle" -> style <> "normal" -> style <> "none" -> style <> "1pixel" ->
  exists s',
    cmd_border match_is_empty tree_render con_set_border_style con_border_style
      BS_NORMAL BS_NONE BS_1PIXEL m style s
    = (Some (match owindows (HANDLE_EMPTY_MATCH match_is_empty m s) with
             | [] => reply_success
             | _ => reply_sucess_false
             end), s')
    /\ st_tree s'
       = match owindows (HANDLE_EMPTY_MATCH match_is_empty m s) with
         | [] => tree_render (st_tree s)
         | _ => st_tree s
         end.
Proof.
  intros Hmig H1 H2 H3 H4. unfold cmd_border, MIGRATION_init. rewrite Hmig.
  rewrite border_loop_unknown by assumption.
  unfold HANDLE_EMPTY_MATCH. destruct (match_is_empty m); simpl.
  - eexists. split; reflexivity.
  - destruct (owindows s); eexists; split; reflexivity.
Qed.

Lemma cmd_border_unknown_style_witness :
  exists s1 s2,
    cmd_border sample_match_is_empty (fun t => t) (fun _ _ t => t) (fun _ _ => 0)
      0 1 2 sample_match_init "2pixel" (sample_state 1 1)
    = (Some reply_sucess_false, s1)
    /\ cmd_border sample_match_is_empty (fun t => t) (fun _ _ t => t) (fun _ _ => 0)
         0 1 2 (sample_match_class "term") "2pixel" (sample_state 1 1)
       = (Some reply_success, s2).
Proof.
  destruct (cmd_border_unknown_style sample_match_is_empty (fun t => t)
              (fun _ _ t => t) (fun _ _ => 0) 0 1 2 sample_match_init "2pixel"
              (sample_state 1 1) eq_refl) as (s1 & Hrun1 & _); try discriminate.
  destruct (cmd_border_unknown_style sample_match_is_empty (fun t => t)
              (fun _ _ t => t) (fun _ _ => 0) 0 1 2 (sample_match_class "term")
              "2pixel" (sample_state 1 1) eq_refl) as (s2 & Hrun2 & _);
    try discriminate.
  exists s1, s2. split; [exact Hrun1 | exact Hrun2].
Defined.

(** ** Workspace names *)

Lemma strncasecmp_internal (name : string) :
  strncasecmp_eq 5 name "__i3_" = true <-> internal_name name.
Proof.
  split.
  - destruct name as [|c1 [|c2 [|c3 [|c4 [|c5 rest]]]]];
      cbn [strncasecmp_eq]; rewrite ?andb_false_r; try discriminate.
    rewrite !andb_true_iff, !Ascii.eqb_eq.
    intros (H1 & H2 & H3 & H4 & H5 & _).
    exists (String c1 (String c2 (String c3 (String c4 (String c5 EmptyString))))), rest.
    split; [reflexivity|]. cbn [lower]. rewrite H1, H2, H3, H4, H5. reflexivity.
  - intros (prefix & rest & -> & Hl).
    destruct prefix as [|c1 [|c2 [|c3 [|c4 [|c5 [|c6 p]]]]]];
      cbn [lower] in Hl; try discriminate Hl.
    injection Hl as H1 H2 H3 H4 H5.
    change (strncasecmp_eq 5
              (String c1 (String c2 (String c3 (String c4 (String c5 rest)))))
              "__i3_" = true).
    cbn [strncasecmp_eq]. rewrite H1, H2, H3, H4, H5.
    destruct rest; reflexivity.
Qed.

(** X14. Workspace names that begin with [__i3_], in any letter case, are
    refused by [cmd_workspace_name] and by
    [cmd_move_con_to_workspace_name]: both return the failure reply and
    leave the tree as it is; in particular [workspace_get] creates no
    workspace. *)
Theorem internal_names_refused
    (match_is_empty : Match -> bool) (tree_render : tree -> tree)
    (con_move_to_workspace : ptr -> ptr -> bool -> bool -> tree -> tree)
    (workspace_get : string -> tree -> ptr * tree)
    (con_get_workspace : tree -> ptr -> ptr)
    (workspace_back_and_forth : tree -> tree)
    (workspace_show_by_name : string -> tree -> tree)
    (con_name : tree -> ptr -> string) (workspace_auto_back_and_forth : bool)
    (m : Match) (name : string) (s : state) :
  migration_test s = false ->
  internal_name name ->
  (exists s',
     cmd_workspace_name tree_render con_get_workspace workspace_back_and_forth
       workspace_show_by_name con_name workspace_auto_back_and_forth m name s
     = Ok (Some reply_sucess_false, s')
     /\ st_tree s' = st_tree s)
  /\ (exists s',
        cmd_move_con_to_workspace_name match_is_empty tree_render
          con_move_to_workspace workspace_get m name s
        = Ok (Some reply_sucess_false, s')
        /\ st_tree s' = st_tree s).
Proof.
  intros Hmig Hname. apply strncasecmp_internal in Hname.
  unfold cmd_workspace_name, cmd_move_con_to_workspace_name, MIGRATION_init.
  rewrite Hmig, Hname. split; eexists; split; reflexivity.
Qed.

Lemma internal_names_refused_witness :
  exists s',
    cmd_workspace_name (fun t => t) (fun _ _ => 2) (fun t => t) (fun _ t => t)
      (fun _ _ => "1") false sample_match_init "__I3_scratch" (sample_state 1 1)
    = Ok (Some reply_sucess_false, s')
    /\ st_tree s' = sample_tree 1 1.
Proof.
  destruct (internal_names_refused sample_match_is_empty (fun t => t)
              (fun _ _ _ _ t => t) (fun _ t => (2, t)) (fun _ _ => 2) (fun t => t)
              (fun _ t => t) (fun _ _ => "1") false sample_match_init
              "__I3_scratch" (sample_state 1 1) eq_refl) as (Hws & _).
  - exists "__I3_", "scratch". split; reflexivity.
  - exact Hws.
Defined.

(** X15. [cmd_move_con_to_workspace_name] creates no workspace when there
    is nothing to move: with an empty Match and a workspace focused, the
    call returns the failure reply and the tree is as before, whatever
    [workspace_get] would have done. *)
Theorem move_con_nothing_to_move
    (match_is_empty : Match -> bool) (tree_render : tree -> tree)
    (con_move_to_workspace : ptr -> ptr -> bool -> bool -> tree -> tree)
    (workspace_get : string -> tree -> ptr * tree)
    (m : Match) (name : string) (s : state) (f : Con) :
  migration_test s = false ->
  match_is_empty m = true ->
  heap (st_tree s) !! focused (st_tree s) = Some f ->
  con_type f = CT_WORKSPACE ->
  exists s',
    cmd_move_con_to_workspace_name match_is_empty tree_render
      con_move_to_workspace workspace_get m name s
    = Ok (Some reply_sucess_false, s')
    /\ st_tree s' = st_tree s.
Proof.
  intros Hmig Hempty Hf Hty.
  unfold cmd_move_con_to_workspace_name, MIGRATION_init. rewrite Hmig.
  destruct (strncasecmp_eq 5 name "__i3_"); [eexists; split; reflexivity|].
  rewrite Hempty.
  change (st_tree (cmd_MIGRATION_save_old_parameters m
            [Some "cmd_move_con_to_workspace_name"; Some name] s))
    with (st_tree s).
  unfold deref. unfold ptr in *. rewrite Hf. simpl.
  rewrite bool_decide_eq_true_2 by exact Hty.
  eexists; split; reflexivity.
Qed.

Lemma move_con_nothing_to_move_witness :
  exists s',
    cmd_move_con_to_workspace_name sample_match_is_empty (fun t => t)
      (fun _ _ _ _ t => t)
      (fun _ t => (9, set_heap t (<[9 := sample_con CT_WORKSPACE 1 HORIZ 1 None None
                                          NULL NULL]> (heap t))))
      sample_match_init "mail"
      (set_tree (sample_state 1 1)
         {| heap := sample_heap 1 1; all_cons := [1; 2; 3; 4]; focused := 2 |})
    = Ok (Some reply_sucess_false, s')
    /\ heap (st_tree s') !! 9 = None.
Proof.
  destruct (move_con_nothing_to_move sample_match_is_empty (fun t => t)
              (fun _ _ _ _ t => t)
              (fun _ t => (9, set_heap t (<[9 := sample_con CT_WORKSPACE 1 HORIZ 1
                                                  None None NULL NULL]> (heap t))))
              sample_match_init "mail"
              (set_tree (sample_state 1 1)
                 {| heap := sample_heap 1 1; all_cons := [1; 2; 3; 4]; focused := 2 |})
              (sample_con CT_WORKSPACE 1 HORIZ 1 None None NULL NULL)
              eq_refl eq_refl eq_refl eq_refl) as (s' & Hrun & Ht).
  exists s'. split; [exact Hrun|]. rewrite Ht. reflexivity.
Defined.

(** X16. Asking [cmd_workspace_name] for the workspace that is already
    focused gives the failure reply; yet with
    [workspace_auto_back_and_forth] set the call does switch, to the
    previous workspace, and renders.  Without the setting the tree is
    untouched. *)
Theorem workspace_name_current
    (tree_render : tree -> tree) (con_get_workspace : tree -> ptr -> ptr)
    (workspace_back_and_forth : tree -> tree)
    (workspace_show_by_name : string -> tree -> tree)
    (con_name : tree -> ptr -> string) (workspace_auto_back_and_forth : bool)
    (m : Match) (name : string) (s : state) :
  let ws := con_get_workspace (st_tree s) (focused (st_tree s)) in
  migration_test s = false ->
  ~ internal_name name ->
  is_Some (heap (st_tree s) !! ws) ->
  con_name (st_tree s) ws = name ->
  exists s',
    cmd_workspace_name tree_render con_get_workspace workspace_back_and_forth
      workspace_show_by_name con_name workspace_auto_back_and_forth m name s
    = Ok (Some reply_sucess_false, s')
    /\ st_tree s'
       = if workspace_auto_back_and_forth
         then tree_render (workspace_back_and_forth (st_tree s))
         else st_tree s.
Proof.
  intros ws Hmig Hname [c Hc] Hcur.
  unfold cmd_workspace_name, MIGRATION_init. rewrite Hmig.
  destruct (strncasecmp_eq 5 name "__i3_") eqn:Hint.
  { exfalso. apply Hname, strncasecmp_internal, Hint. }
  change (st_tree (cmd_MIGRATION_save_old_parameters m
            [Some "cmd_workspace_name"; Some name] s))
    with (st_tree s).
  fold ws. unfold deref. unfold ptr in *. rewrite Hc. simpl.
  rewrite Hcur, String.eqb_refl.
  eexists. split; [reflexivity|].
  destruct workspace_auto_back_and_forth; reflexivity.
Qed.

Lemma workspace_name_current_witness :
  exists s',
    cmd_workspace_name (fun t => t) (fun _ _ => 2)
      (fun t => {| heap := heap t; all_cons := all_cons t; focused := 4 |})
      (fun _ t => t) (fun _ _ => "1") true sample_match_init "1" (sample_state 1 1)
    = Ok (Some reply_sucess_false, s')
    /\ focused (st_tree s') = 4.
Proof.
  destruct (workspace_name_current (fun t => t) (fun _ _ => 2)
              (fun t => {| heap := heap t; all_cons := all_cons t; focused := 4 |})
              (fun _ t => t) (fun _ _ => "1") true sample_match_init "1"
              (sample_state 1 1)) as (s' & Hrun & Ht).
  - reflexivity.
  - intros Hint. apply strncasecmp_internal in Hint. discriminate Hint.
  - eexists; reflexivity.
  - reflexivity.
  - exists s'. split; [exact Hrun|]. rewrite Ht. reflexivity.
Defined.

(** ** The focus commands *)

(** X17. [cmd_focus_direction], [cmd_focus_level] and
    [cmd_focus_window_mode] start with the guard of [cmd_focus]: while the
    focused container is in fullscreen mode (and is no workspace) each of
    them returns the failure reply and leaves the tree alone. *)
Theorem focus_commands_blocked_in_fullscreen
    (tree_render : tree -> tree)
    (tree_next : ascii -> orientation_t -> tree -> tree)
    (level_up level_down : tree -> tree)
    (con_focus : ptr -> tree -> tree)
    (con_get_workspace con_descend_focused : tree -> ptr -> ptr)
    (focus_head : tree -> ptr -> list ptr)
    (m : Match) (arg : string) (s : state) :
  migration_test s = false ->
  focus_in_fullscreen_mode (st_tree s) = Ok true ->
  (exists s',
     cmd_focus_direction tree_render tree_next m arg s
     = Ok (Some reply_sucess_false, s') /\ st_tree s' = st_tree s)
  /\ (exists s',
        cmd_focus_level tree_render level_up level_down m arg s
        = Ok (Some reply_sucess_false, s') /\ st_tree s' = st_tree s)
  /\ (exists s',
        cmd_focus_window_mode tree_render con_focus con_get_workspace
          con_descend_focused focus_head m arg s
        = Ok (Some reply_sucess_false, s') /\ st_tree s' = st_tree s).
Proof.
  intros Hmig Hguard.
  unfold cmd_focus_direction, cmd_focus_level, cmd_focus_window_mode, MIGRATION_init.
  rewrite Hmig.
  change (st_tree (cmd_MIGRATION_save_old_parameters m ?p s)) with (st_tree s).
  repeat split.
  - eexists.
    change (st_tree (cmd_MIGRATION_save_old_parameters m
              [Some "cmd_focus_direction"; Some arg] s)) with (st_tree s).
    rewrite Hguard. split; reflexivity.
  - eexists.
    change (st_tree (cmd_MIGRATION_save_old_parameters m
              [Some "cmd_focus_level"; Some arg] s)) with (st_tree s).
    rewrite Hguard. split; reflexivity.
  - eexists.
    change (st_tree (cmd_MIGRATION_save_old_parameters m
              [Some "cmd_focus_window_mode"; Some arg] s)) with (st_tree s).
    rewrite Hguard. split; reflexivity.
Qed.

Lemma focus_commands_blocked_in_fullscreen_witness :
  exists s',
    cmd_focus_level (fun t => t) (fun t => set_heap t ∅) (fun t => t)
      sample_match_init "parent" (initial_state sample_fullscreen_tree)
    = Ok (Some reply_sucess_false, s')
    /\ st_tree s' = sample_fullscreen_tree.
Proof.
  destruct (focus_commands_blocked_in_fullscreen (fun t => t) (fun _ _ t => t)
              (fun t => set_heap t ∅) (fun t => t) (fun _ t => t) (fun _ _ => 2)
              (fun _ p => p) (fun _ _ => [3; 4]) sample_match_init "parent"
              (initial_state sample_fullscreen_tree) eq_refl eq_refl)
    as (_ & Hlevel & _).
  exact Hlevel.
Defined.

(** X18. Outside fullscreen mode [cmd_focus_direction] moves the focus for
    left, right, up and down and for nothing else: any other direction
    gives the failure reply, and the tree is neither changed nor
    rendered. *)
Theorem focus_direction_invalid
    (tree_render : tree -> tree)
    (tree_next : ascii -> orientation_t -> tree -> tree)
    (m : Match) (direction : string) (s : state) :
  migration_test s = false ->
  focus_in_fullscreen_mode (st_tree s) = Ok false ->
  direction <> "left" -> direction <> "right" ->
  direction <> "up" -> direction <> "down" ->
  exists s',
    cmd_focus_direction tree_render tree_next m direction s
    = Ok (Some reply_sucess_false, s')
    /\ st_tree s' = st_tree s.
Proof.
  intros Hmig Hguard Hl Hr Hu Hd.
  apply String.eqb_neq in Hl, Hr, Hu, Hd.
  unfold cmd_focus_direction, MIGRATION_init. rewrite Hmig.
  change (st_tree (cmd_MIGRATION_save_old_parameters m
            [Some "cmd_focus_direction"; Some direction] s)) with (st_tree s).
  rewrite Hguard. simpl. rewrite Hl, Hr, Hu, Hd.
  eexists. split; reflexivity.
Qed.

Lemma focus_direction_invalid_witness :
  exists s',
    cmd_focus_direction (fun t => t) (fun _ _ t => set_heap t ∅)
      sample_match_init "Left" (sample_state 1 1)
    = Ok (Some reply_sucess_false, s')
    /\ st_tree s' = sample_tree 1 1.
Proof.
  apply (focus_direction_invalid (fun t => t) (fun _ _ t => set_heap t ∅)
           sample_match_init "Left" (sample_state 1 1));
    [reflexivity | reflexivity | discriminate | discriminate
    | discriminate | discriminate].
Defined.

Lemma focus_window_mode_loop_find
    (con_focus : ptr -> tree -> tree) (con_descend_focused : tree -> ptr -> ptr)
    (window_mode : string) (t : tree) (focus_list : list ptr) :
  all_allocated t focus_list ->
  focus_window_mode_loop con_focus con_descend_focused window_mode focus_list t
  = Ok match List.find (wanted window_mode t) focus_list with
       | Some current => con_focus (con_descend_focused t current) t
       | None => t
       end.
Proof.
  induction focus_list as [|current next IH]; intros Hall; [reflexivity|].
  destruct (Hall current (or_introl eq_refl)) as [c Hc].
  cbn [focus_window_mode_loop List.find]. unfold deref, wanted, is_floating.
  unfold ptr in *. rewrite Hc. simpl.
  rewrite IH by (intros q Hq; apply Hall; right; exact Hq).
  unfold wanted, is_floating.
  destruct (String.eqb window_mode "floating") eqn:Hf.
  - apply String.eqb_eq in Hf. subst window_mode. simpl.
    destruct (bool_decide (con_type c = CT_FLOATING_CON)); reflexivity.
  - destruct (String.eqb window_mode "tiling"); simpl;
      [destruct (bool_decide (con_type c = CT_FLOATING_CON))|]; reflexivity.
Qed.

(** X19. [cmd_focus_window_mode] with mode_toggle, outside fullscreen
    mode and on a workspace whose focus list holds containers: the
    container focused is the first of the focus list whose kind (floating
    or tiling) differs from the kind of the head of the list.  When there
    is none, the tree is only rendered. *)
Theorem focus_mode_toggle
    (tree_render : tree -> tree) (con_focus : ptr -> tree -> tree)
    (con_get_workspace con_descend_focused : tree -> ptr -> ptr)
    (focus_head : tree -> ptr -> list ptr)
    (m : Match) (s : state) :
  let t := st_tree s in
  let ws := con_get_workspace t (focused t) in
  let head_floating :=
    match focus_head t ws with
    | current :: _ => is_floating t current
    | [] => false
    end in
  migration_test s = false ->
  focus_in_fullscreen_mode t = Ok false ->
  ws <> NULL ->
  all_allocated t (focus_head t ws) ->
  exists s',
    cmd_focus_window_mode tree_render con_focus con_get_workspace
      con_descend_focused focus_head m "mode_toggle" s
    = Ok (Some reply_success, s')
    /\ st_tree s'
       = tree_render
           match List.find (fun current =>
                   negb (Bool.eqb (is_floating t current) head_floating))
                   (focus_head t ws) with
           | Some current => con_focus (con_descend_focused t current) t
           | None => t
           end.
Proof.
  intros t ws head_floating Hmig Hguard Hws Hall.
  unfold cmd_focus_window_mode, MIGRATION_init. rewrite Hmig.
  change (st_tree (cmd_MIGRATION_save_old_parameters m
            [Some "cmd_focus_window_mode"; Some "mode_toggle"] s)) with t.
  rewrite Hguard. simpl mbind. cbv beta iota. fold ws.
  apply Z.eqb_neq in Hws. rewrite Hws.
  change (String.eqb "mode_toggle" "mode_toggle") with true. cbv iota.
  assert (Hmode : exists mode,
    match focus_head t ws with
    | [] => Ok "floating"
    | current :: _ =>
        c ← deref t current;
        Ok (if bool_decide (con_type c = CT_FLOATING_CON) then "tiling" else "floating")
    end = Ok mode
    /\ mode = (if head_floating then "tiling" else "floating")).
  { unfold head_floating. destruct (focus_head t ws) as [|current next].
    - eexists. split; reflexivity.
    - destruct (Hall current (or_introl eq_refl)) as [c Hc].
      unfold deref, is_floating. unfold ptr in *. rewrite Hc. simpl.
      eexists. split; reflexivity. }
  destruct Hmode as (mode & -> & ->). simpl mbind. cbv beta iota.
  rewrite focus_window_mode_loop_find by exact Hall.
  simpl mbind. unfold rendered. eexists. split; [reflexivity|].
  simpl st_tree. f_equal.
  assert (Hpred : forall current,
    wanted (if head_floating then "tiling" else "floating") t current
    = negb (Bool.eqb (is_floating t current) head_floating)).
  { intros current. unfold wanted.
    destruct head_floating; simpl; destruct (is_floating t current); reflexivity. }
  clearbody head_floating. clear -Hpred. induction (focus_head t ws) as [|current next IH]; [reflexivity|].
  simpl. rewrite Hpred.
  destruct (negb (Bool.eqb (is_floating t current) head_floating)); [reflexivity|].
  exact IH.
Qed.

(** On a workspace with the focus list 3, 4 and 5, of which 5 alone is
    floating: the toggle goes to 5. *)
Lemma focus_mode_toggle_witness :
  exists s',
    cmd_focus_window_mode (fun t => t)
      (fun con t => {| heap := heap t; all_cons := all_cons t; focused := con |})
      (fun _ _ => 2) (fun _ con => con) (fun _ _ => [3; 4; 5])
      sample_match_init "mode_toggle"
      (set_tree (sample_state 1 1)
         (set_heap (sample_tree 1 1)
            (<[5 := sample_con CT_FLOATING_CON 2 NO_ORIENTATION 1 None None
                      NULL NULL]> (sample_heap 1 1))))
    = Ok (Some reply_success, s')
    /\ focused (st_tree s') = 5.
Proof.
  destruct (focus_mode_toggle (fun t => t)
      (fun con t => {| heap := heap t; all_cons := all_cons t; focused := con |})
      (fun _ _ => 2) (fun _ con => con) (fun _ _ => [3; 4; 5])
      sample_match_init
      (set_tree (sample_state 1 1)
         (set_heap (sample_tree 1 1)
            (<[5 := sample_con CT_FLOATING_CON 2 NO_ORIENTATION 1 None None
                      NULL NULL]> (sample_heap 1 1)))))
    as (s' & Hrun & Ht).
  - reflexivity.
  - reflexivity.
  - discriminate.
  - intros con Hin. simpl in Hin.
    destruct Hin as [<-|[<-|[<-|[]]]]; eexists; reflexivity.
  - exists s'. split; [exact Hrun|]. rewrite Ht. reflexivity.
Defined.

(** ** cmd_criteria_add and cmd_open *)

Lemma strtol_le_max (s : string) : fst (strtol s) <= LONG_MAX.
Proof.
  unfold strtol.
  destruct (match atoi_blanks s with
            | String "-" r => (true, r)
            | String "+" r => (false, r)
            | _ => (false, atoi_blanks s)
            end) as [negative digits].
  destruct digits as [|c r]; [unfold LONG_MAX; simpl; lia|].
  destruct (digit_of c); [|unfold LONG_MAX; simpl; lia].
  destruct (strtol_digits 0 (String c r)) as [v rest]. simpl.
  unfold LONG_MIN, LONG_MAX. lia.
Qed.

Lemma parse_id_range (cvalue : string) (parsed : Z) :
  parse_id cvalue = Some parsed -> 0 <= parsed < LONG_MAX.
Proof.
  unfold parse_id. pose proof (strtol_le_max cvalue) as Hle.
  destruct (strtol cvalue) as [v rest]. simpl in Hle.
  destruct (Z.eqb_spec v LONG_MIN); [discriminate|].
  destruct (Z.eqb_spec v LONG_MAX); [discriminate|].
  destruct (Z.ltb_spec v 0); [discriminate|].
  simpl. destruct (negb (String.eqb rest "")); [discriminate|].
  intros [= <-]. lia.
Qed.

Ltac other_field H :=
  first [ reflexivity
        | exfalso; apply H; apply String.eqb_eq; assumption ].

(** X20. [cmd_criteria_add] returns no reply, leaves the tree and the
    working set alone, and writes at most the one field of the Match that
    [ctype] names: each of title, class, instance, mark, role, id and
    con_id keeps its value unless [ctype] is its criterion; application,
    dock, floating and insert_where are never written.  A container id it
    stores lies in the range from 0 to below LONG_MAX. *)
Theorem criteria_add_one_field
    (regex_new : string -> option regex)
    (m : Match) (ctype cvalue : string) (s : state) :
  let '(reply, m', s') := cmd_criteria_add regex_new m ctype cvalue s in
  reply = None
  /\ st_tree s' = st_tree s /\ owindows s' = owindows s
  /\ match_application m' = match_application m
  /\ match_dock m' = match_dock m
  /\ match_floating m' = match_floating m
  /\ match_insert_where m' = match_insert_where m
  /\ (ctype <> "title" -> match_title m' = match_title m)
  /\ (ctype <> "class" -> match_class m' = match_class m)
  /\ (ctype <> "instance" -> match_instance m' = match_instance m)
  /\ (ctype <> "con_mark" -> match_mark m' = match_mark m)
  /\ (ctype <> "window_role" -> match_role m' = match_role m)
  /\ (ctype <> "id" -> match_id m' = match_id m)
  /\ (ctype <> "con_id" -> match_con_id m' = match_con_id m)
  /\ (match_con_id m' = match_con_id m \/ 0 <= match_con_id m' < LONG_MAX).
Proof.
  unfold cmd_criteria_add.
  split; [reflexivity|].
  split; [destruct (migration_test s); reflexivity|].
  split; [destruct (migration_test s); reflexivity|].
  destruct (String.eqb ctype "class") eqn:H1.
  { repeat split; try (left; reflexivity); intros H; other_field H. }
  destruct (String.eqb ctype "instance") eqn:H2.
  { repeat split; try (left; reflexivity); intros H; other_field H. }
  destruct (String.eqb ctype "window_role") eqn:H3.
  { repeat split; try (left; reflexivity); intros H; other_field H. }
  destruct (String.eqb ctype "con_id") eqn:H4.
  { destruct (parse_id cvalue) as [parsed|] eqn:Hparse.
    - repeat split; try (intros H; other_field H).
      right. simpl. apply (parse_id_range cvalue), Hparse.
    - repeat split; try (left; reflexivity); intros H; other_field H. }
  destruct (String.eqb ctype "id") eqn:H5.
  { destruct (parse_id cvalue) as [parsed|];
      repeat split; try (left; reflexivity); intros H; other_field H. }
  destruct (String.eqb ctype "con_mark") eqn:H6.
  { repeat split; try (left; reflexivity); intros H; other_field H. }
  destruct (String.eqb ctype "title") eqn:H7.
  { repeat split; try (left; reflexivity); intros H; other_field H. }
  repeat split; try (left; reflexivity); intros H; other_field H.
Qed.

(** *** Printing and reading a container id *)

Lemma digit_cases (d : Z) :
  0 <= d <= 9 ->
  d = 0 \/ d = 1 \/ d = 2 \/ d = 3 \/ d = 4 \/ d = 5 \/ d = 6 \/ d = 7 \/ d = 8 \/ d = 9.
Proof. lia. Qed.

Lemma digit_of_digit_char (d : Z) :
  0 <= d <= 9 -> digit_of (digit_char d) = Some d.
Proof.
  intros H. destruct (digit_cases d H) as [->|[->|[->|[->|[->|[->|[->|[->|[->| ->]]]]]]]]];
    reflexivity.
Qed.

Lemma strtol_digits_print (fuel : nat) :
  forall n acc,
    0 <= n < 10 ^ Z.of_nat fuel ->
    strtol_digits 0 (print_digits fuel n acc) = strtol_digits n acc.
Proof.
  induction fuel as [|fuel IH]; intros n acc Hn.
  - simpl in Hn. assert (n = 0) by lia. subst n. reflexivity.
  - cbn [print_digits].
    assert (Hd : 0 <= n mod 10 <= 9) by (pose proof (Z.mod_pos_bound n 10); lia).
    assert (Hstep : forall a,
      strtol_digits a (String (digit_char (n mod 10)) acc)
      = strtol_digits (10 * a + n mod 10) acc).
    { intros a. cbn [strtol_digits]. rewrite digit_of_digit_char by exact Hd.
      reflexivity. }
    destruct (Z.ltb_spec n 10) as [Hlt|Hge].
    + rewrite Hstep. f_equal. rewrite Z.mod_small by lia. lia.
    + rewrite IH.
      * rewrite Hstep. f_equal. pose proof (Z_div_mod_eq_full n 10). lia.
      * rewrite Nat2Z.inj_succ, Z.pow_succ_r in Hn by lia.
        split; [apply Z.div_pos; lia|].
        apply Z.div_lt_upper_bound; lia.
Qed.

Lemma print_digits_shape (fuel : nat) :
  forall n acc,
    exists d rest,
      0 <= d <= 9 /\ print_digits (S fuel) n acc = String (digit_char d) rest.
Proof.
  induction fuel as [|fuel IH]; intros n acc;
    assert (Hd : 0 <= n mod 10 <= 9) by (pose proof (Z.mod_pos_bound n 10); lia).
  - exists (n mod 10), acc. split; [exact Hd|].
    simpl. destruct (n <? 10); reflexivity.
  - change (print_digits (S (S fuel)) n acc)
      with (if n <? 10 then String (digit_char (n mod 10)) acc
            else print_digits (S fuel) (n / 10) (String (digit_char (n mod 10)) acc)).
    destruct (n <? 10); [exists (n mod 10), acc; split; [exact Hd | reflexivity]|].
    apply IH.
Qed.

Lemma strtol_digit_led (c : ascii) (rest : string) (d : Z) :
  digit_of c = Some d ->
  strtol (String c rest)
  = (Z.max LONG_MIN (Z.min LONG_MAX (fst (strtol_digits 0 (String c rest)))),
     snd (strtol_digits 0 (String c rest))).
Proof.
  intros H.
  destruct c as [[] [] [] [] [] [] [] []]; cbv in H; try discriminate H;
    unfold strtol; cbn [atoi_blanks];
    match goal with
    | |- context [is_space ?c] => change (is_space c) with false
    end; cbv iota;
    match goal with
    | |- context [digit_of ?c] =>
        let v := eval cbv in (digit_of c) in change (digit_of c) with v
    end; cbv iota;
    destruct (strtol_digits 0 _); reflexivity.
Qed.

Lemma strtol_print_long (n : Z) :
  0 <= n < 10 ^ 20 ->
  strtol (print_long n) = (Z.max LONG_MIN (Z.min LONG_MAX n), "").
Proof.
  intros Hn. unfold print_long.
  destruct (Z.ltb_spec n 0) as [?|_]; [lia|].
  destruct (print_digits_shape 19 n "") as (d & rest & Hd & Hshape).
  rewrite Hshape.
  rewrite (strtol_digit_led _ rest d (digit_of_digit_char d Hd)).
  rewrite <- Hshape. rewrite strtol_digits_print by exact Hn. reflexivity.
Qed.

Lemma parse_id_print_long (n : Z) :
  0 <= n < LONG_MAX -> parse_id (print_long n) = Some n.
Proof.
  intros Hn. unfold parse_id. unfold LONG_MAX in Hn.
  rewrite strtol_print_long by lia.
  replace (Z.max LONG_MIN (Z.min LONG_MAX n)) with n
    by (unfold LONG_MIN, LONG_MAX; lia).
  destruct (Z.eqb_spec n LONG_MIN) as [H|_]; [unfold LONG_MIN in H; lia|].
  destruct (Z.eqb_spec n LONG_MAX) as [H|_]; [unfold LONG_MAX in H; lia|].
  destruct (Z.ltb_spec n 0) as [H|_]; [lia|].
  reflexivity.
Qed.

(** X21. The id in the reply of [cmd_open] selects the container that was
    opened.  [cmd_open] answers with the address of the new container
    printed by [%ld]; read back by [cmd_criteria_add] as the value of
    con_id, that text gives a Match whose container id is the address
    again, and [cmd_criteria_match_windows] with this Match keeps of any
    working set the new container and nothing else. *)
Theorem open_id_selects_container
    (tree_render : tree -> tree) (tree_open_con : tree -> ptr * tree)
    (con_focus : ptr -> tree -> tree) (regex_new : string -> option regex)
    (match_matches_window : Match -> i3Window -> bool)
    (regex_matches : regex -> string -> bool)
    (m m0 : Match) (s s0 : state) :
  let con := fst (tree_open_con (st_tree s)) in
  let m' := snd (fst (cmd_criteria_add regex_new m0 "con_id" (print_long con) s0)) in
  migration_test s = false ->
  0 < con < LONG_MAX ->
  fst (cmd_open tree_render tree_open_con con_focus m s) = Some (reply_open con)
  /\ match_con_id m' = con
  /\ forall s1,
       migration_test s1 = false ->
       exists s2,
         cmd_criteria_match_windows match_matches_window regex_matches m' s1
         = Ok (None, s2, [])
         /\ owindows s2 = List.filter (Z.eqb con) (owindows s1).
Proof.
  intros con m' Hmig Hcon.
  assert (Hid : match_con_id m' = con).
  { unfold m', cmd_criteria_add.
    change (String.eqb "con_id" "class") with false.
    change (String.eqb "con_id" "instance") with false.
    change (String.eqb "con_id" "window_role") with false.
    change (String.eqb "con_id" "con_id") with true. cbv iota.
    rewrite parse_id_print_long by lia. reflexivity. }
  split; [|split; [exact Hid|]].
  - unfold cmd_open, MIGRATION_init. rewrite Hmig.
    change (st_tree (cmd_MIGRATION_save_old_parameters m [Some "cmd_open"] s))
      with (st_tree s).
    unfold con. destruct (tree_open_con (st_tree s)) as [c t1]. reflexivity.
  - intros s1 Hmig1. unfold cmd_criteria_match_windows. rewrite Hmig1.
    rewrite match_loop_con_id by (rewrite Hid; unfold NULL; lia).
    rewrite Hid. eexists. split; reflexivity.
Qed.

Lemma open_id_selects_container_witness :
  fst (cmd_open (fun t => t)
         (fun t => (140737488355000,
                    set_heap t (<[140737488355000 := sample_con (CT_OTHER 2) 2
                                    NO_ORIENTATION 1 None None NULL NULL]> (heap t))))
         sample_con_focus sample_match_init (sample_state 1 1))
  = Some (reply_open 140737488355000)
  /\ match_con_id
       (snd (fst (cmd_criteria_add (fun p => Some {| pattern := p |}) sample_match_init
                    "con_id" (print_long 140737488355000) (sample_state 1 1))))
     = 140737488355000.
Proof.
  destruct (open_id_selects_container (fun t => t)
              (fun t => (140737488355000,
                         set_heap t (<[140737488355000 := sample_con (CT_OTHER 2) 2
                                         NO_ORIENTATION 1 None None NULL NULL]> (heap t))))
              sample_con_focus (fun p => Some {| pattern := p |})
              sample_match_matches_window sample_regex_matches
              sample_match_init sample_match_init (sample_state 1 1) (sample_state 1 1))
    as (Hreply & Hid & _).
  - reflexivity.
  - unfold LONG_MAX. simpl. lia.
  - split; [exact Hreply | exact Hid].
Defined.

(** X22. The id criterion keeps 32 bits: the value is read as a [long] and
    stored in a 32-bit window id, so two values that differ by 2^32 give
    the same Match. *)
Theorem criteria_id_keeps_32_bits
    (regex_new : string -> option regex) (m : Match) (s : state) (n : Z) :
  0 <= n ->
  n + 2 ^ 32 < LONG_MAX ->
  snd (fst (cmd_criteria_add regex_new m "id" (print_long (n + 2 ^ 32)) s))
  = snd (fst (cmd_criteria_add regex_new m "id" (print_long n) s))
  /\ match_id (snd (fst (cmd_criteria_add regex_new m "id" (print_long n) s)))
     = n mod 2 ^ 32.
Proof.
  intros Hn Hmax. unfold cmd_criteria_add.
  change (String.eqb "id" "class") with false.
  change (String.eqb "id" "instance") with false.
  change (String.eqb "id" "window_role") with false.
  change (String.eqb "id" "con_id") with false.
  change (String.eqb "id" "id") with true. cbv iota.
  rewrite !parse_id_print_long by lia.
  cbn [fst snd]. unfold uint32_wrap.
  replace ((n + 2 ^ 32) mod 2 ^ 32) with (n mod 2 ^ 32).
  - split; reflexivity.
  - rewrite <- (Z.mul_1_l (2 ^ 32)) at 2. rewrite Z.mod_add by lia. reflexivity.
Qed.

Lemma criteria_id_keeps_32_bits_witness :
  match_id (snd (fst (cmd_criteria_add (fun p => Some {| pattern := p |})
                        sample_match_init "id" (print_long (7 + 2 ^ 32))
                        (sample_state 1 1))))
  = 7.
Proof.
  destruct (criteria_id_keeps_32_bits (fun p => Some {| pattern := p |})
              sample_match_init (sample_state 1 1) 7) as (Hsame & Hid).
  - lia.
  - unfold LONG_MAX. simpl. lia.
  - rewrite Hsame. exact Hid.
Defined.

(** ** definitelyGreaterThan *)

Lemma to_double_sign (s : bool) (x : spec_float) :
  has_sign s x -> has_sign s (to_double x).
Proof.
  destruct x as [s'|s'| |s' m e]; simpl; intros H; subst; try reflexivity.
  apply binary_round_sign.
Qed.

Lemma SF64mul_nonneg (x y : spec_float) :
  has_sign false x -> has_sign false y -> has_sign false (SF64mul x y).
Proof.
  destruct x as [sx|sx| |sx mx ex], y as [sy|sy| |sy my ey]; simpl;
    intros Hx Hy; subst; try reflexivity.
  apply binary_round_aux_sign.
Qed.

Lemma definitelyGreaterThan_sub_pos (a b epsilon : spec_float) :
  has_sign false epsilon ->
  definitelyGreaterThan a b epsilon = true ->
  strictly_pos (SFsub 24 128 a b).
Proof.
  unfold definitelyGreaterThan. cbv zeta. intros Heps H.
  apply to_double_strictly_pos.
  eapply SFltb_strictly_pos; [|exact H].
  apply SF64mul_nonneg; [|apply to_double_sign, Heps].
  destruct (SFltb (SFabs (to_double a)) (SFabs (to_double b))); apply SFabs_sign.
Qed.

Lemma binary_normalize_pos_inv (m e : Z) :
  strictly_pos (binary_normalize 24 128 m e false) -> 0 < m.
Proof.
  destruct m as [|p|p]; simpl; [tauto|lia|].
  intros H.
  pose proof (strictly_pos_sign _ _ (binary_round_sign 24 128 true p e) H).
  discriminate.
Qed.

Lemma sub_pos_one_way (a b : spec_float) :
  strictly_pos (SFsub 24 128 a b) -> strictly_pos (SFsub 24 128 b a) -> False.
Proof.
  destruct a as [sa|sa| |sa ma ea], b as [sb|sb| |sb mb eb];
    try (destruct sa, sb; simpl; tauto);
    try (destruct sa; simpl; tauto);
    try (destruct sb; simpl; tauto);
    try (simpl; tauto).
  unfold SFsub. cbv zeta. rewrite (Z.min_comm eb ea).
  intros H1 H2.
  apply binary_normalize_pos_inv in H1, H2. lia.
Qed.

(** X23. [definitelyGreaterThan] with an epsilon that is not negative is a
    strict comparison: it never holds in both directions, and no value is
    definitely greater than itself (infinities and NaN included). *)
Theorem definitelyGreaterThan_asymmetric (a b epsilon : spec_float) :
  has_sign false epsilon ->
  definitelyGreaterThan a b epsilon = true ->
  definitelyGreaterThan b a epsilon = false /\ a <> b.
Proof.
  intros Heps Hab.
  pose proof (definitelyGreaterThan_sub_pos a b epsilon Heps Hab) as H1.
  split.
  - destruct (definitelyGreaterThan b a epsilon) eqn:Hba; [|reflexivity].
    exfalso.
    exact (sub_pos_one_way a b H1 (definitelyGreaterThan_sub_pos b a epsilon Heps Hba)).
  - intros ->. exact (sub_pos_one_way b b H1 H1).
Qed.

Lemma definitelyGreaterThan_asymmetric_witness :
  definitelyGreaterThan (to_float 0.5) floor32 epsilon32 = true
  /\ definitelyGreaterThan floor32 (to_float 0.5) epsilon32 = false.
Proof.
  assert (H : definitelyGreaterThan (to_float 0.5) floor32 epsilon32 = true)
    by (vm_compute; reflexivity).
  split; [exact H|].
  exact (proj1 (definitelyGreaterThan_asymmetric (to_float 0.5) floor32 epsilon32
                  eq_refl H)).
Defined.

(** ** The handlers while the parser is under test *)

(** X24. While [migration_test] is set, each of the handlers [cmd_resize],
    [cmd_focus], [cmd_layout], [cmd_fullscreen], [cmd_move_scratchpad],
    [cmd_mark], [cmd_kill], [cmd_border], [cmd_move_con_to_workspace],
    [cmd_move_con_to_workspace_name], [cmd_workspace_name], [cmd_floating],
    [cmd_focus_direction], [cmd_focus_level], [cmd_focus_window_mode],
    [cmd_open], [cmd_move_direction] and [cmd_scratchpad_show] does nothing
    but record its call: the reply is NULL, and the state differs from the
    one before in one frame, appended to the frames of the new parser,
    that holds the Match, the name of the handler and its arguments (for
    [cmd_kill] and [cmd_fullscreen] after the default has been filled in,
    for [cmd_layout] with stacking replaced by stacked).  The three
    criteria handlers are different.  [cmd_criteria_init] records nothing
    and refills the working set from [all_cons].  [cmd_criteria_add] and
    [cmd_criteria_match_windows] append a frame that holds the Match as
    it is on entry and the name of the function alone, and then run in
    full: the field of the Match is written, and the working set is
    filtered, as outside the test. *)
Theorem capturing_handlers_only_record
    (match_is_empty : Match -> bool) (tree_render : tree -> tree)
    (con_inside_floating : tree -> ptr -> ptr) (con_num_children : tree -> ptr -> Z)
    (con_get_workspace con_descend_focused : tree -> ptr -> ptr)
    (con_focus workspace_show scratchpad_move scratchpad_show : ptr -> tree -> tree)
    (con_set_layout : ptr -> layout_t -> tree -> tree)
    (con_toggle_fullscreen : ptr -> fullscreen_mode_t -> tree -> tree)
    (tree_close_con : kill_window_t -> tree -> tree)
    (tree_close : ptr -> kill_window_t -> bool -> bool -> tree -> tree)
    (tree_next : ascii -> orientation_t -> tree -> tree)
    (tree_open_con : tree -> ptr * tree) (level_up level_down : tree -> tree)
    (con_move_to_workspace : ptr -> ptr -> bool -> bool -> tree -> tree)
    (con_set_border_style : ptr -> Z -> tree -> tree)
    (workspace_get : string -> tree -> ptr * tree)
    (workspace_next workspace_prev workspace_next_on_output
       workspace_prev_on_output : tree -> ptr)
    (workspace_back_and_forth : tree -> tree)
    (workspace_show_by_name : string -> tree -> tree)
    (con_name : tree -> ptr -> string) (con_border_style : tree -> ptr -> Z)
    (focus_head : tree -> ptr -> list ptr) (workspace_auto_back_and_forth : bool)
    (con_is_floating : tree -> ptr -> bool)
    (floating_reposition : ptr -> Rect -> tree -> tree)
    (toggle_floating_mode floating_enable floating_disable : ptr -> bool -> tree -> tree)
    (tree_move : direction_token -> tree -> tree)
    (regex_new : string -> option regex) (match_init : Match)
    (match_matches_window : Match -> i3Window -> bool)
    (regex_matches : regex -> string -> bool)
    (BS_NORMAL BS_NONE BS_1PIXEL : Z) (fuel : nat)
    (m : Match) (a b c d : string) (o : option string) (s : state) :
  let recorded name args :=
    cmd_MIGRATION_save_new_parameters m (Some name :: args) s in
  migration_test s = true ->
  cmd_resize con_inside_floating con_num_children tree_render fuel m a b c d s
  = Ok (None, recorded "cmd_resize" [Some a; Some b; Some c; Some d])
  /\ cmd_focus match_is_empty con_get_workspace con_focus workspace_show tree_render m s
     = Ok (None, recorded "cmd_focus" [])
  /\ cmd_layout match_is_empty con_set_layout tree_render m a s
     = Ok (None, recorded "cmd_layout"
                   [Some (if String.eqb a "stacking" then "stacked" else a)])
  /\ cmd_fullscreen match_is_empty con_toggle_fullscreen tree_render m o s
     = (None, recorded "cmd_fullscreen" [Some (default "output" o)])
  /\ cmd_move_scratchpad match_is_empty scratchpad_move tree_render m s
     = (None, recorded "cmd_move_scratchpad" [])
  /\ cmd_mark match_is_empty tree_render m a s
     = Ok (None, recorded "cmd_mark" [Some a])
  /\ cmd_kill match_is_empty tree_render tree_close_con tree_close m o s
     = (None, recorded "cmd_kill" [Some (default "window" o)])
  /\ cmd_border match_is_empty tree_render con_set_border_style con_border_style
       BS_NORMAL BS_NONE BS_1PIXEL m a s
     = (None, recorded "cmd_border" [Some a])
  /\ cmd_move_con_to_workspace_name match_is_empty tree_render con_move_to_workspace
       workspace_get m a s
     = Ok (None, recorded "cmd_move_con_to_workspace_name" [Some a])
  /\ cmd_workspace_name tree_render con_get_workspace workspace_back_and_forth
       workspace_show_by_name con_name workspace_auto_back_and_forth m a s
     = Ok (None, recorded "cmd_workspace_name" [Some a])
  /\ cmd_focus_direction tree_render tree_next m a s
     = Ok (None, recorded "cmd_focus_direction" [Some a])
  /\ cmd_focus_level tree_render level_up level_down m a s
     = Ok (None, recorded "cmd_focus_level" [Some a])
  /\ cmd_focus_window_mode tree_render con_focus con_get_workspace
       con_descend_focused focus_head m a s
     = Ok (None, recorded "cmd_focus_window_mode" [Some a])
  /\ cmd_open tree_render tree_open_con con_focus m s
     = (None, recorded "cmd_open" [])
  /\ cmd_move_direction con_is_floating floating_reposition tree_move tree_render
       m a b s
     = Ok (None, recorded "cmd_move_direction" [Some a; Some b])
  /\ cmd_move_con_to_workspace match_is_empty tree_render con_move_to_workspace
       workspace_next workspace_prev workspace_next_on_output
       workspace_prev_on_output m a s
     = (None, recorded "cmd_move_con_to_workspace" [Some a])
  /\ cmd_floating match_is_empty tree_render toggle_floating_mode floating_enable
       floating_disable m a s
     = (None, recorded "cmd_floating" [Some a])
  /\ cmd_scratchpad_show match_is_empty tree_render scratchpad_show m s
     = (None, recorded "cmd_scratchpad_show" [])
  /\ cmd_criteria_init match_init s
     = (None, match_init, set_owindows s (all_cons (st_tree s)))
  /\ new_stackframes (snd (cmd_criteria_init match_init s)) = new_stackframes s
  /\ cmd_criteria_add regex_new m a b s
     = (None,
        snd (fst (cmd_criteria_add regex_new m a b (set_migration_test s false))),
        recorded "cmd_criteria_add" [])
  /\ (all_allocated (st_tree s) (owindows s) ->
      exists calls,
        cmd_criteria_match_windows match_matches_window regex_matches m s
        = Ok (None,
              set_owindows (recorded "cmd_criteria_match_windows" [])
                (List.filter (selects match_matches_window regex_matches m (st_tree s))
                   (owindows s)),
              calls)).
Proof.
  intros recorded Hmig. subst recorded.
  unfold cmd_resize, cmd_focus, cmd_layout, cmd_fullscreen, cmd_move_scratchpad,
    cmd_mark, cmd_kill, cmd_border, cmd_move_con_to_workspace_name,
    cmd_workspace_name, cmd_focus_direction, cmd_focus_level,
    cmd_focus_window_mode, cmd_open, cmd_move_direction,
    cmd_move_con_to_workspace, cmd_floating, cmd_scratchpad_show,
    cmd_criteria_init, cmd_criteria_add, cmd_criteria_match_windows,
    MIGRATION_init.
  rewrite Hmig. do 21 (split; [reflexivity|]).
  intros Hall.
  change (st_tree (cmd_MIGRATION_save_new_parameters m
            [Some "cmd_criteria_match_windows"] s)) with (st_tree s).
  change (owindows (cmd_MIGRATION_save_new_parameters m
            [Some "cmd_criteria_match_windows"] s)) with (owindows s).
  destruct (match_loop_filter match_matches_window regex_matches m (st_tree s)
              (owindows s) Hall) as (calls & ->).
  exists calls. reflexivity.
Qed.

Lemma capturing_handlers_only_record_witness :
  cmd_kill sample_match_is_empty (fun t => t) (fun _ t => set_heap t ∅)
    (fun _ _ _ _ t => t) sample_match_init None
    (set_migration_test (sample_state 1 1) true)
  = (None,
     cmd_MIGRATION_save_new_parameters sample_match_init
       [Some "cmd_kill"; Some "window"] (set_migration_test (sample_state 1 1) true))
  /\ match_class
       (snd (fst (cmd_criteria_add (fun p => Some {| pattern := p |})
                    sample_match_init "class" "term"
                    (set_migration_test (sample_state 1 1) true))))
     = Some {| pattern := "term" |}.
Proof.
  pose proof (capturing_handlers_only_record sample_match_is_empty (fun t => t)
                (fun _ _ => NULL) (fun _ _ => 2) (fun _ _ => 2) (fun _ p => p)
                sample_con_focus (fun _ t => t) (fun _ t => t) (fun _ t => t)
                (fun _ _ t => t)
                (fun _ _ t => t) (fun _ t => set_heap t ∅) (fun _ _ _ _ t => t)
                (fun _ _ t => t) (fun t => (9, t)) (fun t => t) (fun t => t)
                (fun _ _ _ _ t => t) (fun _ _ t => t) (fun _ t => (2, t))
                (fun _ => 2) (fun _ => 2) (fun _ => 2) (fun _ => 2)
                (fun t => t) (fun _ t => t) (fun _ _ => "1") (fun _ _ => 0)
                (fun _ _ => []) false (fun _ _ => false) (fun _ _ t => t)
                (fun _ _ t => t) (fun _ _ t => t) (fun _ _ t => t)
                (fun _ t => t) (fun p => Some {| pattern := p |})
                sample_match_init sample_match_matches_window sample_regex_matches
                0 1 2 8%nat sample_match_init
                "class" "term" "c" "d" None
                (set_migration_test (sample_state 1 1) true)
                eq_refl) as H.
  split.
  - exact (proj1 (proj2 (proj2 (proj2 (proj2 (proj2 (proj2 H))))))).
  - destruct H as (_&_&_&_&_&_&_&_&_&_&_&_&_&_&_&_&_&_&_&_& Hadd & _).
    rewrite Hadd. reflexivity.
Defined.

(** ** Layout and fullscreen mode names *)

(** X25. [cmd_layout] and [cmd_fullscreen] reject no name.  For
    [cmd_layout], stacking is stacked, and every name other than default,
    stacked and stacking gives the tree that tabbed gives; for
    [cmd_fullscreen], no mode is output, and every mode other than global
    gives the tree that output gives.  Neither returns a failure reply. *)
Theorem layout_and_fullscreen_names
    (match_is_empty : Match -> bool) (tree_render : tree -> tree)
    (con_set_layout : ptr -> layout_t -> tree -> tree)
    (con_toggle_fullscreen : ptr -> fullscreen_mode_t -> tree -> tree)
    (m : Match) (name : string) (s : state) :
  migration_test s = false ->
  let tree_of (r : option string * state) := (fst r, st_tree (snd r)) in
  cmd_layout match_is_empty con_set_layout tree_render m "stacking" s
  = cmd_layout match_is_empty con_set_layout tree_render m "stacked" s
  /\ cmd_fullscreen match_is_empty con_toggle_fullscreen tree_render m None s
     = cmd_fullscreen match_is_empty con_toggle_fullscreen tree_render m (Some "output") s
  /\ (name <> "default" -> name <> "stacked" -> name <> "stacking" ->
      match cmd_layout match_is_empty con_set_layout tree_render m name s,
            cmd_layout match_is_empty con_set_layout tree_render m "tabbed" s with
      | Ok r, Ok r' => tree_of r = tree_of r' /\ fst r = Some reply_success
      | Fault, Fault => True
      | _, _ => False
      end)
  /\ (name <> "global" ->
      tree_of (cmd_fullscreen match_is_empty con_toggle_fullscreen tree_render m
                 (Some name) s)
      = tree_of (cmd_fullscreen match_is_empty con_toggle_fullscreen tree_render m
                   (Some "output") s)
      /\ fst (cmd_fullscreen match_is_empty con_toggle_fullscreen tree_render m
                (Some name) s) = Some reply_success).
Proof.
  intros Hmig tree_of. split; [reflexivity|]. split; [reflexivity|]. split.
  - intros Hd Hs Hg. apply String.eqb_neq in Hd, Hs, Hg.
    unfold cmd_layout, MIGRATION_init, layout_of. rewrite Hmig, Hg.
    change (String.eqb "tabbed" "stacking") with false. cbv iota.
    rewrite Hd, Hs.
    change (String.eqb "tabbed" "default") with false.
    change (String.eqb "tabbed" "stacked") with false. cbv iota.
    destruct (match_is_empty m).
    + simpl. unfold deref.
      destruct (heap (st_tree s) !! focused (st_tree s)); simpl; auto.
    + simpl. auto.
  - intros Hg. apply String.eqb_neq in Hg.
    unfold cmd_fullscreen, MIGRATION_init. rewrite Hmig. simpl default.
    rewrite Hg. change (String.eqb "output" "global") with false.
    unfold HANDLE_EMPTY_MATCH. destruct (match_is_empty m); split; reflexivity.
Qed.

Lemma layout_and_fullscreen_names_witness :
  exists r,
    cmd_layout sample_match_is_empty sample_con_set_layout (fun t => t)
      (sample_match_class "term") "grid" (sample_state 1 1) = Ok r
    /\ fst r = Some reply_success.
Proof.
  destruct (layout_and_fullscreen_names sample_match_is_empty (fun t => t)
              sample_con_set_layout (fun _ _ t => t) (sample_match_class "term")
              "grid" (sample_state 1 1) eq_refl) as (_ & _ & Hlayout & _).
  specialize (Hlayout ltac:(discriminate) ltac:(discriminate) ltac:(discriminate)).
  destruct (cmd_layout sample_match_is_empty sample_con_set_layout (fun t => t)
              (sample_match_class "term") "grid" (sample_state 1 1)) as [r| |] eqn:Hrun.
  - destruct (cmd_layout sample_match_is_empty sample_con_set_layout (fun t => t)
                (sample_match_class "term") "tabbed" (sample_state 1 1)) as [r'| |];
      [|contradiction|contradiction].
    exists r. split; [reflexivity | exact (proj2 Hlayout)].
  - discriminate Hrun.
  - discriminate Hrun.
Defined.

(** ** cmd_move_direction *)

Lemma uint32_there_and_back (a px : Z) :
  0 <= a < 2 ^ 32 ->
  uint32_wrap (uint32_wrap (a - px) + px) = a
  /\ uint32_wrap (uint32_wrap (a + px) - px) = a.
Proof.
  intros Ha. unfold uint32_wrap.
  rewrite Zplus_mod_idemp_l, Zminus_mod_idemp_l.
  replace (a - px + px) with a by lia. replace (a + px - px) with a by lia.
  rewrite Z.mod_small by lia. auto.
Qed.

(** X26. The rectangle that [cmd_move_direction] computes for a floating
    container: the size is never changed; a direction other than left,
    right, up and down leaves the rectangle as it is; and a move followed
    by the move of the same amount in the opposite direction gives the
    rectangle back, also when the position wrapped around in between. *)
Theorem move_rect_there_and_back (direction : string) (px : Z) (r : Rect) :
  rect_in_range r ->
  rect_width (move_rect direction px r) = rect_width r
  /\ rect_height (move_rect direction px r) = rect_height r
  /\ (direction <> "left" -> direction <> "right" ->
      direction <> "up" -> direction <> "down" -> move_rect direction px r = r)
  /\ move_rect "right" px (move_rect "left" px r) = r
  /\ move_rect "left" px (move_rect "right" px r) = r
  /\ move_rect "down" px (move_rect "up" px r) = r
  /\ move_rect "up" px (move_rect "down" px r) = r.
Proof.
  intros (Hx & Hy & _ & _). destruct r as [x y w h]; simpl in *.
  destruct (uint32_there_and_back x px Hx) as (Hx1 & Hx2).
  destruct (uint32_there_and_back y px Hy) as (Hy1 & Hy2).
  split; [|split; [|split]].
  - unfold move_rect. repeat (destruct (String.eqb direction _)); reflexivity.
  - unfold move_rect. repeat (destruct (String.eqb direction _)); reflexivity.
  - intros Hl Hr Hu Hd. apply String.eqb_neq in Hl, Hr, Hu, Hd.
    unfold move_rect. rewrite Hl, Hr, Hu, Hd. reflexivity.
  - unfold move_rect. simpl. rewrite Hx1, Hx2, Hy1, Hy2. auto.
Qed.

(** A window at the left edge moved left by 30 and right by 30. *)
Lemma move_rect_there_and_back_witness :
  rect_x (move_rect "left" 30
            {| rect_x := 5; rect_y := 5; rect_width := 10; rect_height := 10 |})
  = 2 ^ 32 - 25
  /\ move_rect "right" 30
       (move_rect "left" 30
          {| rect_x := 5; rect_y := 5; rect_width := 10; rect_height := 10 |})
     = {| rect_x := 5; rect_y := 5; rect_width := 10; rect_height := 10 |}.
Proof.
  split; [reflexivity|].
  apply (move_rect_there_and_back "left" 30
           {| rect_x := 5; rect_y := 5; rect_width := 10; rect_height := 10 |}).
  unfold rect_in_range. simpl. lia.
Defined.

(** X27. [cmd_move_direction] never answers failure: outside the parser
    test, whenever it returns, the reply is the success reply.  With a
    tiling container focused it always returns: the container is moved
    right, left or up for these directions and down for every other one,
    and the tree is rendered.  With a floating container focused, the
    rectangle of its parent moved by [atoi(move_px)] goes to
    [floating_reposition], and the handler itself does not render. *)
Theorem move_direction_cases
    (con_is_floating : tree -> ptr -> bool)
    (floating_reposition : ptr -> Rect -> tree -> tree)
    (tree_move : direction_token -> tree -> tree) (tree_render : tree -> tree)
    (m : Match) (direction move_px : string) (s : state) :
  let t := st_tree s in
  migration_test s = false ->
  (forall reply s',
     cmd_move_direction con_is_floating floating_reposition tree_move tree_render
       m direction move_px s
     = Ok (reply, s') ->
     reply = Some reply_success)
  /\ (con_is_floating t (focused t) = false ->
      exists s' token,
        cmd_move_direction con_is_floating floating_reposition tree_move tree_render
          m direction move_px s
        = Ok (Some reply_success, s')
        /\ st_tree s' = tree_render (tree_move token t)
        /\ (direction = "right" -> token = TOK_RIGHT)
        /\ (direction = "left" -> token = TOK_LEFT)
        /\ (direction = "up" -> token = TOK_UP)
        /\ (direction <> "right" -> direction <> "left" -> direction <> "up" ->
            token = TOK_DOWN))
  /\ (forall f p,
        con_is_floating t (focused t) = true ->
        heap t !! focused t = Some f ->
        heap t !! con_parent f = Some p ->
        exists s',
          cmd_move_direction con_is_floating floating_reposition tree_move tree_render
            m direction move_px s
          = Ok (Some reply_success, s')
          /\ st_tree s'
             = floating_reposition (con_parent f)
                 (move_rect direction (atoi move_px) (con_rect p)) t).
Proof.
  intros t Hmig. unfold cmd_move_direction, MIGRATION_init. rewrite Hmig.
  change (st_tree (cmd_MIGRATION_save_old_parameters m
            [Some "cmd_move_direction"; Some direction; Some move_px] s)) with t.
  cbv zeta. split; [|split].
  - intros reply s'. destruct (con_is_floating t (focused t)).
    + unfold deref.
      destruct (heap t !! focused t) as [f|]; simpl; [|discriminate].
      destruct (heap t !! con_parent f) as [p|]; simpl; [|discriminate].
      intros [= <- _]. reflexivity.
    + intros [= <- _]. reflexivity.
  - intros Hfl. rewrite Hfl. eexists _, _. split; [reflexivity|].
    split; [reflexivity|].
    split; [intros ->; reflexivity|].
    split; [intros ->; reflexivity|].
    split; [intros ->; reflexivity|].
    intros Hr Hl Hu. apply String.eqb_neq in Hr, Hl, Hu.
    rewrite Hr, Hl, Hu. reflexivity.
  - intros f p Hfl Hf Hp. rewrite Hfl. unfold deref. unfold ptr in *.
    rewrite Hf. simpl. rewrite Hp. simpl. eexists. split; reflexivity.
Qed.

Lemma move_direction_cases_witness :
  exists s',
    cmd_move_direction (fun _ _ => false) (fun _ _ t => t)
      (fun token t =>
         match token with
         | TOK_DOWN => {| heap := heap t; all_cons := all_cons t; focused := 4 |}
         | _ => t
         end)
      (fun t => t) sample_match_init "north" "10" (sample_state 1 1)
    = Ok (Some reply_success, s')
    /\ focused (st_tree s') = 4.
Proof.
  destruct (move_direction_cases (fun _ _ => false) (fun _ _ t => t)
      (fun token t =>
         match token with
         | TOK_DOWN => {| heap := heap t; all_cons := all_cons t; focused := 4 |}
         | _ => t
         end)
      (fun t => t) sample_match_init "north" "10" (sample_state 1 1) eq_refl)
    as (_ & Htiling & _).
  destruct Htiling as (s' & token & Hrun & Ht & _ & _ & _ & Hdown); [reflexivity|].
  exists s'. split; [exact Hrun|].
  rewrite Ht, Hdown by discriminate. reflexivity.
Defined.
(** ** The empty match *)




